(** * Trade-opportunity detection and two-leg order execution: model and proofs

    A shallow embedding of the trading core of the market dashboard
    ([calculations.py], [order_manager.py], [Version_history/place_order_logics.py]
    and [100%working-backup/v3-working-test.py]) together with the properties
    the specification states about it.

    Conventions of the model.
    - Python numbers (quotes, percentages, thresholds, margins) are exact
      rationals [Q]: the model abstracts from IEEE rounding, NaN and
      infinities.  Integers used as counts (quantities, lots, lot sizes) are [Z].
    - Python [str] is [string]; the character predicates are the ASCII ones
      (a character above 127 is neither a digit, a letter nor white space and
      is left alone by [upper]).
    - A [dict] whose iteration order is observable is an association list in
      insertion order; a value that may be absent is an [option].
    - A value whose Python type varies at run time (a time stamp that is a
      text or a [datetime] object) is an inductive type, one constructor per
      type, and an exception caught by the code is a [None].
    - The broker gateway is an explicit state with a log of the calls made. *)

From Stdlib Require Import List String Ascii Bool ZArith NArith QArith Qabs Lia Permutation.
From Stdlib Require Import DecimalString Sorted.
Import ListNotations.
Open Scope string_scope.
Open Scope list_scope.
Open Scope Z_scope.

(* ================================================================== *)
(** * Python built-ins used by the sources *)
(* ================================================================== *)

Module Py.

(** ** Characters and strings *)

Definition code (c : ascii) : N := N_of_ascii c.

Definition between (lo hi : N) (c : ascii) : bool :=
  (N.leb lo (code c) && N.leb (code c) hi)%bool.

(** [ch.isdigit()] *)
Definition isdigit (c : ascii) : bool := between 48 57 c.

Definition isupper (c : ascii) : bool := between 65 90 c.
Definition islower (c : ascii) : bool := between 97 122 c.

(** [ch.isalnum()] *)
Definition isalnum (c : ascii) : bool := (isdigit c || isupper c || islower c)%bool.

(** [ch.isspace()]: tab, line feed, vertical tab, form feed, carriage
    return, the four separators 28..31 and the space. *)
Definition isspace (c : ascii) : bool := (between 9 13 c || between 28 32 c)%bool.

Definition upper_char (c : ascii) : ascii :=
  if islower c then ascii_of_N (code c - 32) else c.

(** [s.upper()] *)
Fixpoint upper (s : string) : string :=
  match s with
  | EmptyString => EmptyString
  | String c r => String (upper_char c) (upper r)
  end.

(** [''.join(ch for ch in s if p(ch))] *)
Fixpoint keep (p : ascii -> bool) (s : string) : string :=
  match s with
  | EmptyString => EmptyString
  | String c r => if p c then String c (keep p r) else keep p r
  end.

(** [sum(1 for ch in s if p(ch))] *)
Fixpoint count (p : ascii -> bool) (s : string) : Z :=
  match s with
  | EmptyString => 0
  | String c r => (if p c then 1 else 0) + count p r
  end.

(** [s.startswith(pre)] *)
Fixpoint startswith (pre s : string) : bool :=
  match pre, s with
  | EmptyString, _ => true
  | String _ _, EmptyString => false
  | String a pre', String b s' => (Ascii.eqb a b && startswith pre' s')%bool
  end.

(** [needle in hay] *)
Fixpoint contains (needle hay : string) : bool :=
  (startswith needle hay ||
   match hay with
   | EmptyString => false
   | String _ r => contains needle r
   end)%bool.

Fixpoint lstrip_by (p : ascii -> bool) (s : string) : string :=
  match s with
  | EmptyString => EmptyString
  | String c r => if p c then lstrip_by p r else s
  end.

Fixpoint rstrip_by (p : ascii -> bool) (s : string) : string :=
  match s with
  | EmptyString => EmptyString
  | String c r =>
      match rstrip_by p r with
      | EmptyString => if p c then EmptyString else String c EmptyString
      | r' => String c r'
      end
  end.

(** [s.strip()] *)
Definition strip (s : string) : string := rstrip_by isspace (lstrip_by isspace s).

(** [s.split(sep)[0]] for a one-character separator *)
Fixpoint split_head (sep : ascii) (s : string) : string :=
  match s with
  | EmptyString => EmptyString
  | String c r => if Ascii.eqb c sep then EmptyString else String c (split_head sep r)
  end.

Definition nonempty (s : string) : bool :=
  match s with EmptyString => false | _ => true end.

Definition digit_value (c : ascii) : Z := Z.of_N (code c - 48).

(** ** Numbers *)

(** [x < y] on numbers *)
Definition Qltb (x y : Q) : bool := negb (Qle_bool y x).

(** [min(x, y)]: the first argument unless the second is smaller *)
Definition min (x y : Q) : Q := if Qltb y x then y else x.

(** ** Dynamically typed values, where the code converts them defensively *)

Inductive pyval : Type :=
  | PyNone
  | PyInt (z : Z)
  | PyFloat (q : Q)
  | PyStr (s : string).

(** Truth value of an object *)
Definition truthy (v : pyval) : bool :=
  match v with
  | PyNone => false
  | PyInt z => negb (Z.eqb z 0)
  | PyFloat q => negb (Z.eqb (Qnum q) 0)
  | PyStr s => nonempty s
  end.

(** [a or b] *)
Definition por (a b : pyval) : pyval := if truthy a then a else b.

(** Decimal digits, a single underscore allowed between two digits. *)
Fixpoint int_digits (acc : Z) (s : string) : option Z :=
  match s with
  | EmptyString => Some acc
  | String c r =>
      if isdigit c then int_digits (10 * acc + digit_value c) r
      else if Ascii.eqb c "_" then
        match r with
        | String d r' =>
            if isdigit d then int_digits (10 * acc + digit_value d) r' else None
        | EmptyString => None
        end
      else None
  end.

Definition int_unsigned (s : string) : option Z :=
  match s with
  | String c r => if isdigit c then int_digits (digit_value c) r else None
  | EmptyString => None
  end.

(** The white space [int] skips around the digits: tab to carriage return,
    and the space. *)
Definition isspace_c (c : ascii) : bool := (between 9 13 c || between 32 32 c)%bool.

(** [int(s)] for a string: surrounding white space, an optional sign,
    decimal digits.  [None] stands for [ValueError]. *)
Definition int_of_string (s : string) : option Z :=
  match rstrip_by isspace_c (lstrip_by isspace_c s) with
  | String "-" r => option_map Z.opp (int_unsigned r)
  | String "+" r => int_unsigned r
  | t => int_unsigned t
  end.

(** [int(v)]: truncation toward zero for a float; [None] stands for the
    exception ([TypeError] for [None], [ValueError] for a bad string). *)
Definition int (v : pyval) : option Z :=
  match v with
  | PyNone => None
  | PyInt z => Some z
  | PyFloat q => Some (Z.quot (Qnum q) (Zpos (Qden q)))
  | PyStr s => int_of_string s
  end.

(** ** Dictionaries in insertion order *)

Definition dict (V : Type) : Type := list (string * V).

(** [d.get(k)] *)
Fixpoint get {V} (k : string) (d : dict V) : option V :=
  match d with
  | [] => None
  | (k', v) :: r => if String.eqb k k' then Some v else get k r
  end.

(** [d[k] = v]: an existing key keeps its place, a new key goes last *)
Fixpoint set {V} (k : string) (v : V) (d : dict V) : dict V :=
  match d with
  | [] => [(k, v)]
  | (k', v') :: r => if String.eqb k k' then (k, v) :: r else (k', v') :: set k v r
  end.

(** ** Stable sorting: [sorted(l, key=...)] and [l.sort(key=..., reverse=True)] *)

Section Sort.

Context {A K : Type} (lt : K -> K -> bool) (key : A -> K).

(** [x] stood before every element of [l] in the input: it goes in front
    of the first element that is not strictly smaller. *)
Fixpoint insert_asc (x : A) (l : list A) : list A :=
  match l with
  | [] => [x]
  | y :: r => if lt (key y) (key x) then y :: insert_asc x r else x :: y :: r
  end.

Definition sorted_by (l : list A) : list A := fold_right insert_asc [] l.

(** With [reverse=True] the order is descending and equal keys keep
    their input order. *)
Fixpoint insert_desc (x : A) (l : list A) : list A :=
  match l with
  | [] => [x]
  | y :: r => if lt (key x) (key y) then y :: insert_desc x r else x :: y :: r
  end.

Definition sorted_by_reverse (l : list A) : list A := fold_right insert_desc [] l.

End Sort.

End Py.

(* ================================================================== *)
(** * [datetime]: the part of the library the sources call *)
(* ================================================================== *)

Module Datetime.

Record datetime : Type := mkdatetime {
  year : Z; month : Z; day : Z;
  hour : Z; minute : Z; second : Z; microsecond : Z
}.

(** [datetime.min] *)
Definition datetime_min : datetime := mkdatetime 1 1 1 0 0 0 0.

Definition is_leap (y : Z) : bool :=
  ((y mod 4 =? 0) && (negb (y mod 100 =? 0) || (y mod 400 =? 0)))%bool.

Definition days_in_month (y m : Z) : Z :=
  if m =? 2 then (if is_leap y then 29 else 28)
  else if (m =? 4) || (m =? 6) || (m =? 9) || (m =? 11) then 30
  else 31.

Definition in_range (lo hi x : Z) : bool := ((lo <=? x) && (x <=? hi))%bool.

(** The constructor [datetime(y, m, d, H, M, S, us)]; [None] stands for
    the [ValueError] raised on a field out of range. *)
Definition make (y m d H M S us : Z) : option datetime :=
  if (in_range 1 9999 y && in_range 1 12 m && in_range 1 (days_in_month y m) d &&
      in_range 0 23 H && in_range 0 59 M && in_range 0 59 S && in_range 0 999999 us)%bool
  then Some (mkdatetime y m d H M S us)
  else None.

(** ** Order: field by field, as the library compares naive datetimes *)

Fixpoint lex_ltb (a b : list Z) : bool :=
  match a, b with
  | [], [] => false
  | [], _ :: _ => true
  | _ :: _, [] => false
  | x :: a', y :: b' => if x <? y then true else if y <? x then false else lex_ltb a' b'
  end.

Definition fields (d : datetime) : list Z :=
  [year d; month d; day d; hour d; minute d; second d; microsecond d].

(** [a < b] *)
Definition ltb (a b : datetime) : bool := lex_ltb (fields a) (fields b).

(** ** Differences: [(a - b).days] *)

Definition days_before_year (y : Z) : Z :=
  let p := y - 1 in p * 365 + p / 4 - p / 100 + p / 400.

Fixpoint days_before_month_aux (y : Z) (m : nat) : Z :=
  match m with
  | O => 0
  | S m' => days_before_month_aux y m' + days_in_month y (Z.of_nat m)
  end.

Definition days_before_month (y m : Z) : Z := days_before_month_aux y (Z.to_nat (m - 1)).

Definition toordinal (d : datetime) : Z :=
  days_before_year (year d) + days_before_month (year d) (month d) + day d.

Definition microseconds (d : datetime) : Z :=
  (((toordinal d * 24 + hour d) * 60 + minute d) * 60 + second d) * 1000000 + microsecond d.

(** [(a - b).days]: the difference is normalised so that the remainder is
    non-negative, hence floor division. *)
Definition days_between (a b : datetime) : Z :=
  (microseconds a - microseconds b) / 86400000000.

(** ** [strptime]

    The library turns the format into a regular expression, one group per
    directive, matches it at the start of the text with the usual
    backtracking priorities (case-insensitively), rejects a match that does
    not reach the end of the text, and builds the datetime from the groups.
    A parser returns its matches in the order the engine tries them. *)

Definition parser (A : Type) : Type := string -> list (A * string).

Definition alt {A} (p q : parser A) : parser A := fun s => p s ++ q s.

Definition is_char (c : ascii) (x : ascii) : bool := Ascii.eqb c x.

Definition one (p : ascii -> bool) : parser Z := fun s =>
  match s with
  | String c r => if p c then [(Py.digit_value c, r)] else []
  | EmptyString => []
  end.

Definition two (p1 p2 : ascii -> bool) : parser Z := fun s =>
  match s with
  | String c1 (String c2 r) =>
      if (p1 c1 && p2 c2)%bool then [(10 * Py.digit_value c1 + Py.digit_value c2, r)] else []
  | _ => []
  end.

(** [\d\d\d\d] *)
Definition four_digits : parser Z := fun s =>
  match s with
  | String a (String b (String c (String d r))) =>
      if (Py.isdigit a && Py.isdigit b && Py.isdigit c && Py.isdigit d)%bool
      then [(1000 * Py.digit_value a + 100 * Py.digit_value b
             + 10 * Py.digit_value c + Py.digit_value d, r)]
      else []
  | _ => []
  end.

(** [1[0-2]|0[1-9]|[1-9]] *)
Definition re_m : parser Z :=
  alt (two (is_char "1") (Py.between 48 50))
  (alt (two (is_char "0") (Py.between 49 57))
      (one (Py.between 49 57))).

(** [3[0-1]|[1-2]\d|0[1-9]|[1-9]| [1-9]] *)
Definition re_d : parser Z :=
  alt (two (is_char "3") (Py.between 48 49))
  (alt (two (Py.between 49 50) Py.isdigit)
  (alt (two (is_char "0") (Py.between 49 57))
  (alt (one (Py.between 49 57))
      (fun s => match s with
                | String " " r => one (Py.between 49 57) r
                | _ => []
                end)))).

(** [2[0-3]|[0-1]\d|\d] *)
Definition re_H : parser Z :=
  alt (two (is_char "2") (Py.between 48 51))
  (alt (two (Py.between 48 49) Py.isdigit)
      (one Py.isdigit)).

(** [[0-5]\d|\d] *)
Definition re_M : parser Z :=
  alt (two (Py.between 48 53) Py.isdigit) (one Py.isdigit).

(** [6[0-1]|[0-5]\d|\d] *)
Definition re_S : parser Z :=
  alt (two (is_char "6") (Py.between 48 49))
  (alt (two (Py.between 48 53) Py.isdigit)
      (one Py.isdigit)).

(** [[0-9]{1,6}], longest first; the digits are padded on the right to six
    places. *)
Fixpoint re_f_aux (n : nat) (acc : Z) (s : string) : list (Z * string) :=
  match n with
  | O => []
  | S n' =>
      match s with
      | String c r =>
          if Py.isdigit c then
            let acc' := 10 * acc + Py.digit_value c in
            re_f_aux n' acc' r ++ [(acc' * 10 ^ Z.of_nat n', r)]
          else []
      | EmptyString => []
      end
  end.

Definition re_f : parser Z := re_f_aux 6 0.

(** [\s+], longest first *)
Fixpoint re_spaces (s : string) : list (unit * string) :=
  match s with
  | String c r => if Py.isspace c then re_spaces r ++ [(tt, r)] else []
  | EmptyString => []
  end.

(** A literal character of the format, compared without case *)
Definition re_lit (c : ascii) : parser unit := fun s =>
  match s with
  | String x r => if Ascii.eqb (Py.upper_char x) (Py.upper_char c) then [(tt, r)] else []
  | EmptyString => []
  end.

Inductive directive : Type :=
  | DY | Dm | Dd | DH | DM | DS | Df
  | Spaces
  | Lit (c : ascii).

(** A format string as the list of its directives, for the directives the
    sources use; a run of white space in the format is one [Spaces]. *)
Fixpoint directives_from (after_space : bool) (fmt : string) : list directive :=
  match fmt with
  | EmptyString => []
  | String "%" (String c r) =>
      (if Ascii.eqb c "Y" then DY
       else if Ascii.eqb c "m" then Dm
       else if Ascii.eqb c "d" then Dd
       else if Ascii.eqb c "H" then DH
       else if Ascii.eqb c "M" then DM
       else if Ascii.eqb c "S" then DS
       else if Ascii.eqb c "f" then Df
       else Lit c) :: directives_from false r
  | String c r =>
      if Py.isspace c then
        (if after_space then directives_from true r else Spaces :: directives_from true r)
      else Lit c :: directives_from false r
  end.

Definition directives (fmt : string) : list directive := directives_from false fmt.

(** The groups found so far; the defaults are the library's. *)
Record groups : Type := mkgroups {
  gY : Z; gm : Z; gd : Z; gH : Z; gM : Z; gS : Z; gf : Z
}.

Definition no_groups : groups := mkgroups 1900 1 1 0 0 0 0.

Definition step (d : directive) (g : groups) : parser groups := fun s =>
  match d with
  | DY => map (fun '(v, r) => (mkgroups v (gm g) (gd g) (gH g) (gM g) (gS g) (gf g), r)) (four_digits s)
  | Dm => map (fun '(v, r) => (mkgroups (gY g) v (gd g) (gH g) (gM g) (gS g) (gf g), r)) (re_m s)
  | Dd => map (fun '(v, r) => (mkgroups (gY g) (gm g) v (gH g) (gM g) (gS g) (gf g), r)) (re_d s)
  | DH => map (fun '(v, r) => (mkgroups (gY g) (gm g) (gd g) v (gM g) (gS g) (gf g), r)) (re_H s)
  | DM => map (fun '(v, r) => (mkgroups (gY g) (gm g) (gd g) (gH g) v (gS g) (gf g), r)) (re_M s)
  | DS => map (fun '(v, r) => (mkgroups (gY g) (gm g) (gd g) (gH g) (gM g) v (gf g), r)) (re_S s)
  | Df => map (fun '(v, r) => (mkgroups (gY g) (gm g) (gd g) (gH g) (gM g) (gS g) v, r)) (re_f s)
  | Spaces => map (fun '(_, r) => (g, r)) (re_spaces s)
  | Lit c => map (fun '(_, r) => (g, r)) (re_lit c s)
  end.

Fixpoint matches (ds : list directive) (g : groups) : parser groups := fun s =>
  match ds with
  | [] => [(g, s)]
  | d :: ds' => flat_map (fun '(g', r) => matches ds' g' r) (step d g s)
  end.

(** [datetime.strptime(text, fmt)]; [None] stands for [ValueError]. *)
Definition strptime (text fmt : string) : option datetime :=
  match matches (directives fmt) no_groups text with
  | (g, EmptyString) :: _ => make (gY g) (gm g) (gd g) (gH g) (gM g) (gS g) (gf g)
  | _ => None
  end.

(** ** [strftime("%y%b")] *)

Definition two_digits (n : Z) : string :=
  String (ascii_of_N (Z.to_N (48 + n / 10))) (String (ascii_of_N (Z.to_N (48 + n mod 10))) "").

Definition month_abbr (m : Z) : string :=
  match m with
  | 1 => "Jan" | 2 => "Feb" | 3 => "Mar" | 4 => "Apr" | 5 => "May" | 6 => "Jun"
  | 7 => "Jul" | 8 => "Aug" | 9 => "Sep" | 10 => "Oct" | 11 => "Nov" | _ => "Dec"
  end.

Definition strftime_yb (d : datetime) : string :=
  (two_digits (year d mod 100) ++ month_abbr (month d))%string.

End Datetime.

(* ================================================================== *)
(** * [calculations.py] *)
(* ================================================================== *)

Module Calculations.

(** One element of [live_prices_data]. *)
Module Stock.

Record t : Type := mk {
  symbol : string;
  exchange : string;
  last_price : Q;
  volume : option Q;
  change_pct : option Q
}.

End Stock.

(** One element of the list [calculate_arbitrage_opportunities] returns. *)
Module Arbitrage.

Record t : Type := mk {
  symbol : string;
  nse_price : Q;
  bse_price : Q;
  price_difference : Q;
  price_difference_pct : Q;
  profit_per_share : Q;
  higher_exchange : string;
  lower_exchange : string;
  higher_price : Q;
  lower_price : Q;
  nse_volume : Q;
  bse_volume : Q;
  avg_volume : Q;
  arbitrage_score : Q;
  nse_change_pct : Q;
  bse_change_pct : Q;
  is_profitable : bool
}.

End Arbitrage.

Definition get_default {V} (d : V) (o : option V) : V :=
  match o with Some v => v | None => d end.

(** The first loop: [stock_groups[symbol][exchange] = stock]. *)
Definition group_stock (stock_groups : Py.dict (Py.dict Stock.t)) (stock : Stock.t)
  : Py.dict (Py.dict Stock.t) :=
  let symbol := Stock.symbol stock in
  let exchange := Stock.exchange stock in
  let exchanges := get_default [] (Py.get symbol stock_groups) in
  Py.set symbol (Py.set exchange stock exchanges) stock_groups.

Definition stock_groups_of (live_prices_data : list Stock.t) : Py.dict (Py.dict Stock.t) :=
  fold_left group_stock live_prices_data [].

(** The body of the second loop for one symbol: [None] when the iteration
    appends nothing (an exchange is missing, a price is not positive, or the
    [continue] of the threshold test is taken). *)
Definition arbitrage_row (min_profit_threshold : Q) (symbol : string)
           (exchanges : Py.dict Stock.t) : option Arbitrage.t :=
  match Py.get "NSE" exchanges, Py.get "BSE" exchanges with
  | Some nse_data, Some bse_data =>
      let nse_price := Stock.last_price nse_data in
      let bse_price := Stock.last_price bse_data in
      if (Py.Qltb 0 nse_price && Py.Qltb 0 bse_price)%bool then
        let price_diff := Qabs (nse_price - bse_price) in
        let price_diff_pct := ((price_diff / Py.min nse_price bse_price) * 100)%Q in
        if Py.Qltb price_diff_pct min_profit_threshold then None
        else
          let higher_is_nse := Py.Qltb bse_price nse_price in
          let nse_volume := get_default 0%Q (Stock.volume nse_data) in
          let bse_volume := get_default 0%Q (Stock.volume bse_data) in
          let avg_volume := ((nse_volume + bse_volume) / 2)%Q in
          let arbitrage_score := (price_diff_pct * (avg_volume / 1000000))%Q in
          let is_profitable := Py.Qltb 0.05 price_diff_pct in
          Some {|
            Arbitrage.symbol := symbol;
            Arbitrage.nse_price := nse_price;
            Arbitrage.bse_price := bse_price;
            Arbitrage.price_difference := price_diff;
            Arbitrage.price_difference_pct := price_diff_pct;
            Arbitrage.profit_per_share := price_diff;
            Arbitrage.higher_exchange := if higher_is_nse then "NSE" else "BSE";
            Arbitrage.lower_exchange := if higher_is_nse then "BSE" else "NSE";
            Arbitrage.higher_price := if higher_is_nse then nse_price else bse_price;
            Arbitrage.lower_price := if higher_is_nse then bse_price else nse_price;
            Arbitrage.nse_volume := nse_volume;
            Arbitrage.bse_volume := bse_volume;
            Arbitrage.avg_volume := avg_volume;
            Arbitrage.arbitrage_score := arbitrage_score;
            Arbitrage.nse_change_pct := get_default 0%Q (Stock.change_pct nse_data);
            Arbitrage.bse_change_pct := get_default 0%Q (Stock.change_pct bse_data);
            Arbitrage.is_profitable := is_profitable
          |}
      else None
  | _, _ => None
  end.

(** The second loop, over [stock_groups.items()] in insertion order. *)
Fixpoint arbitrage_rows (min_profit_threshold : Q)
         (stock_groups : Py.dict (Py.dict Stock.t)) : list Arbitrage.t :=
  match stock_groups with
  | [] => []
  | (symbol, exchanges) :: rest =>
      match arbitrage_row min_profit_threshold symbol exchanges with
      | Some row => row :: arbitrage_rows min_profit_threshold rest
      | None => arbitrage_rows min_profit_threshold rest
      end
  end.

Definition default_min_profit_threshold : Q := 0.05.

Definition calculate_arbitrage_opportunities (live_prices_data : list Stock.t)
           (min_profit_threshold : Q) : list Arbitrage.t :=
  match live_prices_data with
  | [] => []
  | _ =>
      let stock_groups := stock_groups_of live_prices_data in
      let arbitrage_data := arbitrage_rows min_profit_threshold stock_groups in
      Py.sorted_by_reverse Py.Qltb Arbitrage.arbitrage_score arbitrage_data
  end.

(** ** Futures order symbol *)

Definition expiry_formats : list string :=
  ["%Y-%m-%d"; "%Y-%m-%d %H:%M:%S"; "%Y-%m-%dT%H:%M:%S"; "%Y-%m-%dT%H:%M:%S.%fZ"].

(** The [for fmt in ...: try ... break / except ValueError: continue] loop. *)
Fixpoint parse_expiry (expiry_clean : string) (formats : list string)
  : option Datetime.datetime :=
  match formats with
  | [] => None
  | fmt :: rest =>
      match Datetime.strptime expiry_clean fmt with
      | Some expiry_date => Some expiry_date
      | None => parse_expiry expiry_clean rest
      end
  end.

Definition format_futures_order_symbol (stock_symbol expiry_str : string) : string :=
  if (negb (Py.nonempty stock_symbol) || negb (Py.nonempty expiry_str))%bool then
    (if Py.nonempty stock_symbol then Py.upper stock_symbol else "")
  else
    let stock_clean := Py.keep Py.isalnum (Py.upper stock_symbol) in
    let expiry_clean := Py.strip expiry_str in
    match parse_expiry expiry_clean expiry_formats with
    | None => stock_clean
    | Some expiry_date =>
        let formatted_expiry := Py.upper (Datetime.strftime_yb expiry_date) in
        (stock_clean ++ formatted_expiry)%string
    end.

(** ** Margin estimate *)

Definition calculate_margin_required (price quantity : Q) (product : string) : Q :=
  let order_value := (price * quantity)%Q in
  if String.eqb product "CNC" then order_value
  else if String.eqb product "MIS" then (order_value * 0.30)%Q
  else if String.eqb product "NRML" then order_value
  else (order_value * 0.30)%Q.

Definition default_product : string := "MIS".

(** ** Futures contracts *)

(** One row of the instrument dump of the derivatives segment;
    [expiry] is [str(fut_row['expiry'])], [lot_size] is absent when the
    row has no such column. *)
Module FutRow.

Record t : Type := mk {
  name : string;
  tradingsymbol : string;
  instrument_type : string;
  expiry : string;
  lot_size : option Py.pyval
}.

End FutRow.

(** One value of the dictionary [get_futures_contracts] returns. *)
Module Futures.

Record t : Type := mk {
  tradingsymbol : string;
  order_tradingsymbol : string;
  exchange : string;
  expiry : string;
  days_to_expiry : Z;
  lot_size : Z
}.

End Futures.

Section Config.

(** [config.LOT_SIZE_MAP]: the override table, symbol to lot size.  The
    module [config] is not part of the sources at hand; the table is a
    parameter. *)
Variable LOT_SIZE_MAP : Py.dict Z.

(** [stock_futures.sort_values('expiry')]: the data-frame library's
    ordering of the rows by expiry, kept abstract (it decides which of two
    rows of equal expiry comes first). *)
Variable sort_values_expiry : list FutRow.t -> list FutRow.t.

(** The body of the loop over the rows of one stock: [None] when the
    iteration ends in [continue] (the expiry does not parse) or falls
    through (the contract has expired). *)
Definition futures_of_row (current_date : Datetime.datetime) (stock : string)
           (fut_row : FutRow.t) : option Futures.t :=
  let stock_key := Py.upper stock in
  let expiry_str := FutRow.expiry fut_row in
  let parsed :=
    if Py.contains "T" expiry_str
    then Datetime.strptime (Py.split_head "T" expiry_str) "%Y-%m-%d"
    else Datetime.strptime expiry_str "%Y-%m-%d" in
  match parsed with
  | None => None
  | Some expiry_date =>
      let days_to_expiry := Datetime.days_between expiry_date current_date in
      if 0 <? days_to_expiry then
        let lot_size_value :=
          match Py.get stock_key LOT_SIZE_MAP with
          | Some v => v
          | None =>
              match Py.int (get_default (Py.PyInt 1) (FutRow.lot_size fut_row)) with
              | Some v => v
              | None => 1
              end
          end in
        let lot_size_value := if lot_size_value <? 1 then 1 else lot_size_value in
        Some {|
          Futures.tradingsymbol := FutRow.tradingsymbol fut_row;
          Futures.order_tradingsymbol := format_futures_order_symbol stock expiry_str;
          Futures.exchange := "NFO";
          Futures.expiry :=
            if Py.contains "T" expiry_str then Py.split_head "T" expiry_str else expiry_str;
          Futures.days_to_expiry := days_to_expiry;
          Futures.lot_size := lot_size_value
        |}
      else None
  end.

(** [for _, fut_row in stock_futures.iterrows(): ... break] *)
Fixpoint first_valid_future (current_date : Datetime.datetime) (stock : string)
         (rows : list FutRow.t) : option Futures.t :=
  match rows with
  | [] => None
  | fut_row :: rest =>
      match futures_of_row current_date stock fut_row with
      | Some f => Some f
      | None => first_valid_future current_date stock rest
      end
  end.

Definition is_future_of (stock : string) (row : FutRow.t) : bool :=
  ((String.eqb (FutRow.name row) stock || Py.startswith stock (FutRow.tradingsymbol row))
   && String.eqb (FutRow.instrument_type row) "FUT")%bool.

(** [instruments] is what [kite.instruments("NFO")] returned ([None] when
    the call raised or returned nothing), [current_date] is
    [datetime.now()]. *)
Definition get_futures_contracts (instruments : option (list FutRow.t))
           (current_date : Datetime.datetime) (stock_symbols : list string)
  : Py.dict Futures.t :=
  match instruments with
  | None | Some [] => []
  | Some rows =>
      fold_left
        (fun futures_data stock =>
           match filter (is_future_of stock) rows with
           | [] => futures_data
           | stock_futures =>
               match first_valid_future current_date stock
                       (sort_values_expiry stock_futures) with
               | Some f => Py.set stock f futures_data
               | None => futures_data
               end
           end)
        stock_symbols []
  end.

End Config.

End Calculations.

(* ================================================================== *)
(** * The broker SDK, as the sources use it *)
(* ================================================================== *)

Module Kite.

(** The SDK's constants (the values the client library publishes). *)
Definition VARIETY_REGULAR : string := "regular".
Definition TRANSACTION_TYPE_BUY : string := "BUY".
Definition TRANSACTION_TYPE_SELL : string := "SELL".
Definition PRODUCT_CNC : string := "CNC".
Definition PRODUCT_MIS : string := "MIS".
Definition PRODUCT_NRML : string := "NRML".
Definition ORDER_TYPE_MARKET : string := "MARKET".
Definition ORDER_TYPE_LIMIT : string := "LIMIT".
Definition ORDER_TYPE_SL : string := "SL".
Definition ORDER_TYPE_SLM : string := "SL-M".
Definition EXCHANGE_NSE : string := "NSE".
Definition EXCHANGE_BSE : string := "BSE".
Definition EXCHANGE_NFO : string := "NFO".
Definition EXCHANGE_BFO : string := "BFO".
Definition EXCHANGE_CDS : string := "CDS".
Definition EXCHANGE_MCX : string := "MCX".

(** The keyword arguments of [kite.place_order] that the callers set; the
    remaining ones (validity, disclosed quantity, trigger price, ...) are
    always [None] on the paths modelled here. *)
Record order_request : Type := mkrequest {
  variety : string;
  exchange : string;
  tradingsymbol : option string;
  transaction_type : string;
  quantity : Z;
  product : string;
  order_type : string;
  price : option Q
}.

(** What reaches the gateway. *)
Inductive call : Type :=
  | PlaceOrder (request : order_request)
  | CancelOrder (variety order_id : string).

(** A gateway answers a call with a value ([inl], the order id) or raises
    an exception ([inr], its message), and moves to a new state. *)
Record gateway (G : Type) : Type := mkgateway {
  answer_place : G -> order_request -> (string + string) * G;
  answer_cancel : G -> string -> string -> (string + string) * G
}.
Arguments answer_place {G}.
Arguments answer_cancel {G}.

(** The gateway's state and the calls made so far, oldest first. *)
Record world (G : Type) : Type := mkworld {
  state : G;
  calls : list call
}.
Arguments mkworld {G}.
Arguments state {G}.
Arguments calls {G}.

(** Computations that talk to the gateway. *)
Definition M (G A : Type) : Type := world G -> A * world G.

Definition ret {G A} (a : A) : M G A := fun w => (a, w).

Definition bind {G A B} (m : M G A) (k : A -> M G B) : M G B :=
  fun w => let (a, w') := m w in k a w'.

Definition place_order {G} (kite : gateway G) (request : order_request)
  : M G (string + string) :=
  fun w =>
    let (r, g') := answer_place kite (state w) request in
    (r, mkworld g' (calls w ++ [PlaceOrder request])).

Definition cancel_order {G} (kite : gateway G) (variety order_id : string)
  : M G (string + string) :=
  fun w =>
    let (r, g') := answer_cancel kite (state w) variety order_id in
    (r, mkworld g' (calls w ++ [CancelOrder variety order_id])).

End Kite.

Declare Scope gateway_scope.
Delimit Scope gateway_scope with gateway.
Notation "x <- c ;; k" := (Kite.bind c (fun x => k))
  (at level 61, c at next level, right associativity) : gateway_scope.

(* ================================================================== *)
(** * [order_manager.py] *)
(* ================================================================== *)

Module OrderManager.

Import Calculations.

(** The dictionary [place_order] returns; [margin_info] is absent on
    success. *)
Module Result.

Record t : Type := mk {
  success : bool;
  order_id : option string;
  message : string;
  margin_info : option (Py.dict Q)
}.

End Result.

(** One instruction of an order sequence. *)
Module Order.

Record t : Type := mk {
  transaction_type : option string;
  action : option string;
  market : option string;
  symbol : string;
  exchange : string;
  quantity : Z;
  price : option Q;
  product : option string;
  order_type : option string
}.

End Order.

(** [dict(order)] extended with the key ["result"]. *)
Module Report.

Record t : Type := mk {
  order : Order.t;
  result : Result.t
}.

End Report.

(** The opportunity handed to [place_cash_futures_orders]: the keys the
    function reads. *)
Module Opportunity.

Record t : Type := mk {
  symbol : string;
  cash_price : option Q;
  futures_price : option Q;
  futures_symbol : option string;
  futures_symbol_api : option string;
  lot_size : Py.pyval
}.

End Opportunity.

(** One element of the list [place_cash_futures_orders] returns. *)
Module Leg.

Record t : Type := mk {
  action : string;
  market : string;
  symbol : option string;
  exchange : string;
  quantity : Z;
  lots : Z;
  lot_size : Z;
  price : option Q;
  result : Result.t
}.

End Leg.

Definition transaction_map : Py.dict string :=
  [("BUY", Kite.TRANSACTION_TYPE_BUY); ("SELL", Kite.TRANSACTION_TYPE_SELL)].
Definition product_map : Py.dict string :=
  [("CNC", Kite.PRODUCT_CNC); ("MIS", Kite.PRODUCT_MIS); ("NRML", Kite.PRODUCT_NRML)].
Definition order_type_map : Py.dict string :=
  [("MARKET", Kite.ORDER_TYPE_MARKET); ("LIMIT", Kite.ORDER_TYPE_LIMIT);
   ("SL", Kite.ORDER_TYPE_SL); ("SLM", Kite.ORDER_TYPE_SLM)].
Definition exchange_map : Py.dict string :=
  [("NSE", Kite.EXCHANGE_NSE); ("BSE", Kite.EXCHANGE_BSE); ("NFO", Kite.EXCHANGE_NFO);
   ("BFO", Kite.EXCHANGE_BFO); ("CDS", Kite.EXCHANGE_CDS); ("MCX", Kite.EXCHANGE_MCX)].

(** [table.get(value.upper(), value)] *)
Definition normalise (table : Py.dict string) (value : string) : string :=
  get_default value (Py.get (Py.upper value) table).

(** ** Margin figures in a rejection message *)

Definition number_char (c : ascii) : bool := (Py.isdigit c || Ascii.eqb c ".")%bool.

Fixpoint take_while (p : ascii -> bool) (s : string) : string :=
  match s with
  | String c r => if p c then String c (take_while p r) else EmptyString
  | EmptyString => EmptyString
  end.

Fixpoint drop_prefix (pre s : string) : option string :=
  match pre, s with
  | EmptyString, _ => Some s
  | String _ _, EmptyString => None
  | String a pre', String b s' => if Ascii.eqb a b then drop_prefix pre' s' else None
  end.

(** Group 1 of [re.search(pre + r'([\d.]+)', text)]: the leftmost place
    where [pre] is followed by a digit or a dot, and the longest such run. *)
Fixpoint search_number (pre text : string) : option string :=
  let here :=
    match drop_prefix pre text with
    | Some rest =>
        let run := take_while number_char rest in
        if Py.nonempty run then Some run else None
    | None => None
    end in
  match here with
  | Some run => Some run
  | None =>
      match text with
      | String _ r => search_number pre r
      | EmptyString => None
      end
  end.

(** [float(run)] for a run of digits and dots: at most one dot and at least
    one digit, else [ValueError] ([None]). *)
Fixpoint decimal (num : Z) (scale : positive) (after_dot any_digit : bool) (s : string)
  : option Q :=
  match s with
  | EmptyString => if any_digit then Some (num # scale) else None
  | String c r =>
      if Py.isdigit c then
        decimal (10 * num + Py.digit_value c)
                (if after_dot then (10 * scale)%positive else scale) after_dot true r
      else if Ascii.eqb c "." then
        (if after_dot then None else decimal num scale true any_digit r)
      else None
  end.

Definition float_of_run (run : string) : option Q := decimal 0 1 false false run.

Definition extract_margin_info (error_msg : string) : Py.dict Q :=
  if (Py.contains "Required margin" error_msg && Py.contains "available margin" error_msg)%bool
  then
    match search_number "Required margin is " error_msg,
          search_number "available margin is " error_msg with
    | Some required, Some available =>
        match float_of_run required with
        | None => []
        | Some r =>
            match float_of_run available with
            | None => [("required", r)]
            | Some a => [("required", r); ("available", a)]
            end
        end
    | _, _ => []
    end
  else [].

(** The first half of [place_order]: the values are normalised to the
    SDK's constants and a market order carries no price. *)
Definition order_request_of (symbol : option string) (exchange transaction_type : string)
           (quantity : Z) (price : option Q) (product order_type : string)
  : Kite.order_request :=
  let transaction_value := normalise transaction_map transaction_type in
  let product_value := normalise product_map product in
  let order_type_value := normalise order_type_map order_type in
  let exchange_value := normalise exchange_map exchange in
  let price_value :=
    if String.eqb order_type_value Kite.ORDER_TYPE_MARKET then None else price in
  {| Kite.variety := Kite.VARIETY_REGULAR;
     Kite.exchange := exchange_value;
     Kite.tradingsymbol := symbol;
     Kite.transaction_type := transaction_value;
     Kite.quantity := quantity;
     Kite.product := product_value;
     Kite.order_type := order_type_value;
     Kite.price := price_value |}.

Section WithGateway.

Context {G : Type} (kite : Kite.gateway G).
Local Open Scope gateway_scope.

(** The second half: the call inside [try], and the two result
    dictionaries. *)
Definition place_order (symbol : option string) (exchange transaction_type : string)
           (quantity : Z) (price : option Q) (product order_type : string)
  : Kite.M G Result.t :=
  answer <- Kite.place_order kite
              (order_request_of symbol exchange transaction_type quantity price
                                product order_type) ;;
  match answer with
  | inl order_id =>
      Kite.ret {| Result.success := true;
                  Result.order_id := Some order_id;
                  Result.message := ("Order placed successfully: " ++ order_id)%string;
                  Result.margin_info := None |}
  | inr error_msg =>
      Kite.ret {| Result.success := false;
                  Result.order_id := None;
                  Result.message := error_msg;
                  Result.margin_info := Some (extract_margin_info error_msg) |}
  end.

Definition transaction_type_of (order : Order.t) : string :=
  match Order.transaction_type order with
  | Some transaction_type => transaction_type
  | None =>
      let action := Py.upper (get_default "" (Order.action order)) in
      if String.eqb action "BUY" then "BUY" else "SELL"
  end.

Fixpoint execute_order_sequence (order_sequence : list Order.t)
  : Kite.M G (list Report.t) :=
  match order_sequence with
  | [] => Kite.ret []
  | order :: rest =>
      result <- place_order (Some (Order.symbol order)) (Order.exchange order)
                  (transaction_type_of order) (Order.quantity order) (Order.price order)
                  (get_default "MIS" (Order.product order))
                  (get_default "LIMIT" (Order.order_type order)) ;;
      results <- execute_order_sequence rest ;;
      Kite.ret ({| Report.order := order; Report.result := result |} :: results)
  end.

Definition arbitrage_order_sequence (arbitrage_opportunity : Arbitrage.t) (quantity : Z)
  : list Order.t :=
  let symbol := Arbitrage.symbol arbitrage_opportunity in
  let nse_price := Arbitrage.nse_price arbitrage_opportunity in
  let bse_price := Arbitrage.bse_price arbitrage_opportunity in
  let higher_exchange := Arbitrage.higher_exchange arbitrage_opportunity in
  let '(buy_exchange, sell_exchange, buy_price, sell_price) :=
    if String.eqb higher_exchange "NSE"
    then ("BSE", "NSE", bse_price, nse_price)
    else ("NSE", "BSE", nse_price, bse_price) in
  [ {| Order.transaction_type := None;
       Order.action := Some "BUY";
       Order.market := Some "CASH";
       Order.symbol := symbol;
       Order.exchange := buy_exchange;
       Order.quantity := quantity;
       Order.price := Some buy_price;
       Order.product := Some "MIS";
       Order.order_type := Some "LIMIT" |};
    {| Order.transaction_type := None;
       Order.action := Some "SELL";
       Order.market := Some "CASH";
       Order.symbol := symbol;
       Order.exchange := sell_exchange;
       Order.quantity := quantity;
       Order.price := Some sell_price;
       Order.product := Some "MIS";
       Order.order_type := Some "LIMIT" |} ].

Definition place_arbitrage_orders (arbitrage_opportunity : Arbitrage.t) (quantity : Z)
  : Kite.M G (list Report.t) :=
  execute_order_sequence (arbitrage_order_sequence arbitrage_opportunity quantity).

(** ** The cash-futures pair *)

Variable LOT_SIZE_MAP : Py.dict Z.

Definition table_value (o : option Z) : Py.pyval :=
  match o with Some z => Py.PyInt z | None => Py.PyNone end.

Definition int_or_one (v : Py.pyval) : Z :=
  match Py.int v with Some z => z | None => 1 end.

Definition at_least_one (z : Z) : Z := if z <? 1 then 1 else z.

(** [opportunity.get('lot_size') or LOT_SIZE_MAP.get(symbol.upper()) or 1],
    converted and clamped. *)
Definition lot_size_of (opportunity : Opportunity.t) : Z :=
  let symbol := Opportunity.symbol opportunity in
  let lot_size :=
    Py.por (Opportunity.lot_size opportunity)
           (Py.por (table_value (Py.get (Py.upper symbol) LOT_SIZE_MAP)) (Py.PyInt 1)) in
  at_least_one (int_or_one lot_size).

(** [lots or 1], converted and clamped. *)
Definition lots_int_of (lots : Py.pyval) : Z :=
  at_least_one (int_or_one (Py.por lots (Py.PyInt 1))).

Definition string_or (a b : option string) : option string :=
  match a with
  | Some s => if Py.nonempty s then a else b
  | None => b
  end.

(** The inner function [fire_order]; [results] is the list it appends to.
    Its [price] argument is not used. *)
Definition fire_order (quantity lots_int lot_size : Z) (results : list Leg.t)
           (action market exchange : string) (tradingsymbol : option string)
           (price : Q) (product : string) : Kite.M G (list Leg.t) :=
  order_result <- place_order tradingsymbol exchange action quantity None product "MARKET" ;;
  Kite.ret (results ++
            [ {| Leg.action := action;
                 Leg.market := market;
                 Leg.symbol := tradingsymbol;
                 Leg.exchange := exchange;
                 Leg.quantity := quantity;
                 Leg.lots := lots_int;
                 Leg.lot_size := lot_size;
                 Leg.price := None;
                 Leg.result := order_result |} ]).

Definition place_cash_futures_orders (opportunity : Opportunity.t) (lots : Py.pyval)
           (cash_product futures_product : string) : Kite.M G (list Leg.t) :=
  let symbol := Opportunity.symbol opportunity in
  let cash_price := get_default 0%Q (Opportunity.cash_price opportunity) in
  let futures_price := get_default 0%Q (Opportunity.futures_price opportunity) in
  let futures_symbol_raw := Opportunity.futures_symbol opportunity in
  let futures_symbol_api :=
    string_or (Opportunity.futures_symbol_api opportunity) futures_symbol_raw in
  let lot_size := lot_size_of opportunity in
  let lots_int := lots_int_of lots in
  let quantity := lot_size * lots_int in
  results <- fire_order quantity lots_int lot_size []
               "BUY" "CASH" "NSE" (Some symbol) cash_price cash_product ;;
  results <- fire_order quantity lots_int lot_size results
               "SELL" "FUTURES" "NFO" futures_symbol_api futures_price futures_product ;;
  Kite.ret results.

Definition default_cash_product : string := "CNC".
Definition default_futures_product : string := "NRML".

End WithGateway.

End OrderManager.

(* ================================================================== *)
(** * [Version_history/place_order_logics.py] *)
(* ================================================================== *)

Module PlaceOrderLogics.

Definition currency_tokens : list string :=
  ["USDINR"; "EURINR"; "GBPINR"; "JPYINR"; "INR"].

Definition auto_detect_exchange (symbol : string) : string :=
  if 2 <=? Py.count Py.isdigit symbol then
    if existsb (fun curr => Py.contains curr (Py.upper symbol)) currency_tokens
    then "CDS"
    else "NFO"
  else "NSE".

End PlaceOrderLogics.

(* ================================================================== *)
(** * [100%working-backup/v3-working-test.py] *)
(* ================================================================== *)

Module V3WorkingTest.

(** The first block of [place_order_with_kite]: the exchange the order is
    routed to. *)
Definition place_order_with_kite_exchange (symbol : string) : string :=
  if 2 <=? Py.count Py.isdigit symbol then
    if existsb (fun currency => Py.contains currency (Py.upper symbol))
               ["USDINR"; "EURINR"; "GBPINR"; "JPYINR"; "INR"]
    then "CDS"
    else "NFO"
  else "NSE".

(** What an event holds under ['exchange_timestamp']: the text the exchange
    sent, or the [datetime] object the client library has made of that text
    before it hands the history on. *)
Inductive timestamp : Type :=
  | Text (s : string)
  | Instant (d : Datetime.datetime).

(** Truth value of such an object: a [datetime] is always true. *)
Definition truthy (v : timestamp) : bool :=
  match v with
  | Text s => Py.nonempty s
  | Instant _ => true
  end.

(** [datetime.strptime(v, fmt)]; [None] stands for the exception raised:
    [ValueError] for a text that does not match the format, [TypeError] for
    an argument that is not a text. *)
Definition strptime (v : timestamp) (fmt : string) : option Datetime.datetime :=
  match v with
  | Text s => Datetime.strptime s fmt
  | Instant _ => None
  end.

(** One element of the history the gateway returns for an order; a field
    is [None] when the key is absent (for [exchange_timestamp] also when it
    holds [None], which the code does not tell apart from the empty text). *)
Module Event.

Record t : Type := mk {
  status : option string;
  filled_quantity : option Z;
  pending_quantity : option Z;
  exchange_timestamp : option timestamp
}.

End Event.

(** The sort key: the inner function [get_timestamp].  Its bare [except]
    answers [datetime.min] to whatever [strptime] raises. *)
Definition get_timestamp (status_item : Event.t) : Datetime.datetime :=
  let timestamp_str :=
    Calculations.get_default (Text "") (Event.exchange_timestamp status_item) in
  if truthy timestamp_str then
    match strptime timestamp_str "%Y-%m-%d %H:%M:%S" with
    | Some t => t
    | None => Datetime.datetime_min
    end
  else Datetime.datetime_min.

(** [l[-1]] *)
Definition last_item {A} (l : list A) : option A :=
  match rev l with
  | x :: _ => Some x
  | [] => None
  end.

(** [str(n)] for an integer *)
Definition str_of_int (n : Z) : string := NilZero.string_of_int (Z.to_int n).

(** The status text built from the chosen event. *)
Definition detailed_status (latest_status : Event.t) : string :=
  let status := Calculations.get_default "UNKNOWN" (Event.status latest_status) in
  let filled_quantity := Calculations.get_default 0 (Event.filled_quantity latest_status) in
  let pending_quantity := Calculations.get_default 0 (Event.pending_quantity latest_status) in
  if String.eqb status "COMPLETE" then
    ("COMPLETE (" ++ str_of_int filled_quantity ++ " filled)")%string
  else if (String.eqb status "OPEN" && (0 <? pending_quantity))%bool then
    ("OPEN PENDING (" ++ str_of_int pending_quantity ++ " pending)")%string
  else if String.eqb status "OPEN" then "OPEN"
  else if String.eqb status "CANCELLED" then "CANCELLED"
  else if String.eqb status "REJECTED" then "REJECTED"
  else status.

(** [sorted(order_history, key=get_timestamp, reverse=False)[-1]] *)
Definition latest_status (order_history : list Event.t) : option Event.t :=
  let sorted_history := Py.sorted_by Datetime.ltb get_timestamp order_history in
  last_item sorted_history.

(** [order_history] is what [kite.order_history(order_id)] returned, [None]
    when the call raised. *)
Definition check_order_status (order_history : option (list Event.t)) : option string :=
  match order_history with
  | None | Some [] => None
  | Some history =>
      match latest_status history with
      | Some latest => Some (detailed_status latest)
      | None => None
      end
  end.

End V3WorkingTest.

(* ================================================================== *)
(** * Notions the statements below are phrased with *)
(* ================================================================== *)

Module Notions.

Import Calculations.

(** The gross percentage difference of the pair a symbol is quoted with:
    defined when both venues quote it at a positive price. *)
Definition pair_pct (exchanges : Py.dict Stock.t) : option Q :=
  match Py.get "NSE" exchanges, Py.get "BSE" exchanges with
  | Some nse_data, Some bse_data =>
      let nse_price := Stock.last_price nse_data in
      let bse_price := Stock.last_price bse_data in
      if (Py.Qltb 0 nse_price && Py.Qltb 0 bse_price)%bool
      then Some ((Qabs (nse_price - bse_price) / Py.min nse_price bse_price) * 100)%Q
      else None
  | _, _ => None
  end.

(** The instant the time stamp of an event denotes when it is a text in the
    format the reconciler parses; there is none when the time stamp is
    missing, empty, a text in another format, or a [datetime] object. *)
Definition text_time (e : V3WorkingTest.Event.t) : option Datetime.datetime :=
  match V3WorkingTest.Event.exchange_timestamp e with
  | Some (V3WorkingTest.Text text) =>
      if Py.nonempty text then Datetime.strptime text "%Y-%m-%d %H:%M:%S" else None
  | Some (V3WorkingTest.Instant _) | None => None
  end.

(** An event of 14:30:26, its time stamp a [datetime] object: the order is
    open with 6 pending. *)
Definition partly_filled : V3WorkingTest.Event.t :=
  V3WorkingTest.Event.mk (Some "OPEN") (Some 4) (Some 6)
    (Some (V3WorkingTest.Instant (Datetime.mkdatetime 2024 1 15 14 30 26 0))).

(** A history as the client library hands it on: every time stamp it
    carries is a [datetime] object.  COMPLETE at 14:30:27 is listed first,
    then OPEN at 14:30:25, then OPEN with 6 pending at 14:30:26. *)
Definition history_of_instants : list V3WorkingTest.Event.t :=
  [ V3WorkingTest.Event.mk (Some "COMPLETE") (Some 10) (Some 0)
      (Some (V3WorkingTest.Instant (Datetime.mkdatetime 2024 1 15 14 30 27 0)));
    V3WorkingTest.Event.mk (Some "OPEN") (Some 0) (Some 10)
      (Some (V3WorkingTest.Instant (Datetime.mkdatetime 2024 1 15 14 30 25 0)));
    partly_filled ].

(** The same events with the time stamps as the exchange writes them. *)
Definition history_of_texts : list V3WorkingTest.Event.t :=
  [ V3WorkingTest.Event.mk (Some "COMPLETE") (Some 10) (Some 0)
      (Some (V3WorkingTest.Text "2024-01-15 14:30:27"));
    V3WorkingTest.Event.mk (Some "OPEN") (Some 0) (Some 10)
      (Some (V3WorkingTest.Text "2024-01-15 14:30:25"));
    V3WorkingTest.Event.mk (Some "OPEN") (Some 4) (Some 6)
      (Some (V3WorkingTest.Text "2024-01-15 14:30:26")) ].

(** Four currency codes, each suffixed with the base-currency marker. *)
Definition four_currency_pairs : list string := ["USDINR"; "EURINR"; "GBPINR"; "JPYINR"].

(** The symbol with everything but letters and digits removed, upper case. *)
Definition cleaned (stock_symbol : string) : string :=
  Py.keep Py.isalnum (Py.upper stock_symbol).

Definition MONTHS : list string :=
  ["JAN"; "FEB"; "MAR"; "APR"; "MAY"; "JUN"; "JUL"; "AUG"; "SEP"; "OCT"; "NOV"; "DEC"].

(** Two-digit year followed by the three-letter month, upper case. *)
Definition yy_mmm (d : Datetime.datetime) : string :=
  (Datetime.two_digits (Datetime.year d mod 100)
   ++ nth (Z.to_nat (Datetime.month d - 1)) MONTHS "")%string.

(** The expiry text parses under none of the accepted formats. *)
Definition unparseable (expiry_str : string) : Prop :=
  forall fmt, In fmt expiry_formats -> Datetime.strptime (Py.strip expiry_str) fmt = None.

(** A gateway that accepts the first order it sees and rejects the rest,
    used to run the orchestrator on concrete inputs. *)
Definition first_only : Kite.gateway nat :=
  {| Kite.answer_place := fun n _ =>
       (match n with
        | O => inl "240101000000001"
        | S _ => inr "Insufficient funds. Required margin is 1200.50 but available margin is 10.25"
        end, S n);
     Kite.answer_cancel := fun n _ _ => (inr "not found", n) |}.

Definition fresh : Kite.world nat := Kite.mkworld O [].

(** Quotes used to run the evaluator: one pair one percent apart, one pair
    exactly 0.05 percent apart, and a symbol quoted at a single venue. *)
Definition demo_quotes : list Stock.t :=
  [ Stock.mk "ACME" "NSE" 100 (Some 2000000%Q) None;
    Stock.mk "ACME" "BSE" 101 (Some 1000000%Q) None;
    Stock.mk "ZED" "NSE" 2000 (Some 500000%Q) None;
    Stock.mk "ZED" "BSE" 2001 (Some 500000%Q) None;
    Stock.mk "SOLO" "NSE" 50 None None ].

(** The two instructions of a cross-venue pair as the gateway receives
    them: buy at the venue that is not the higher one, sell at the other,
    limit orders at the snapshot prices, intraday product. *)
Definition buy_leg (opportunity : Arbitrage.t) (quantity : Z) : Kite.order_request :=
  let nse_higher := String.eqb (Arbitrage.higher_exchange opportunity) "NSE" in
  {| Kite.variety := "regular";
     Kite.exchange := if nse_higher then "BSE" else "NSE";
     Kite.tradingsymbol := Some (Arbitrage.symbol opportunity);
     Kite.transaction_type := "BUY";
     Kite.quantity := quantity;
     Kite.product := "MIS";
     Kite.order_type := "LIMIT";
     Kite.price := Some (if nse_higher then Arbitrage.bse_price opportunity
                         else Arbitrage.nse_price opportunity) |}.

Definition sell_leg (opportunity : Arbitrage.t) (quantity : Z) : Kite.order_request :=
  let nse_higher := String.eqb (Arbitrage.higher_exchange opportunity) "NSE" in
  {| Kite.variety := "regular";
     Kite.exchange := if nse_higher then "NSE" else "BSE";
     Kite.tradingsymbol := Some (Arbitrage.symbol opportunity);
     Kite.transaction_type := "SELL";
     Kite.quantity := quantity;
     Kite.product := "MIS";
     Kite.order_type := "LIMIT";
     Kite.price := Some (if nse_higher then Arbitrage.nse_price opportunity
                         else Arbitrage.bse_price opportunity) |}.

(** The cross-venue opportunity of the demonstration quotes. *)
Definition demo_spread : Arbitrage.t :=
  {| Arbitrage.symbol := "ACME";
     Arbitrage.nse_price := 100;
     Arbitrage.bse_price := 101;
     Arbitrage.price_difference := 1;
     Arbitrage.price_difference_pct := 1;
     Arbitrage.profit_per_share := 1;
     Arbitrage.higher_exchange := "BSE";
     Arbitrage.lower_exchange := "NSE";
     Arbitrage.higher_price := 101;
     Arbitrage.lower_price := 100;
     Arbitrage.nse_volume := 2000000;
     Arbitrage.bse_volume := 1000000;
     Arbitrage.avg_volume := 1500000;
     Arbitrage.arbitrage_score := 1.5;
     Arbitrage.nse_change_pct := 0;
     Arbitrage.bse_change_pct := 0;
     Arbitrage.is_profitable := true |}.

(** A cash-futures opportunity whose record carries no usable lot size, and
    an override table that supplies one. *)
Definition demo_premium : OrderManager.Opportunity.t :=
  {| OrderManager.Opportunity.symbol := "acme";
     OrderManager.Opportunity.cash_price := Some 1000%Q;
     OrderManager.Opportunity.futures_price := Some 1010%Q;
     OrderManager.Opportunity.futures_symbol := Some "ACME25NOV";
     OrderManager.Opportunity.futures_symbol_api := Some "ACME25NOVFUT";
     OrderManager.Opportunity.lot_size := Py.PyInt 0 |}.

Definition demo_lot_sizes : Py.dict Z := [("ACME", 25); ("ZED", -5)].

(** Rows of an instrument dump: an expired contract, a row whose expiry does
    not parse, and live contracts with a venue lot size of zero. *)
Definition demo_instruments : list FutRow.t :=
  [ FutRow.mk "ZED" "ZED25OCTFUT" "FUT" "2025-10-30" (Some (Py.PyInt 40));
    FutRow.mk "ZED" "ZED25NOVFUT" "FUT" "2025-11-27" (Some (Py.PyInt 40));
    FutRow.mk "QUX" "QUX25XXXFUT" "FUT" "soon" (Some (Py.PyInt 10));
    FutRow.mk "QUX" "QUX25DECFUT" "FUT" "2025-12-30T00:00:00" (Some (Py.PyInt 0));
    FutRow.mk "QUX" "QUX25DEC100CE" "CE" "2025-12-30" (Some (Py.PyInt 10)) ].

Definition demo_now : Datetime.datetime := Datetime.mkdatetime 2025 11 5 10 0 0 0.

(** The rows ordered by their expiry text, stably. *)
Definition by_expiry_text (rows : list FutRow.t) : list FutRow.t :=
  Py.sorted_by String.ltb FutRow.expiry rows.

End Notions.

(* ================================================================== *)
(** * Further notions, for the properties beyond the specification *)
(* ================================================================== *)

Module Terms.

Import Calculations OrderManager.

(** The request [execute_order_sequence] hands to the gateway for one
    instruction: the missing product is intraday, the missing order type is
    a limit order. *)
Definition request_of_order (order : Order.t) : Kite.order_request :=
  order_request_of (Some (Order.symbol order)) (Order.exchange order)
                   (transaction_type_of order) (Order.quantity order)
                   (Order.price order) (get_default "MIS" (Order.product order))
                   (get_default "LIMIT" (Order.order_type order)).

(** The quote of [symbol] at [exchange] that comes last in the feed. *)
Definition last_stock (symbol exchange : string) (live_prices_data : list Stock.t)
  : option Stock.t :=
  find (fun stock => (String.eqb (Stock.symbol stock) symbol
                      && String.eqb (Stock.exchange stock) exchange)%bool)
       (rev live_prices_data).

(** [stock_groups[symbol][exchange]], when both keys are present. *)
Definition quote_of (symbol exchange : string) (stock_groups : Py.dict (Py.dict Stock.t))
  : option Stock.t :=
  match Py.get symbol stock_groups with
  | Some exchanges => Py.get exchange exchanges
  | None => None
  end.

(** The time of day of an instant, in microseconds since midnight. *)
Definition time_of_day (d : Datetime.datetime) : Z :=
  ((Datetime.hour d * 60 + Datetime.minute d) * 60 + Datetime.second d) * 1000000
  + Datetime.microsecond d.

(** The instant is one the [datetime] constructor accepts. *)
Definition valid_datetime (d : Datetime.datetime) : Prop :=
  Datetime.make (Datetime.year d) (Datetime.month d) (Datetime.day d) (Datetime.hour d)
                (Datetime.minute d) (Datetime.second d) (Datetime.microsecond d)
  = Some d.

(** A directive that reads a part of the date, or no field at all. *)
Definition date_directive (d : Datetime.directive) : bool :=
  match d with
  | Datetime.DH | Datetime.DM | Datetime.DS | Datetime.Df => false
  | _ => true
  end.

(** The expiry date the resolver reads from a row of the dump. *)
Definition expiry_of (fut_row : FutRow.t) : option Datetime.datetime :=
  let expiry_str := FutRow.expiry fut_row in
  if Py.contains "T" expiry_str
  then Datetime.strptime (Py.split_head "T" expiry_str) "%Y-%m-%d"
  else Datetime.strptime expiry_str "%Y-%m-%d".

(** No row comes before a row of an earlier expiry date. *)
Definition chronological (rows : list FutRow.t) : Prop :=
  StronglySorted
    (fun earlier later =>
       forall d d', expiry_of earlier = Some d -> expiry_of later = Some d' ->
                    Datetime.microseconds d <= Datetime.microseconds d')
    rows.

(** The group of a symbol quoted at the two venues and nowhere else. *)
Definition two_venues (nse_data bse_data : Stock.t) : Py.dict Stock.t :=
  [("NSE", nse_data); ("BSE", bse_data)].

End Terms.

(* ================================================================== *)
(** * Quotes, as the gateway returns them *)
(* ================================================================== *)

(** One value of the dictionary [kite.quote] returns: the keys the sources
    read.  A field is [None] when its key is absent; the four prices of
    the day sit in the nested dictionary ['ohlc'], which may be absent as a
    whole ([data.get('ohlc', {})]). *)
Module Ohlc.

Record t : Type := mk {
  open : option Q;
  high : option Q;
  low : option Q;
  close : option Q
}.

End Ohlc.

Module Quote.

Record t : Type := mk {
  last_price : option Q;
  volume : option Q;
  change : option Q;
  change_percent : option Q;
  ohlc : option Ohlc.t
}.

(** [data.get('ohlc', {}).get(field)] *)
Definition ohlc_get (field : Ohlc.t -> option Q) (data : t) : option Q :=
  match ohlc data with
  | Some prices => field prices
  | None => None
  end.

End Quote.

(* ================================================================== *)
(** * [calculations.py], continued: the cash-futures evaluator *)
(* ================================================================== *)

Module CashFutures.

Import Calculations.

(** One element of the list [calculate_cash_futures_opportunities] returns. *)
Module Opportunity.

Record t : Type := mk {
  symbol : string;
  cash_price : Q;
  futures_price : Q;
  premium : Q;
  premium_pct : Q;
  annualized_premium : Q;
  days_to_expiry : Z;
  expiry_date : string;
  futures_symbol : string;
  futures_symbol_api : string;
  lot_size : Z;
  profit_per_share : Q;
  opportunity_score : Q;
  cash_volume : Q;
  futures_volume : Q;
  cash_change_pct : Q
}.

End Opportunity.

(** Truth value of a number. *)
Definition nonzero (q : Q) : bool := negb (Z.eqb (Qnum q) 0).

(** The first loop: the symbols the quotes are asked for, two for every
    requested stock that has a contract. *)
Fixpoint quote_symbols_of (stock_symbols : list string) (futures_data : Py.dict Futures.t)
  : list string :=
  match stock_symbols with
  | [] => []
  | stock :: rest =>
      match Py.get stock futures_data with
      | Some fut_data =>
          ("NSE:" ++ stock)%string
          :: ("NFO:" ++ Futures.tradingsymbol fut_data)%string
          :: quote_symbols_of rest futures_data
      | None => quote_symbols_of rest futures_data
      end
  end.

Section Config.

Variable LOT_SIZE_MAP : Py.dict Z.

(** The body of the second loop for one stock: [None] when nothing is
    appended.  [futures_data] holds the values [get_futures_contracts]
    builds, so the keys the body reads from a contract are present. *)
Definition opportunity_of (quotes : Py.dict Quote.t) (futures_data : Py.dict Futures.t)
           (stock : string) : option Opportunity.t :=
  match Py.get stock futures_data with
  | None => None
  | Some fut_data =>
      let stock_key := Py.upper stock in
      let cash_symbol := ("NSE:" ++ stock)%string in
      let fut_symbol_api := Futures.tradingsymbol fut_data in
      let fut_symbol := ("NFO:" ++ fut_symbol_api)%string in
      match Py.get cash_symbol quotes, Py.get fut_symbol quotes with
      | Some cash_quote, Some fut_quote =>
          let cash_price := get_default 0%Q (Quote.last_price cash_quote) in
          let fut_price := get_default 0%Q (Quote.last_price fut_quote) in
          let lot_size_value :=
            get_default (Futures.lot_size fut_data) (Py.get stock_key LOT_SIZE_MAP) in
          let lot_size_value := if lot_size_value <? 1 then 1 else lot_size_value in
          if (Py.Qltb 0 cash_price && Py.Qltb 0 fut_price)%bool then
            let premium := (fut_price - cash_price)%Q in
            let premium_pct :=
              if Py.Qltb 0 cash_price then ((premium / cash_price) * 100)%Q else 0%Q in
            let days_to_expiry := Futures.days_to_expiry fut_data in
            let annualized_premium :=
              if 0 <? days_to_expiry
              then ((premium_pct / inject_Z days_to_expiry) * 365)%Q
              else 0%Q in
            let opportunity_score :=
              if 0 <? days_to_expiry
              then (premium_pct * (inject_Z days_to_expiry / 30))%Q
              else 0%Q in
            let close := get_default 0%Q (Quote.ohlc_get Ohlc.close cash_quote) in
            let cash_change_pct :=
              if nonzero close then
                let moved := (((cash_price - close) / close) * 100)%Q in
                if nonzero moved then moved else 0%Q
              else 0%Q in
            Some {|
              Opportunity.symbol := stock;
              Opportunity.cash_price := cash_price;
              Opportunity.futures_price := fut_price;
              Opportunity.premium := premium;
              Opportunity.premium_pct := premium_pct;
              Opportunity.annualized_premium := annualized_premium;
              Opportunity.days_to_expiry := days_to_expiry;
              Opportunity.expiry_date := Futures.expiry fut_data;
              Opportunity.futures_symbol := Futures.order_tradingsymbol fut_data;
              Opportunity.futures_symbol_api := fut_symbol_api;
              Opportunity.lot_size := lot_size_value;
              Opportunity.profit_per_share := premium;
              Opportunity.opportunity_score := opportunity_score;
              Opportunity.cash_volume := get_default 0%Q (Quote.volume cash_quote);
              Opportunity.futures_volume := get_default 0%Q (Quote.volume fut_quote);
              Opportunity.cash_change_pct := cash_change_pct
            |}
          else None
      | _, _ => None
      end
  end.

(** The second loop, over the requested stocks in order. *)
Fixpoint opportunities_of (quotes : Py.dict Quote.t) (futures_data : Py.dict Futures.t)
         (stock_symbols : list string) : list Opportunity.t :=
  match stock_symbols with
  | [] => []
  | stock :: rest =>
      match opportunity_of quotes futures_data stock with
      | Some opportunity => opportunity :: opportunities_of quotes futures_data rest
      | None => opportunities_of quotes futures_data rest
      end
  end.

(** [kite_quote] is the gateway's answer to [kite.quote(quote_symbols)],
    [None] when the call raises: the [except] branch then returns the list
    as it stands, which is empty. *)
Definition calculate_cash_futures_opportunities
           (kite_quote : list string -> option (Py.dict Quote.t))
           (stock_symbols : list string) (futures_data : Py.dict Futures.t)
  : list Opportunity.t :=
  match quote_symbols_of stock_symbols futures_data with
  | [] => []
  | quote_symbols =>
      match kite_quote quote_symbols with
      | None => []
      | Some quotes =>
          Py.sorted_by_reverse Py.Qltb Opportunity.opportunity_score
                               (opportunities_of quotes futures_data stock_symbols)
      end
  end.

End Config.

(** The opportunity as [place_cash_futures_orders] reads it. *)
Definition order_view (opportunity : Opportunity.t) : OrderManager.Opportunity.t :=
  {| OrderManager.Opportunity.symbol := Opportunity.symbol opportunity;
     OrderManager.Opportunity.cash_price := Some (Opportunity.cash_price opportunity);
     OrderManager.Opportunity.futures_price := Some (Opportunity.futures_price opportunity);
     OrderManager.Opportunity.futures_symbol := Some (Opportunity.futures_symbol opportunity);
     OrderManager.Opportunity.futures_symbol_api :=
       Some (Opportunity.futures_symbol_api opportunity);
     OrderManager.Opportunity.lot_size := Py.PyInt (Opportunity.lot_size opportunity) |}.

End CashFutures.

(* ================================================================== *)
(** * [main.py]: the quantity shown for a cash-futures pair *)
(* ================================================================== *)

Module Main.

Section Config.

Variable LOT_SIZE_MAP : Py.dict Z.

(** The lot size the expander of an opportunity shows: the record's own
    value unless the override table holds a non-zero one, at least 1. *)
Definition shown_lot_size (opp : CashFutures.Opportunity.t) : Z :=
  let lot_size :=
    if Z.eqb (CashFutures.Opportunity.lot_size opp) 0
    then 1 else CashFutures.Opportunity.lot_size opp in
  let map_lot := Py.get (Py.upper (CashFutures.Opportunity.symbol opp)) LOT_SIZE_MAP in
  let lot_size :=
    match map_lot with
    | Some value => if Z.eqb value 0 then lot_size else value
    | None => lot_size
    end in
  if lot_size <? 1 then 1 else lot_size.

(** [actual_qty = num_lots * lot_size] *)
Definition actual_qty (opp : CashFutures.Opportunity.t) (num_lots : Z) : Z :=
  num_lots * shown_lot_size opp.

End Config.

End Main.

(* ================================================================== *)
(** * [data_fetcher.py]: the feed of live prices *)
(* ================================================================== *)

Module DataFetcher.

Import Calculations.

(** One element of the list [format_live_price_data] returns. *)
Module LivePrice.

Record t : Type := mk {
  symbol : string;
  exchange : string;
  last_price : Q;
  change : Q;
  change_pct : Q;
  volume : Q;
  high : Q;
  low : Q;
  open : Q;
  close : Q
}.

End LivePrice.

(** What follows the first [sep] in [s], when there is one. *)
Fixpoint after_first (sep : ascii) (s : string) : option string :=
  match s with
  | EmptyString => None
  | String c r => if Ascii.eqb c sep then Some r else after_first sep r
  end.

(** [s.split(sep)[1]]; [None] stands for [IndexError]. *)
Definition split_second (sep : ascii) (s : string) : option string :=
  option_map (Py.split_head sep) (after_first sep s).

(** One iteration of the loop over [live_prices.items()]. *)
Inductive outcome : Type :=
  | Skipped
  | Appended (row : LivePrice.t)
  | Raised.

Definition entry_of (symbol : string) (data : Quote.t) : outcome :=
  match Quote.last_price data with
  | None => Skipped
  | Some last_price =>
      let close_price := get_default 0%Q (Quote.ohlc_get Ohlc.close data) in
      let '(change, change_pct) :=
        if Py.Qltb 0 close_price then
          let change := (last_price - close_price)%Q in
          (change, ((change / close_price) * 100)%Q)
        else
          (get_default 0%Q (Quote.change data), get_default 0%Q (Quote.change_percent data)) in
      match split_second ":" symbol with
      | None => Raised
      | Some name =>
          Appended {|
            LivePrice.symbol := name;
            LivePrice.exchange := Py.split_head ":" symbol;
            LivePrice.last_price := last_price;
            LivePrice.change := change;
            LivePrice.change_pct := change_pct;
            LivePrice.volume := get_default 0%Q (Quote.volume data);
            LivePrice.high := get_default 0%Q (Quote.ohlc_get Ohlc.high data);
            LivePrice.low := get_default 0%Q (Quote.ohlc_get Ohlc.low data);
            LivePrice.open := get_default 0%Q (Quote.ohlc_get Ohlc.open data);
            LivePrice.close := close_price
          |}
      end
  end.

(** The loop; [None] when an iteration raises. *)
Fixpoint formatted_rows (items : Py.dict Quote.t) : option (list LivePrice.t) :=
  match items with
  | [] => Some []
  | (symbol, data) :: rest =>
      match entry_of symbol data with
      | Skipped => formatted_rows rest
      | Raised => None
      | Appended row =>
          match formatted_rows rest with
          | Some rows => Some (row :: rows)
          | None => None
          end
      end
  end.

(** [None] when the function raises ([IndexError], for a key without a
    colon): it has no handler of its own. *)
Definition format_live_price_data (live_prices : Py.dict Quote.t)
  : option (list LivePrice.t) :=
  match live_prices with
  | [] => Some []
  | _ =>
      option_map (Py.sorted_by_reverse Py.Qltb (fun row => Qabs (LivePrice.change_pct row)))
                 (formatted_rows live_prices)
  end.

(** An element of the feed as [calculate_arbitrage_opportunities] reads
    it. *)
Definition as_stock (row : LivePrice.t) : Stock.t :=
  {| Stock.symbol := LivePrice.symbol row;
     Stock.exchange := LivePrice.exchange row;
     Stock.last_price := LivePrice.last_price row;
     Stock.volume := Some (LivePrice.volume row);
     Stock.change_pct := Some (LivePrice.change_pct row) |}.

(** The key names an instrument at a venue: one colon, between the two. *)
Definition one_colon (key : string) : Prop := Py.count (Ascii.eqb ":") key = 1.

End DataFetcher.

(* ================================================================== *)
(** * [100%working-backup/v3-working-test.py], continued: the order queue *)
(* ================================================================== *)

(** The queue processor reads instructions from the rows of a sheet, asks
    the gateway for the market depth, places limit orders and writes back
    what it placed.  Its gateway has more calls than the orchestrator's, and
    its orders carry a validity. *)
Module V3Queue.

Import Calculations.

(** ['depth'] of a quote: the prices of the bid and of the ask levels, best
    first. *)
Module Depth.

Record t : Type := mk {
  buy : list Q;
  sell : list Q
}.

End Depth.

Record order : Type := mkorder {
  request : Kite.order_request;
  validity : string
}.

Definition VALIDITY_DAY : string := "DAY".

(** One element of the list handed to [sheet.batch_update]. *)
Record update : Type := mkupdate {
  range : string;
  values : list Py.pyval
}.

(** What reaches the outside: the gateway and the sheet. *)
Inductive call : Type :=
  | Quote (quote_symbol : string)
  | PlaceOrder (o : order)
  | OrderHistory (order_id : string)
  | BatchUpdate (updates : list update).

(** The answers: [None] and [inr] stand for an exception.  [clock] is the
    current time of the state, as [get_indian_timestamp] formats it. *)
Record gateway (G : Type) : Type := mkgateway {
  answer_quote : G -> string -> option (Py.dict Depth.t) * G;
  answer_place : G -> order -> (string + string) * G;
  answer_history : G -> string -> option (list V3WorkingTest.Event.t) * G;
  clock : G -> string
}.
Arguments answer_quote {G}.
Arguments answer_place {G}.
Arguments answer_history {G}.
Arguments clock {G}.

Record world (G : Type) : Type := mkworld {
  state : G;
  calls : list call
}.
Arguments mkworld {G}.
Arguments state {G}.
Arguments calls {G}.

Definition M (G A : Type) : Type := world G -> A * world G.

Definition ret {G A} (a : A) : M G A := fun w => (a, w).

Definition bind {G A B} (m : M G A) (k : A -> M G B) : M G B :=
  fun w => let (a, w') := m w in k a w'.

Definition quote {G} (kite : gateway G) (quote_symbol : string)
  : M G (option (Py.dict Depth.t)) :=
  fun w =>
    let (r, g') := answer_quote kite (state w) quote_symbol in
    (r, mkworld g' (calls w ++ [Quote quote_symbol])).

Definition place_order {G} (kite : gateway G) (o : order) : M G (string + string) :=
  fun w =>
    let (r, g') := answer_place kite (state w) o in
    (r, mkworld g' (calls w ++ [PlaceOrder o])).

Definition order_history {G} (kite : gateway G) (order_id : string)
  : M G (option (list V3WorkingTest.Event.t)) :=
  fun w =>
    let (r, g') := answer_history kite (state w) order_id in
    (r, mkworld g' (calls w ++ [OrderHistory order_id])).

(** [sheet.batch_update(updates)]; a failure is only printed. *)
Definition batch_update {G} (updates : list update) : M G unit :=
  fun w => (tt, mkworld (state w) (calls w ++ [BatchUpdate updates])).

(** [get_indian_timestamp()] *)
Definition get_indian_timestamp {G} (kite : gateway G) : M G string :=
  fun w => (clock kite (state w), w).

End V3Queue.

Declare Scope queue_scope.
Delimit Scope queue_scope with queue.
Notation "x <- c ;; k" := (V3Queue.bind c (fun x => k))
  (at level 61, c at next level, right associativity) : queue_scope.

Module V3Orders.

Import Calculations V3Queue.
Local Open Scope queue_scope.

Definition exchanges : Py.dict string :=
  [("NSE", Kite.EXCHANGE_NSE); ("NFO", Kite.EXCHANGE_NFO); ("CDS", Kite.EXCHANGE_CDS)].
Definition directions : Py.dict string :=
  [("BUY", Kite.TRANSACTION_TYPE_BUY); ("SELL", Kite.TRANSACTION_TYPE_SELL)].
Definition products : Py.dict string :=
  [("CNC", Kite.PRODUCT_CNC); ("MIS", Kite.PRODUCT_MIS); ("NRML", Kite.PRODUCT_NRML)].

(** [levels[0]['price']]; [None] stands for [IndexError]. *)
Definition first_price (levels : list Q) : option Q :=
  match levels with
  | price :: _ => Some price
  | [] => None
  end.

(** The product after the block that sets the default. *)
Definition product_or_default (exchange : string) (product : option string) : option string :=
  match product with
  | Some _ => product
  | None =>
      if String.eqb exchange "NSE" then Some "CNC"
      else if (String.eqb exchange "NFO" || String.eqb exchange "CDS")%bool then Some "NRML"
      else None
  end.

(** The price read from the answer to the quote: the best bid for a BUY,
    the best ask for anything else.  [None] stands for the [KeyError] or
    [IndexError] of a missing key or an empty side. *)
Definition best_price_of (direction quote_symbol : string) (quotes : Py.dict Depth.t)
  : option Q :=
  match Py.get quote_symbol quotes with
  | None => None
  | Some depth =>
      if String.eqb direction "BUY"
      then first_price (Depth.buy depth)
      else first_price (Depth.sell depth)
  end.

Section WithGateway.

Context {G : Type} (kite : gateway G).

(** The second [try] block: the three table look-ups raise [KeyError]
    before anything is sent. *)
Definition submit (exchange symbol direction : string) (quantity : Z)
           (product : option string) (best_price : Q) : M G (option string * option Q) :=
  match Py.get exchange exchanges,
        Py.get direction directions,
        match product with Some p => Py.get p products | None => None end with
  | Some exchange_value, Some direction_value, Some product_value =>
      answer <- place_order kite
                  {| request :=
                       {| Kite.variety := Kite.VARIETY_REGULAR;
                          Kite.exchange := exchange_value;
                          Kite.tradingsymbol := Some symbol;
                          Kite.transaction_type := direction_value;
                          Kite.quantity := quantity;
                          Kite.product := product_value;
                          Kite.order_type := Kite.ORDER_TYPE_LIMIT;
                          Kite.price := Some best_price |};
                     validity := VALIDITY_DAY |} ;;
      match answer with
      | inl order_id => ret (Some order_id, Some best_price)
      | inr _ => ret (None, None)
      end
  | _, _, _ => ret (None, None)
  end.

Definition place_order_with_kite (symbol direction : string) (quantity : Z)
           (product : option string) (limit_price : option Q)
  : M G (option string * option Q) :=
  let exchange := V3WorkingTest.place_order_with_kite_exchange symbol in
  let product := product_or_default exchange product in
  match limit_price with
  | Some best_price => submit exchange symbol direction quantity product best_price
  | None =>
      let quote_symbol := (exchange ++ ":" ++ symbol)%string in
      quotes <- quote kite quote_symbol ;;
      match quotes with
      | None => ret (None, None)
      | Some quotes =>
          match best_price_of direction quote_symbol quotes with
          | None => ret (None, None)
          | Some best_price => submit exchange symbol direction quantity product best_price
          end
      end
  end.

(** [check_order_status(kite, order_id)]: the call, then the reading of the
    history. *)
Definition check_order_status (order_id : string) : M G (option string) :=
  order_history <- order_history kite order_id ;;
  ret (V3WorkingTest.check_order_status order_history).

(** [row[n] if len(row) > n else ""] *)
Definition cell (row : list string) (n : nat) : string := nth n row "".

(** [f"{column}{row_num}:{column'}{row_num}"] *)
Definition row_range (first_column last_column : string) (row_num : Z) : string :=
  (first_column ++ V3WorkingTest.str_of_int row_num ++ ":"
   ++ last_column ++ V3WorkingTest.str_of_int row_num)%string.

Definition price_value (limit_price : option Q) : Py.pyval :=
  match limit_price with
  | Some price => Py.PyFloat price
  | None => Py.PyNone
  end.

(** ** Step 1 of [process_place_orders_with_kite]: placing the pending rows *)

(** [int(float(quantity_str))], [None] when it raises: the conversion of
    the library, kept abstract. *)
Variable int_of_float : string -> option Z.

Record placement : Type := mkplacement {
  placements_updates : list update;
  placed_count : Z;
  skipped_count : Z;
  invalid_count : Z
}.

(** The loop over [range(1, len(rows))]; [idx] is the index of the first
    of [rows]. *)
Fixpoint place_rows (idx : Z) (rows : list (list string)) (acc : placement)
  : M G placement :=
  match rows with
  | [] => ret acc
  | row :: rest =>
      let symbol := Py.strip (cell row 0) in
      let direction := Py.upper (Py.strip (cell row 1)) in
      let quantity_str := Py.strip (cell row 2) in
      let action_status := Py.upper (Py.strip (cell row 3)) in
      if (negb (Py.nonempty symbol) || negb (Py.nonempty direction)
          || negb (Py.nonempty quantity_str))%bool then
        place_rows (idx + 1) rest
          (mkplacement (placements_updates acc) (placed_count acc) (skipped_count acc)
                       (invalid_count acc + 1))
      else if String.eqb action_status "ORDER_PLACED" then
        place_rows (idx + 1) rest
          (mkplacement (placements_updates acc) (placed_count acc) (skipped_count acc + 1)
                       (invalid_count acc))
      else
        match int_of_float quantity_str with
        | None => place_rows (idx + 1) rest acc
        | Some quantity =>
            placed <- place_order_with_kite symbol direction quantity None None ;;
            let (order_id, limit_price) := placed in
            match order_id with
            | Some id =>
                if Py.nonempty id then
                  let row_num := idx + 1 in
                  timestamp <- get_indian_timestamp kite ;;
                  place_rows (idx + 1) rest
                    (mkplacement
                       (placements_updates acc
                        ++ [ {| range := row_range "D" "G" row_num;
                                values := [Py.PyStr "Order_Placed"; Py.PyStr timestamp;
                                           price_value limit_price; Py.PyStr id] |} ])
                       (placed_count acc + 1) (skipped_count acc) (invalid_count acc))
                else place_rows (idx + 1) rest acc
            | None => place_rows (idx + 1) rest acc
            end
        end
  end.

(** Step 1, for the rows [sheet.get_all_values()] returned: [inl] is the
    text the function returns at once, [inr] is [place_result], with which
    it goes on to the status check. *)
Definition placement_step (rows : list (list string)) : M G (string + string) :=
  if Z.of_nat (List.length rows) <=? 1 then ret (inl "No data rows found")
  else
    done <- place_rows 1 (tl rows) (mkplacement [] 0 0 0) ;;
    _ <- match placements_updates done with
         | [] => ret tt
         | updates => batch_update updates
         end ;;
    let total_rows := Z.of_nat (List.length rows) - 1 in
    ret (inr ("total=" ++ V3WorkingTest.str_of_int total_rows
              ++ ", placed=" ++ V3WorkingTest.str_of_int (placed_count done)
              ++ ", skipped=" ++ V3WorkingTest.str_of_int (skipped_count done)
              ++ ", invalid=" ++ V3WorkingTest.str_of_int (invalid_count done))%string).

(** ** [update_order_statuses] *)

Record reconciliation : Type := mkreconciliation {
  status_updates : list update;
  updated_count : Z;
  error_count : Z
}.

Fixpoint status_rows (idx : Z) (rows : list (list string)) (acc : reconciliation)
  : M G reconciliation :=
  match rows with
  | [] => ret acc
  | row :: rest =>
      let action_status := Py.upper (Py.strip (cell row 3)) in
      let order_id := Py.strip (cell row 6) in
      if (String.eqb action_status "ORDER_PLACED" && Py.nonempty order_id)%bool then
        status <- check_order_status order_id ;;
        match status with
        | Some text =>
            if Py.nonempty text then
              let row_num := idx + 1 in
              timestamp <- get_indian_timestamp kite ;;
              status_rows (idx + 1) rest
                (mkreconciliation
                   (status_updates acc
                    ++ [ {| range := row_range "H" "I" row_num;
                            values := [Py.PyStr text; Py.PyStr timestamp] |} ])
                   (updated_count acc + 1) (error_count acc))
            else
              status_rows (idx + 1) rest
                (mkreconciliation (status_updates acc) (updated_count acc)
                                  (error_count acc + 1))
        | None =>
            status_rows (idx + 1) rest
              (mkreconciliation (status_updates acc) (updated_count acc)
                                (error_count acc + 1))
        end
      else status_rows (idx + 1) rest acc
  end.

(** [rows] is what [sheet.get_all_values()] returned. *)
Definition update_order_statuses (rows : list (list string)) : M G string :=
  if Z.of_nat (List.length rows) <=? 1 then ret "No data rows found"
  else
    done <- status_rows 1 (tl rows) (mkreconciliation [] 0 0) ;;
    _ <- match status_updates done with
         | [] => ret tt
         | updates => batch_update updates
         end ;;
    ret ("status_updated=" ++ V3WorkingTest.str_of_int (updated_count done)
         ++ ", errors=" ++ V3WorkingTest.str_of_int (error_count done))%string.

End WithGateway.

(** The row is one Step 1 sends to the gateway: complete, not marked as
    placed, with a quantity that converts.  The symbol, the direction and
    the quantity it is placed with. *)
Definition pending (int_of_float : string -> option Z) (row : list string)
  : option (string * string * Z) :=
  let symbol := Py.strip (cell row 0) in
  let direction := Py.upper (Py.strip (cell row 1)) in
  let quantity_str := Py.strip (cell row 2) in
  let action_status := Py.upper (Py.strip (cell row 3)) in
  if (Py.nonempty symbol && Py.nonempty direction && Py.nonempty quantity_str
      && negb (String.eqb action_status "ORDER_PLACED"))%bool
  then option_map (fun quantity => (symbol, direction, quantity)) (int_of_float quantity_str)
  else None.

(** The row is one the status check asks the gateway about: its order id. *)
Definition placed_id (row : list string) : option string :=
  let action_status := Py.upper (Py.strip (cell row 3)) in
  let order_id := Py.strip (cell row 6) in
  if (String.eqb action_status "ORDER_PLACED" && Py.nonempty order_id)%bool
  then Some order_id else None.

(** What an order of the queue processor looks like: a regular limit order
    at a price, valid for the day. *)
Definition queue_order (exchange symbol direction : string) (quantity : Z) (product : string)
           (price : Q) : order :=
  {| request := Kite.mkrequest "regular" exchange (Some symbol) direction quantity product
                               "LIMIT" (Some price);
     validity := "DAY" |}.

(** The pending rows of a sheet, in order, each as symbol, direction and
    quantity. *)
Definition pending_rows (int_of_float : string -> option Z) (rows : list (list string))
  : list (string * string * Z) :=
  flat_map (fun row => match pending int_of_float row with Some x => [x] | None => [] end)
           rows.

(** The order ids of the rows marked as placed, in order. *)
Definition placed_ids (rows : list (list string)) : list string :=
  flat_map (fun row => match placed_id row with Some id => [id] | None => [] end) rows.

(** A row that lacks a symbol, a direction or a quantity. *)
Definition incomplete (row : list string) : bool :=
  (negb (Py.nonempty (Py.strip (cell row 0)))
   || negb (Py.nonempty (Py.upper (Py.strip (cell row 1))))
   || negb (Py.nonempty (Py.strip (cell row 2))))%bool.

(** A complete row that is marked as placed. *)
Definition marked (row : list string) : bool :=
  (negb (incomplete row) && String.eqb (Py.upper (Py.strip (cell row 3))) "ORDER_PLACED")%bool.

(** The quote asked for a pending row, and the instruction an order for it
    carries. *)
Definition quote_symbol_of (p : string * string * Z) : string :=
  let '(symbol, _, _) := p in
  (V3WorkingTest.place_order_with_kite_exchange symbol ++ ":" ++ symbol)%string.

Definition instruction (p : string * string * Z) : option string * string * Z :=
  let '(symbol, direction, quantity) := p in (Some symbol, direction, quantity).

(** [place_result] *)
Definition place_result (total placed skipped invalid : Z) : string :=
  ("total=" ++ V3WorkingTest.str_of_int total
   ++ ", placed=" ++ V3WorkingTest.str_of_int placed
   ++ ", skipped=" ++ V3WorkingTest.str_of_int skipped
   ++ ", invalid=" ++ V3WorkingTest.str_of_int invalid)%string.

(** The calls of one kind in a log, in order. *)
Definition orders_in (log : list call) : list order :=
  flat_map (fun c => match c with PlaceOrder o => [o] | _ => [] end) log.

Definition quotes_in (log : list call) : list string :=
  flat_map (fun c => match c with Quote quote_symbol => [quote_symbol] | _ => [] end) log.

Definition histories_in (log : list call) : list string :=
  flat_map (fun c => match c with OrderHistory order_id => [order_id] | _ => [] end) log.

Definition batches_in (log : list call) : list (list update) :=
  flat_map (fun c => match c with BatchUpdate updates => [updates] | _ => [] end) log.

(** Symbol, direction and quantity of an order. *)
Definition instruction_of (o : order) : option string * string * Z :=
  (Kite.tradingsymbol (request o), Kite.transaction_type (request o),
   Kite.quantity (request o)).

(** [sub] is [l] with some elements left out. *)
Inductive subsequence {A : Type} : list A -> list A -> Prop :=
  | subsequence_nil : subsequence [] []
  | subsequence_skip (x : A) (sub l : list A) : subsequence sub l -> subsequence sub (x :: l)
  | subsequence_keep (x : A) (sub l : list A) :
      subsequence sub l -> subsequence (x :: sub) (x :: l).

End V3Orders.

(* ================================================================== *)
(** * Inputs the further properties are run on *)
(* ================================================================== *)

Module Demo.

Import Calculations Notions.

(** The contracts the resolver finds in the demonstration dump. *)
Definition contracts : Py.dict Futures.t :=
  get_futures_contracts demo_lot_sizes by_expiry_text (Some demo_instruments) demo_now
                        ["ZED"; "QUX"].

Definition priced (last_price : Q) : Quote.t :=
  Quote.mk (Some last_price) None None None None.

(** A gateway that quotes one stock below its future, the other above. *)
Definition quote_answer (quote_symbols : list string) : option (Py.dict Quote.t) :=
  Some [ ("NSE:ZED", priced 2000); ("NFO:ZED25NOVFUT", priced 2014);
         ("NSE:QUX", priced 500); ("NFO:QUX25DECFUT", priced 495) ].

(** The rows ordered by their expiry date, stably; a row whose expiry does
    not parse comes first. *)
Definition by_expiry_date (rows : list FutRow.t) : list FutRow.t :=
  Py.sorted_by Z.ltb
               (fun row => match Terms.expiry_of row with
                           | Some d => Datetime.microseconds d
                           | None => 0
                           end)
               rows.

(** A gateway for the queue processor: it quotes every instrument at 99.5
    bid and 100.5 ask, accepts every order under a fixed id, knows no order
    history, and its clock stands still. *)
Definition desk : V3Queue.gateway unit :=
  {| V3Queue.answer_quote := fun g quote_symbol =>
       (Some [(quote_symbol, V3Queue.Depth.mk [99.5%Q; 99%Q] [100.5%Q; 101%Q])], g);
     V3Queue.answer_place := fun g _ => (inl "240101000000002", g);
     V3Queue.answer_history := fun g order_id =>
       (Some [V3WorkingTest.Event.mk (Some "COMPLETE") (Some 5) (Some 0)
                (Some (V3WorkingTest.Instant
                         (Datetime.mkdatetime 2024 1 15 14 30 27 0)))], g);
     V3Queue.clock := fun _ => "2024-01-15 14:31:00" |}.

Definition idle : V3Queue.world unit := V3Queue.mkworld tt [].

(** [int(float(text))] on the few texts the demonstration sheet holds. *)
Definition int_of_float (text : string) : option Z :=
  if String.eqb text "5" then Some 5
  else if String.eqb text "2.0" then Some 2
  else None.

(** A sheet: the header, a pending row, a row already placed, a row without
    a quantity, and a row whose quantity does not convert. *)
Definition sheet : list (list string) :=
  [ ["symbol"; "direction"; "quantity"; "action_status"; "timestamp"; "limit_price"; "order_id"];
    [" ACME "; "buy"; "5"];
    ["ZED"; "SELL"; "2.0"; " order_placed "; "2024-01-15 10:00:00"; "2001"; " 240101000000001 "];
    ["QUX"; "BUY"; ""];
    ["SOLO"; "SELL"; "ten"] ].

(** A feed of live prices: one stock quoted at both venues, with and
    without the prices of the day, and an index without a last price. *)
Definition live_prices : Py.dict Quote.t :=
  [ ("NSE:ACME", Quote.mk (Some 100%Q) (Some 2000000%Q) None None
                          (Some (Ohlc.mk (Some 99%Q) (Some 102%Q) (Some 98%Q) (Some 80%Q))));
    ("NSE:INDEX", Quote.mk None None None None None);
    ("BSE:ACME", Quote.mk (Some 101%Q) (Some 1000000%Q) (Some 1%Q) (Some (-50)%Q) None) ].

End Demo.

(* ================================================================== *)
(** * Properties *)
(* ================================================================== *)

Import Calculations Notions.

(** ** Numbers and sorting *)

Lemma Qltb_true (x y : Q) : Py.Qltb x y = true <-> (x < y)%Q.
Proof.
  unfold Py.Qltb. rewrite negb_true_iff. split; intro H.
  - apply Qnot_le_lt. intro L. apply Qle_bool_iff in L. congruence.
  - destruct (Qle_bool y x) eqn:E; [|reflexivity].
    apply Qle_bool_iff in E. exfalso. exact (Qlt_not_le _ _ H E).
Qed.

Lemma Qltb_false (x y : Q) : Py.Qltb x y = false <-> (y <= x)%Q.
Proof.
  unfold Py.Qltb. rewrite negb_false_iff. apply Qle_bool_iff.
Qed.

Section SortFacts.

Context {A K : Type} (lt : K -> K -> bool) (key : A -> K).

Lemma insert_desc_perm (x : A) (l : list A) :
  Permutation (x :: l) (Py.insert_desc lt key x l).
Proof.
  induction l as [|y r IH]; simpl; [reflexivity|].
  destruct (lt (key x) (key y)); [|reflexivity].
  rewrite perm_swap. now apply perm_skip.
Qed.

Lemma sorted_by_reverse_perm (l : list A) :
  Permutation l (Py.sorted_by_reverse lt key l).
Proof.
  induction l as [|x r IH]; simpl; [constructor|].
  rewrite <- insert_desc_perm. now apply perm_skip.
Qed.

Lemma insert_asc_perm (x : A) (l : list A) :
  Permutation (x :: l) (Py.insert_asc lt key x l).
Proof.
  induction l as [|y r IH]; simpl; [reflexivity|].
  destruct (lt (key y) (key x)); [|reflexivity].
  rewrite perm_swap. now apply perm_skip.
Qed.

Lemma sorted_by_perm (l : list A) : Permutation l (Py.sorted_by lt key l).
Proof.
  induction l as [|x r IH]; simpl; [constructor|].
  rewrite <- insert_asc_perm. now apply perm_skip.
Qed.

Lemma in_sorted_by_reverse (e : A) (l : list A) :
  In e (Py.sorted_by_reverse lt key l) <-> In e l.
Proof.
  split; apply Permutation_in;
    [symmetry|]; apply sorted_by_reverse_perm.
Qed.

Lemma in_sorted_by (e : A) (l : list A) : In e (Py.sorted_by lt key l) <-> In e l.
Proof.
  split; apply Permutation_in; [symmetry|]; apply sorted_by_perm.
Qed.

End SortFacts.

(** ** The cross-venue evaluator *)

Lemma in_arbitrage_rows (thr : Q) (groups : Py.dict (Py.dict Stock.t)) (e : Arbitrage.t) :
  In e (arbitrage_rows thr groups) <->
  exists symbol exchanges,
    In (symbol, exchanges) groups /\ arbitrage_row thr symbol exchanges = Some e.
Proof.
  induction groups as [|[s ex] r IH]; simpl.
  - split; [tauto|]. intros (? & ? & [] & _).
  - destruct (arbitrage_row thr s ex) as [row|] eqn:E; simpl; rewrite IH; split.
    + intros [<-|(s' & ex' & Hin & Hrow)]; [exists s, ex|exists s', ex']; auto.
    + intros (s' & ex' & [Heq|Hin] & Hrow).
      * inversion Heq; subst. left. congruence.
      * right. eauto.
    + intros (s' & ex' & Hin & Hrow). eauto.
    + intros (s' & ex' & [Heq|Hin] & Hrow); [inversion Heq; subst; congruence|eauto].
Qed.

Lemma in_calculate_arbitrage_opportunities (data : list Stock.t) (thr : Q) (e : Arbitrage.t) :
  In e (calculate_arbitrage_opportunities data thr) <->
  exists symbol exchanges,
    In (symbol, exchanges) (stock_groups_of data) /\
    arbitrage_row thr symbol exchanges = Some e.
Proof.
  unfold calculate_arbitrage_opportunities. destruct data as [|d data'].
  - simpl. split; [tauto|]. intros (? & ? & [] & _).
  - rewrite in_sorted_by_reverse. apply in_arbitrage_rows.
Qed.

(** [Some a = Some b] gives [a = b] with [a] left as written. *)
Ltac some_eq H :=
  match type of H with
  | Some ?x = Some ?y =>
      let E := fresh "E" in
      assert (E : x = y) by congruence; clear H; try subst y
  end.

Lemma arbitrage_row_some (thr : Q) (symbol : string) (exchanges : Py.dict Stock.t)
      (e : Arbitrage.t) :
  arbitrage_row thr symbol exchanges = Some e ->
  Arbitrage.symbol e = symbol /\
  pair_pct exchanges = Some (Arbitrage.price_difference_pct e) /\
  Py.Qltb (Arbitrage.price_difference_pct e) thr = false /\
  Arbitrage.is_profitable e = Py.Qltb 0.05 (Arbitrage.price_difference_pct e).
Proof.
  unfold arbitrage_row, pair_pct.
  destruct (Py.get "NSE" exchanges) as [n|]; [|discriminate].
  destruct (Py.get "BSE" exchanges) as [b|]; [|discriminate].
  destruct (Py.Qltb 0 (Stock.last_price n) && Py.Qltb 0 (Stock.last_price b))%bool;
    [|discriminate].
  cbv zeta.
  destruct (Py.Qltb _ thr) eqn:T; [discriminate|].
  intros H. some_eq H. simpl. auto.
Qed.

Lemma arbitrage_row_kept (thr : Q) (symbol : string) (exchanges : Py.dict Stock.t) (p : Q) :
  pair_pct exchanges = Some p ->
  Py.Qltb p thr = false ->
  exists e, arbitrage_row thr symbol exchanges = Some e /\
            Arbitrage.symbol e = symbol /\
            Arbitrage.price_difference_pct e = p /\
            Arbitrage.is_profitable e = Py.Qltb 0.05 p.
Proof.
  unfold arbitrage_row, pair_pct.
  destruct (Py.get "NSE" exchanges) as [n|]; [|discriminate].
  destruct (Py.get "BSE" exchanges) as [b|]; [|discriminate].
  destruct (Py.Qltb 0 (Stock.last_price n) && Py.Qltb 0 (Stock.last_price b))%bool;
    [|discriminate].
  cbv zeta. intros H T. some_eq H. rewrite T.
  eexists. split; [reflexivity|]. simpl. auto.
Qed.

Lemma arbitrage_row_dropped (thr : Q) (symbol : string) (exchanges : Py.dict Stock.t) (p : Q) :
  pair_pct exchanges = Some p ->
  Py.Qltb p thr = true ->
  arbitrage_row thr symbol exchanges = None.
Proof.
  unfold arbitrage_row, pair_pct.
  destruct (Py.get "NSE" exchanges) as [n|]; [|discriminate].
  destruct (Py.get "BSE" exchanges) as [b|]; [|discriminate].
  destruct (Py.Qltb 0 (Stock.last_price n) && Py.Qltb 0 (Stock.last_price b))%bool;
    [|discriminate].
  cbv zeta. intros H T. some_eq H. now rewrite T.
Qed.

(** Keys of a dictionary stay distinct under assignment. *)
Lemma set_keys {V} (k : string) (v : V) (d : Py.dict V) (x : string) :
  In x (map fst (Py.set k v d)) -> x = k \/ In x (map fst d).
Proof.
  induction d as [|[k' v'] r IH]; simpl.
  - intros [<-|[]]. now left.
  - destruct (String.eqb_spec k k') as [->|N]; simpl.
    + intros [<-|H]; auto.
    + intros [<-|H]; auto. destruct (IH H); auto.
Qed.

Lemma set_nodup {V} (k : string) (v : V) (d : Py.dict V) :
  NoDup (map fst d) -> NoDup (map fst (Py.set k v d)).
Proof.
  induction d as [|[k' v'] r IH]; simpl; intros H.
  - constructor; [intros []|constructor].
  - inversion H as [|? ? Hnot Hr]; subst.
    destruct (String.eqb_spec k k') as [->|N]; simpl.
    + now constructor.
    + constructor; [|now apply IH].
      intros Hin. apply set_keys in Hin. destruct Hin; [congruence|contradiction].
Qed.

Lemma stock_groups_nodup (data : list Stock.t) : NoDup (map fst (stock_groups_of data)).
Proof.
  unfold stock_groups_of.
  assert (G : forall l acc, NoDup (map fst acc) ->
                            NoDup (map fst (fold_left group_stock l acc))).
  { induction l as [|x l IH]; simpl; intros acc H; [exact H|].
    apply IH. unfold group_stock. now apply set_nodup. }
  apply G. constructor.
Qed.

Lemma nodup_keys_functional {V} (d : Py.dict V) (k : string) (v1 v2 : V) :
  NoDup (map fst d) -> In (k, v1) d -> In (k, v2) d -> v1 = v2.
Proof.
  induction d as [|[k' v'] r IH]; simpl; [tauto|].
  intros H [E1|I1] [E2|I2]; inversion H as [|? ? Hnot Hr]; subst.
  - congruence.
  - inversion E1; subst. exfalso. apply Hnot. now apply (in_map fst) in I2.
  - inversion E2; subst. exfalso. apply Hnot. now apply (in_map fst) in I1.
  - now apply IH.
Qed.

(** C2.  Every row the cross-venue evaluator returns carries
    [is_profitable = (price_difference_pct > 0.05)], a strict comparison: a
    row whose percentage is exactly 0.05 is flagged not profitable.  This
    holds for every value of [min_profit_threshold]. *)
Theorem profitable_flag_is_strict_gross_test
        (live_prices_data : list Stock.t) (min_profit_threshold : Q) (row : Arbitrage.t) :
  In row (calculate_arbitrage_opportunities live_prices_data min_profit_threshold) ->
  Arbitrage.is_profitable row = Py.Qltb 0.05 (Arbitrage.price_difference_pct row) /\
  (Arbitrage.is_profitable row = true <-> (0.05 < Arbitrage.price_difference_pct row)%Q) /\
  ((Arbitrage.price_difference_pct row == 0.05)%Q -> Arbitrage.is_profitable row = false).
Proof.
  intros Hin. apply in_calculate_arbitrage_opportunities in Hin.
  destruct Hin as (symbol & exchanges & _ & Hrow).
  apply arbitrage_row_some in Hrow. destruct Hrow as (_ & _ & _ & Hflag).
  rewrite Hflag. split; [reflexivity|]. split.
  - apply Qltb_true.
  - intros E. apply Qltb_false. rewrite E. apply Qle_refl.
Qed.

(** The evaluator run on the demonstration quotes with the threshold 0: the
    pair exactly 0.05 percent apart is returned and not flagged. *)
Lemma profitable_flag_is_strict_gross_test_witness :
  exists row,
    In row (calculate_arbitrage_opportunities demo_quotes 0) /\
    Arbitrage.symbol row = "ZED" /\
    (Arbitrage.price_difference_pct row == 0.05)%Q /\
    Arbitrage.is_profitable row = false /\
    Arbitrage.is_profitable row = Py.Qltb 0.05 (Arbitrage.price_difference_pct row).
Proof.
  eexists. split; [vm_compute; right; left; reflexivity|].
  split; [reflexivity|]. split; [reflexivity|]. split; [reflexivity|].
  refine (proj1 (profitable_flag_is_strict_gross_test demo_quotes 0 _ _)).
  vm_compute. right. left. reflexivity.
Defined.

(** C10.  The threshold is a hard lower bound on the rows returned: every
    row has [price_difference_pct >= min_profit_threshold], whatever the
    quotes and the threshold. *)
Theorem threshold_bounds_returned_rows
        (live_prices_data : list Stock.t) (min_profit_threshold : Q) (row : Arbitrage.t) :
  In row (calculate_arbitrage_opportunities live_prices_data min_profit_threshold) ->
  (min_profit_threshold <= Arbitrage.price_difference_pct row)%Q.
Proof.
  intros Hin. apply in_calculate_arbitrage_opportunities in Hin.
  destruct Hin as (symbol & exchanges & _ & Hrow).
  apply arbitrage_row_some in Hrow. destruct Hrow as (_ & _ & Hthr & _).
  now apply Qltb_false.
Qed.

(** With the threshold one half, the pair one percent apart is returned and
    is at or above the threshold. *)
Lemma threshold_bounds_returned_rows_witness :
  exists row,
    In row (calculate_arbitrage_opportunities demo_quotes 0.5) /\
    Arbitrage.symbol row = "ACME" /\
    (0.5 <= Arbitrage.price_difference_pct row)%Q.
Proof.
  eexists. split; [vm_compute; left; reflexivity|]. split; [reflexivity|].
  apply (threshold_bounds_returned_rows demo_quotes 0.5).
  vm_compute. left. reflexivity.
Defined.

(** C3, as stated, fails: with the threshold 2 the pair one percent apart,
    which is profitable (its percentage exceeds 0.05), is not returned. *)
Lemma profitable_pair_dropped_by_threshold :
  ~ (forall symbol exchanges p,
        In (symbol, exchanges) (stock_groups_of demo_quotes) ->
        pair_pct exchanges = Some p ->
        (0.05 < p)%Q ->
        exists row,
          In row (calculate_arbitrage_opportunities demo_quotes 2) /\
          Arbitrage.symbol row = symbol).
Proof.
  intros claim.
  destruct (claim "ACME"
                  [("NSE", Stock.mk "ACME" "NSE" 100 (Some 2000000%Q) None);
                   ("BSE", Stock.mk "ACME" "BSE" 101 (Some 1000000%Q) None)]
                  ((Qabs (100 - 101) / Py.min 100 101) * 100)%Q)
    as (row & Hin & _).
  - vm_compute. left. reflexivity.
  - reflexivity.
  - reflexivity.
  - vm_compute in Hin. exact Hin.
Qed.

(** C3, amended.  The threshold decides the inclusion of every row,
    profitable or not: a quoted pair is returned exactly when its percentage
    difference is not below [min_profit_threshold].  Hence every profitable
    pair is returned when the threshold is at most 0.05, and a pair below a
    larger threshold is dropped even when it is profitable. *)
Theorem threshold_decides_inclusion
        (live_prices_data : list Stock.t) (min_profit_threshold : Q)
        (symbol : string) (exchanges : Py.dict Stock.t) (p : Q) :
  In (symbol, exchanges) (stock_groups_of live_prices_data) ->
  pair_pct exchanges = Some p ->
  let returned := calculate_arbitrage_opportunities live_prices_data min_profit_threshold in
  ((min_profit_threshold <= p)%Q ->
   exists row, In row returned /\ Arbitrage.symbol row = symbol /\
               Arbitrage.price_difference_pct row = p /\
               Arbitrage.is_profitable row = Py.Qltb 0.05 p) /\
  ((p < min_profit_threshold)%Q ->
   forall row, In row returned -> Arbitrage.symbol row <> symbol) /\
  ((min_profit_threshold <= 0.05)%Q -> (0.05 < p)%Q ->
   exists row, In row returned /\ Arbitrage.symbol row = symbol /\
               Arbitrage.is_profitable row = true).
Proof.
  intros Hin Hpct returned. subst returned.
  assert (Kept : (min_profit_threshold <= p)%Q ->
                 exists row,
                   In row (calculate_arbitrage_opportunities live_prices_data
                                                             min_profit_threshold) /\
                   Arbitrage.symbol row = symbol /\
                   Arbitrage.price_difference_pct row = p /\
                   Arbitrage.is_profitable row = Py.Qltb 0.05 p).
  { intros Hle. apply Qltb_false in Hle.
    destruct (arbitrage_row_kept min_profit_threshold symbol exchanges p Hpct Hle)
      as (row & Hrow & Hs & Hp & Hf).
    exists row. split; [|auto].
    apply in_calculate_arbitrage_opportunities. eauto. }
  split; [exact Kept|]. split.
  - intros Hlt row Hrow Hsym.
    apply in_calculate_arbitrage_opportunities in Hrow.
    destruct Hrow as (s' & ex' & Hin' & Hrow).
    pose proof (arbitrage_row_some _ _ _ _ Hrow) as (Hs & _).
    rewrite Hsym in Hs. subst s'.
    assert (ex' = exchanges).
    { apply (nodup_keys_functional (stock_groups_of live_prices_data) symbol);
        [apply stock_groups_nodup|exact Hin'|exact Hin]. }
    subst ex'.
    apply Qltb_true in Hlt.
    rewrite (arbitrage_row_dropped _ _ _ _ Hpct Hlt) in Hrow. discriminate.
  - intros Hthr Hprof.
    destruct Kept as (row & Hrow & Hs & Hp & Hf).
    { apply Qle_trans with 0.05%Q; [exact Hthr|now apply Qlt_le_weak]. }
    exists row. split; [exact Hrow|]. split; [exact Hs|].
    rewrite Hf. now apply Qltb_true.
Qed.

(** On the demonstration quotes with the threshold one half, the pair one
    percent apart is returned. *)
Lemma threshold_decides_inclusion_witness :
  exists row,
    In row (calculate_arbitrage_opportunities demo_quotes 0.5) /\
    Arbitrage.symbol row = "ACME" /\
    Arbitrage.is_profitable row = Py.Qltb 0.05 ((Qabs (100 - 101) / Py.min 100 101) * 100)%Q.
Proof.
  destruct (threshold_decides_inclusion demo_quotes 0.5 "ACME"
              [("NSE", Stock.mk "ACME" "NSE" 100 (Some 2000000%Q) None);
               ("BSE", Stock.mk "ACME" "BSE" 101 (Some 1000000%Q) None)]
              ((Qabs (100 - 101) / Py.min 100 101) * 100)%Q)
    as (Kept & _ & _).
  - vm_compute. left. reflexivity.
  - reflexivity.
  - destruct Kept as (row & Hin & Hs & _ & Hf).
    + vm_compute. discriminate.
    + exists row. auto.
Defined.

(** ** The margin estimate *)

(** C7.  The estimate is the full notional [price * quantity] for the
    delivery product (CNC) and the carry-forward product (NRML), exactly 30%
    of the notional for the intraday product (MIS), and what it is for MIS
    for any other product. *)
Theorem margin_estimate_by_product (price quantity : Q) :
  calculate_margin_required price quantity "CNC" = (price * quantity)%Q /\
  calculate_margin_required price quantity "NRML" = (price * quantity)%Q /\
  calculate_margin_required price quantity "MIS" = (price * quantity * 0.30)%Q /\
  (calculate_margin_required price quantity "MIS" == (30 # 100) * (price * quantity))%Q /\
  (forall product : string,
      product <> "CNC" -> product <> "NRML" ->
      calculate_margin_required price quantity product
      = calculate_margin_required price quantity "MIS").
Proof.
  repeat split; try reflexivity.
  - unfold calculate_margin_required. simpl. ring.
  - intros product Hc Hn. unfold calculate_margin_required.
    apply String.eqb_neq in Hc, Hn. rewrite Hc, Hn. simpl.
    now destruct (String.eqb product "MIS").
Qed.

(** A product the estimator does not know, at price 100 for 10 units, is
    charged like the intraday product: 300. *)
Lemma margin_estimate_by_product_witness :
  (calculate_margin_required 100 10 "BO" == 300)%Q /\
  (calculate_margin_required 100 10 "CNC" == 1000)%Q.
Proof.
  destruct (margin_estimate_by_product 100 10) as (Hc & _ & Hm & _ & Hother).
  split.
  - rewrite (Hother "BO"); [rewrite Hm; reflexivity|discriminate|discriminate].
  - rewrite Hc. reflexivity.
Defined.

(** ** The venue of a symbol *)

Lemma startswith_app_contains (a b s : string) :
  Py.startswith (a ++ b) s = true -> Py.contains b s = true.
Proof.
  revert s. induction a as [|c a IH]; intros s H.
  - destruct s; simpl in *; rewrite H; reflexivity.
  - destruct s as [|c' s']; simpl in H; [discriminate|].
    apply andb_true_iff in H. destruct H as [_ H].
    apply IH in H. simpl. rewrite H. apply orb_true_r.
Qed.

Lemma contains_app (a b s : string) :
  Py.contains (a ++ b) s = true -> Py.contains b s = true.
Proof.
  induction s as [|c s IH]; intros H.
  - simpl in H. rewrite orb_false_r in H. now apply startswith_app_contains in H.
  - change (Py.contains (a ++ b) (String c s))
      with (Py.startswith (a ++ b) (String c s) || Py.contains (a ++ b) s)%bool in H.
    apply orb_true_iff in H. destruct H as [H|H].
    + now apply startswith_app_contains in H.
    + apply IH in H.
      change (Py.contains b (String c s))
        with (Py.startswith b (String c s) || Py.contains b s)%bool.
      rewrite H. apply orb_true_r.
Qed.

(** Each of the five tokens contains the bare marker, which is one of them:
    the test amounts to looking for the marker. *)
Lemma currency_tokens_marker (u : string) :
  existsb (fun curr => Py.contains curr u) PlaceOrderLogics.currency_tokens
  = Py.contains "INR" u.
Proof.
  unfold PlaceOrderLogics.currency_tokens. cbn [existsb].
  destruct (Py.contains "INR" u) eqn:M.
  - now rewrite !orb_true_r.
  - rewrite !orb_false_r.
    assert (N : forall pre, Py.contains (pre ++ "INR") u = false).
    { intros pre. destruct (Py.contains (pre ++ "INR") u) eqn:C; [|reflexivity].
      apply contains_app in C. congruence. }
    pose proof (N "USD") as N1. pose proof (N "EUR") as N2.
    pose proof (N "GBP") as N3. pose proof (N "JPY") as N4.
    cbn [String.append] in N1, N2, N3, N4.
    now rewrite N1, N2, N3, N4.
Qed.

(** C6, as stated, fails: a symbol with two digits that contains the bare
    marker but none of the four currency pairs is not routed to the
    derivatives venue. *)
Lemma bare_marker_is_a_currency_token :
  ~ (forall symbol,
        2 <= Py.count Py.isdigit symbol ->
        existsb (fun pair => Py.contains pair (Py.upper symbol)) four_currency_pairs = false ->
        PlaceOrderLogics.auto_detect_exchange symbol = "NFO").
Proof.
  intros claim. specialize (claim "SGDINR25JANFUT").
  assert (E : PlaceOrderLogics.auto_detect_exchange "SGDINR25JANFUT" = "CDS") by reflexivity.
  rewrite E in claim. discriminate claim.
  - vm_compute. discriminate.
  - reflexivity.
Qed.

(** C6, amended.  A symbol with two or more digits is a currency future
    (venue CDS) when its upper-case form contains one of five tokens, the
    four pairs USDINR, EURINR, GBPINR, JPYINR or the bare marker INR, that is
    when it contains the marker; it is another derivative (venue NFO)
    otherwise; a symbol with fewer than two digits is an equity on the
    primary cash venue (NSE).  The order-placing routine detects the venue
    the same way. *)
Theorem venue_by_digits_and_marker (symbol : string) :
  let digits := Py.count Py.isdigit symbol in
  let upper := Py.upper symbol in
  PlaceOrderLogics.currency_tokens = (four_currency_pairs ++ ["INR"])%list /\
  (2 <= digits -> Py.contains "INR" upper = true ->
   PlaceOrderLogics.auto_detect_exchange symbol = "CDS") /\
  (2 <= digits -> Py.contains "INR" upper = false ->
   PlaceOrderLogics.auto_detect_exchange symbol = "NFO") /\
  (digits < 2 -> PlaceOrderLogics.auto_detect_exchange symbol = "NSE") /\
  (existsb (fun curr => Py.contains curr upper) PlaceOrderLogics.currency_tokens
   = Py.contains "INR" upper) /\
  V3WorkingTest.place_order_with_kite_exchange symbol
  = PlaceOrderLogics.auto_detect_exchange symbol.
Proof.
  intros digits upper. subst digits upper.
  split; [reflexivity|].
  unfold PlaceOrderLogics.auto_detect_exchange. rewrite currency_tokens_marker.
  repeat split.
  - intros D M. apply Z.leb_le in D. now rewrite D, M.
  - intros D M. apply Z.leb_le in D. now rewrite D, M.
  - intros D. apply Z.leb_gt in D. now rewrite D.
  - unfold V3WorkingTest.place_order_with_kite_exchange.
    change (existsb (fun currency => Py.contains currency (Py.upper symbol))
                    ["USDINR"; "EURINR"; "GBPINR"; "JPYINR"; "INR"])
      with (existsb (fun curr => Py.contains curr (Py.upper symbol))
                    PlaceOrderLogics.currency_tokens).
    now rewrite currency_tokens_marker.
Qed.

(** Three symbols, one per venue. *)
Lemma venue_by_digits_and_marker_witness :
  PlaceOrderLogics.auto_detect_exchange "usdinr25NOVFUT" = "CDS" /\
  PlaceOrderLogics.auto_detect_exchange "NIFTY24SEP24000CE" = "NFO" /\
  PlaceOrderLogics.auto_detect_exchange "RELIANCE" = "NSE" /\
  PlaceOrderLogics.auto_detect_exchange "SGDINR25JANFUT" = "CDS".
Proof.
  destruct (venue_by_digits_and_marker "usdinr25NOVFUT") as (_ & C & _).
  destruct (venue_by_digits_and_marker "NIFTY24SEP24000CE") as (_ & _ & F & _).
  destruct (venue_by_digits_and_marker "RELIANCE") as (_ & _ & _ & E & _).
  destruct (venue_by_digits_and_marker "SGDINR25JANFUT") as (_ & C' & _).
  split; [|split; [|split]].
  - apply C; [vm_compute; discriminate|reflexivity].
  - apply F; [vm_compute; discriminate|reflexivity].
  - apply E. reflexivity.
  - apply C'; [vm_compute; discriminate|reflexivity].
Defined.

(** ** The futures order symbol *)

Lemma upper_char_idempotent (c : ascii) : Py.upper_char (Py.upper_char c) = Py.upper_char c.
Proof. destruct c as [[] [] [] [] [] [] [] []]; reflexivity. Qed.

Lemma upper_app (a b : string) : Py.upper (a ++ b) = (Py.upper a ++ Py.upper b)%string.
Proof. induction a as [|c a IH]; simpl; [reflexivity|now rewrite IH]. Qed.

Lemma keep_idempotent (p : ascii -> bool) (s : string) : Py.keep p (Py.keep p s) = Py.keep p s.
Proof.
  induction s as [|c s IH]; simpl; [reflexivity|].
  destruct (p c) eqn:E; simpl; [rewrite E, IH; reflexivity|exact IH].
Qed.

(** The cleaned symbol holds letters and digits only and is upper case. *)
Lemma cleaned_is_upper_alnum (s : string) :
  Py.keep Py.isalnum (cleaned s) = cleaned s /\ Py.upper (cleaned s) = cleaned s.
Proof.
  unfold cleaned. split; [apply keep_idempotent|].
  induction s as [|c s IH]; simpl; [reflexivity|].
  destruct (Py.isalnum (Py.upper_char c)); simpl; [|exact IH].
  now rewrite upper_char_idempotent, IH.
Qed.

Lemma make_valid (y m d H M S us : Z) (t : Datetime.datetime) :
  Datetime.make y m d H M S us = Some t ->
  t = Datetime.mkdatetime y m d H M S us /\ 1 <= y <= 9999 /\ 1 <= m <= 12.
Proof.
  unfold Datetime.make, Datetime.in_range.
  destruct (_ && _)%bool eqn:E; [|discriminate].
  intros T. some_eq T.
  repeat (apply andb_true_iff in E; destruct E as [E ?]).
  repeat match goal with
         | H : (_ <=? _) = true |- _ => apply Z.leb_le in H
         end.
  split; [reflexivity|lia].
Qed.

Lemma strptime_valid (text fmt : string) (t : Datetime.datetime) :
  Datetime.strptime text fmt = Some t ->
  1 <= Datetime.year t <= 9999 /\ 1 <= Datetime.month t <= 12.
Proof.
  unfold Datetime.strptime.
  destruct (Datetime.matches _ _ _) as [|[g rest] ?]; [discriminate|].
  destruct rest; [|discriminate].
  intros H. apply make_valid in H. destruct H as (-> & Hy & Hm). simpl. lia.
Qed.

Lemma parse_expiry_some (text : string) (formats : list string) (t : Datetime.datetime) :
  parse_expiry text formats = Some t ->
  exists fmt, In fmt formats /\ Datetime.strptime text fmt = Some t.
Proof.
  induction formats as [|f r IH]; simpl; [discriminate|].
  destruct (Datetime.strptime text f) as [t'|] eqn:E.
  - intros H. some_eq H. exists f. auto.
  - intros H. destruct (IH H) as (fmt & Hin & Hp). exists fmt. auto.
Qed.

Lemma parse_expiry_none (text : string) (formats : list string) :
  parse_expiry text formats = None <->
  forall fmt, In fmt formats -> Datetime.strptime text fmt = None.
Proof.
  induction formats as [|f r IH]; simpl.
  - split; [intros _ fmt []|reflexivity].
  - destruct (Datetime.strptime text f) as [t'|] eqn:E.
    + split; [discriminate|]. intros H. specialize (H f (or_introl eq_refl)). congruence.
    + rewrite IH. split.
      * intros H fmt [<-|Hin]; auto.
      * intros H fmt Hin. apply H. now right.
Qed.

Lemma digit_char_upper (k : Z) :
  0 <= k <= 9 ->
  Py.upper_char (ascii_of_N (Z.to_N (48 + k))) = ascii_of_N (Z.to_N (48 + k)).
Proof.
  intros H.
  assert (C : k = 0 \/ k = 1 \/ k = 2 \/ k = 3 \/ k = 4 \/ k = 5 \/ k = 6 \/ k = 7
              \/ k = 8 \/ k = 9) by lia.
  repeat (destruct C as [->|C]; [reflexivity|]). subst. reflexivity.
Qed.

Lemma strftime_yb_upper (t : Datetime.datetime) :
  0 <= Datetime.year t -> 1 <= Datetime.month t <= 12 ->
  Py.upper (Datetime.strftime_yb t) = yy_mmm t.
Proof.
  intros Hy Hm. unfold Datetime.strftime_yb, yy_mmm. rewrite upper_app. f_equal.
  - unfold Datetime.two_digits. cbn [Py.upper].
    pose proof (Z.mod_pos_bound (Datetime.year t) 100 ltac:(lia)) as B.
    rewrite !digit_char_upper; [reflexivity| |].
    + pose proof (Z.mod_pos_bound (Datetime.year t mod 100) 10 ltac:(lia)). lia.
    + split; [apply Z.div_pos; lia|]. apply Z.lt_succ_r. apply Z.div_lt_upper_bound; lia.
  - remember (Datetime.month t) as m eqn:Em. clear Em.
    assert (C : m = 1 \/ m = 2 \/ m = 3 \/ m = 4 \/ m = 5 \/ m = 6 \/ m = 7 \/ m = 8
                \/ m = 9 \/ m = 10 \/ m = 11 \/ m = 12) by lia.
    repeat (destruct C as [->|C]; [reflexivity|]). subst. reflexivity.
Qed.

(** C8, as stated, fails: an empty expiry text parses under none of the four
    formats, yet the symbol comes back upper-cased but not cleaned. *)
Lemma empty_expiry_returns_symbol_uncleaned :
  ~ (forall stock_symbol expiry_str,
        unparseable expiry_str ->
        format_futures_order_symbol stock_symbol expiry_str = cleaned stock_symbol).
Proof.
  intros claim. specialize (claim "M&M" "").
  assert (E : format_futures_order_symbol "M&M" "" = "M&M") by reflexivity.
  rewrite E in claim. discriminate claim.
  intros fmt Hin. simpl in Hin.
  repeat (destruct Hin as [<-|Hin]; [reflexivity|]). destruct Hin.
Qed.

(** C8, amended.  For a non-empty symbol and a non-empty expiry text the
    formatter returns the cleaned symbol (letters and digits only, upper
    case) followed by the two-digit year and the three-letter month of the
    expiry, parsed under the first of the four formats that accepts the
    stripped text; when none accepts it, the cleaned symbol alone.  An empty
    symbol gives the empty text and an empty expiry gives the symbol
    upper-cased as it is. *)
Theorem futures_order_symbol_format (stock_symbol expiry_str : string) :
  (stock_symbol = "" -> format_futures_order_symbol stock_symbol expiry_str = "") /\
  (stock_symbol <> "" -> expiry_str = "" ->
   format_futures_order_symbol stock_symbol expiry_str = Py.upper stock_symbol) /\
  (stock_symbol <> "" -> expiry_str <> "" ->
   (forall expiry_date,
       parse_expiry (Py.strip expiry_str) expiry_formats = Some expiry_date ->
       format_futures_order_symbol stock_symbol expiry_str
       = (cleaned stock_symbol ++ yy_mmm expiry_date)%string) /\
   (unparseable expiry_str ->
    format_futures_order_symbol stock_symbol expiry_str = cleaned stock_symbol)) /\
  (Py.keep Py.isalnum (cleaned stock_symbol) = cleaned stock_symbol /\
   Py.upper (cleaned stock_symbol) = cleaned stock_symbol).
Proof.
  split; [intros ->; reflexivity|].
  split; [intros Hs ->; destruct stock_symbol; [congruence|reflexivity]|].
  split; [|apply cleaned_is_upper_alnum].
  intros Hs He. unfold format_futures_order_symbol.
  destruct stock_symbol as [|c s]; [congruence|].
  destruct expiry_str as [|c' e]; [congruence|].
  cbn [Py.nonempty negb orb]. cbv zeta. fold (cleaned (String c s)). split.
  - intros expiry_date Hp. rewrite Hp.
    destruct (parse_expiry_some _ _ _ Hp) as (fmt & _ & Hfmt).
    apply strptime_valid in Hfmt. rewrite strftime_yb_upper; [reflexivity|lia|lia].
  - intros Hu. apply parse_expiry_none in Hu. now rewrite Hu.
Qed.

(** A futures symbol with a character to clean and an expiry in the third
    format; the same symbol with a text that is no date. *)
Lemma futures_order_symbol_format_witness :
  format_futures_order_symbol "m&m" " 2025-11-27T15:30:00 " = "MM25NOV" /\
  format_futures_order_symbol "m&m" "next thursday" = "MM".
Proof.
  destruct (futures_order_symbol_format "m&m" " 2025-11-27T15:30:00 ") as (_ & _ & P & _).
  destruct (futures_order_symbol_format "m&m" "next thursday") as (_ & _ & U & _).
  split.
  - apply (proj1 (P ltac:(discriminate) ltac:(discriminate))
                 (Datetime.mkdatetime 2025 11 27 15 30 0 0)).
    reflexivity.
  - apply (proj2 (U ltac:(discriminate) ltac:(discriminate))).
    intros fmt Hin. simpl in Hin.
    repeat (destruct Hin as [<-|Hin]; [reflexivity|]). destruct Hin.
Defined.

(** ** The status reconciler *)

(** The last element of a stable ascending sort is a greatest element of the
    input, when the comparison is a strict weak order. *)
Section LastOfSorted.

Context {A K : Type} (lt : K -> K -> bool) (key : A -> K).
Hypothesis lt_irrefl : forall a, lt a a = false.
Hypothesis lt_trans : forall a b c, lt a b = true -> lt b c = true -> lt a c = true.
Hypothesis lt_negtrans : forall a b c, lt a b = false -> lt b c = false -> lt a c = false.

Local Abbreviation not_above := (fun a b : A => lt (key b) (key a) = false).

Lemma lt_asym (a b : K) : lt a b = true -> lt b a = false.
Proof.
  intros H. destruct (lt b a) eqn:E; [|reflexivity].
  pose proof (lt_trans _ _ _ H E) as C. rewrite lt_irrefl in C. discriminate.
Qed.

Lemma insert_asc_sorted (x : A) (l : list A) :
  StronglySorted not_above l -> StronglySorted not_above (Py.insert_asc lt key x l).
Proof.
  induction 1 as [|y r Hr IH Hy]; simpl.
  - constructor; constructor.
  - destruct (lt (key y) (key x)) eqn:E.
    + constructor; [exact IH|].
      apply Forall_forall. intros z Hz.
      apply (Permutation_in _ (Permutation_sym (insert_asc_perm lt key x r))) in Hz.
      destruct Hz as [<-|Hz].
      * now apply lt_asym.
      * rewrite Forall_forall in Hy. now apply Hy.
    + constructor; [now constructor|].
      constructor; [exact E|].
      rewrite Forall_forall in *. intros z Hz.
      apply lt_negtrans with (key y); [now apply Hy|exact E].
Qed.

Lemma sorted_by_sorted (l : list A) : StronglySorted not_above (Py.sorted_by lt key l).
Proof.
  induction l as [|x r IH]; simpl; [constructor|now apply insert_asc_sorted].
Qed.

Lemma sorted_snoc (s : list A) (m : A) :
  StronglySorted not_above (s ++ [m]) -> forall e, In e (s ++ [m]) -> not_above e m.
Proof.
  induction s as [|y r IH]; simpl; intros H e He.
  - destruct He as [<-|[]]. apply lt_irrefl.
  - inversion H as [|? ? Hr Hy]; subst. destruct He as [<-|He].
    + rewrite Forall_forall in Hy. apply Hy. apply in_or_app. right. now left.
    + now apply IH.
Qed.

Lemma last_of_sorted_is_greatest (l : list A) :
  l <> [] ->
  exists m, V3WorkingTest.last_item (Py.sorted_by lt key l) = Some m /\
            In m l /\
            forall e, In e l -> lt (key m) (key e) = false.
Proof.
  intros Hne. unfold V3WorkingTest.last_item.
  pose proof (sorted_by_perm lt key l) as P.
  pose proof (sorted_by_sorted l) as S.
  destruct (rev (Py.sorted_by lt key l)) as [|m t] eqn:R.
  - apply (f_equal (@rev A)) in R. rewrite rev_involutive in R. simpl in R.
    rewrite R in P. apply Permutation_sym, Permutation_nil in P. contradiction.
  - apply (f_equal (@rev A)) in R. rewrite rev_involutive in R. simpl in R.
    rewrite R in P, S. exists m. split; [reflexivity|]. split.
    + apply (Permutation_in _ (Permutation_sym P)). apply in_or_app. right. now left.
    + intros e He. apply (sorted_snoc _ _ S). now apply (Permutation_in _ P).
Qed.

End LastOfSorted.

Ltac lex_cases :=
  repeat match goal with
         | |- context [?x <? ?y] => destruct (Z.ltb_spec x y)
         | H : context [?x <? ?y] |- _ => destruct (Z.ltb_spec x y)
         end.

Lemma lex_ltb_irrefl (a : list Z) : Datetime.lex_ltb a a = false.
Proof. induction a as [|x a IH]; simpl; [reflexivity|]. lex_cases; [lia|exact IH]. Qed.

Lemma lex_ltb_trans (a b c : list Z) :
  Datetime.lex_ltb a b = true -> Datetime.lex_ltb b c = true -> Datetime.lex_ltb a c = true.
Proof.
  revert b c. induction a as [|x a IH]; intros [|y b] [|z c]; simpl; try congruence.
  lex_cases; try congruence; try lia. apply IH.
Qed.

Lemma lex_ltb_negtrans (a b c : list Z) :
  Datetime.lex_ltb a b = false -> Datetime.lex_ltb b c = false -> Datetime.lex_ltb a c = false.
Proof.
  revert b c. induction a as [|x a IH]; intros [|y b] [|z c]; simpl; try congruence.
  lex_cases; try congruence; try lia. apply IH.
Qed.

Lemma get_timestamp_of_text_time (e : V3WorkingTest.Event.t) :
  V3WorkingTest.get_timestamp e
  = Calculations.get_default Datetime.datetime_min (text_time e).
Proof.
  unfold text_time, V3WorkingTest.get_timestamp.
  destruct (V3WorkingTest.Event.exchange_timestamp e) as [[text|d]|]; simpl;
    try reflexivity.
  destruct (Py.nonempty text); [|reflexivity].
  destruct (Datetime.strptime text _); reflexivity.
Qed.

(** C4.  The reconciler is meant to report the event with the greatest time
    stamp, and does so for time stamps that are texts: of the events listed
    as 14:30:27, 14:30:25, 14:30:26 it reports the first.  On the same
    history as the client library hands it on, with the time stamps as
    [datetime] objects, [strptime] raises on each of them, every event gets
    the key [datetime.min], and the event listed last is reported: OPEN with
    6 pending, although COMPLETE is the latest. *)
Theorem datetime_stamps_are_not_compared :
  V3WorkingTest.check_order_status (Some history_of_texts)
  = Some "COMPLETE (10 filled)" /\
  map V3WorkingTest.get_timestamp history_of_instants
  = [Datetime.datetime_min; Datetime.datetime_min; Datetime.datetime_min] /\
  V3WorkingTest.latest_status history_of_instants = Some partly_filled /\
  V3WorkingTest.check_order_status (Some history_of_instants)
  = Some "OPEN PENDING (6 pending)".
Proof. repeat split; vm_compute; reflexivity. Qed.

(** ** The order orchestrator *)

Import OrderManager.

Lemma place_order_run {G} (kite : Kite.gateway G) (symbol : option string)
      (exchange transaction_type : string) (quantity : Z) (price : option Q)
      (product order_type : string) (w : Kite.world G) :
  let request :=
    order_request_of symbol exchange transaction_type quantity price product order_type in
  exists result g,
    place_order kite symbol exchange transaction_type quantity price product order_type w
    = (result, Kite.mkworld g (Kite.calls w ++ [Kite.PlaceOrder request])) /\
    (forall order_id g', Kite.answer_place kite (Kite.state w) request = (inl order_id, g') ->
                         g = g' /\ Result.success result = true /\
                         Result.order_id result = Some order_id) /\
    (forall error_msg g', Kite.answer_place kite (Kite.state w) request = (inr error_msg, g') ->
                          g = g' /\ Result.success result = false /\
                          Result.order_id result = None /\
                          Result.message result = error_msg).
Proof.
  intros request. unfold place_order, Kite.bind, Kite.place_order. fold request.
  destruct (Kite.answer_place kite (Kite.state w) request) as [[order_id|error_msg] g].
  - eexists _, g. split; [reflexivity|]. split.
    + intros ? ? E. inversion E; subst. auto.
    + intros ? ? E. discriminate E.
  - eexists _, g. split; [reflexivity|]. split.
    + intros ? ? E. discriminate E.
    + intros ? ? E. inversion E; subst. auto.
Qed.

Lemma execute_order_sequence_cons {G} (kite : Kite.gateway G) (order : Order.t)
      (rest : list Order.t) (w : Kite.world G) :
  execute_order_sequence kite (order :: rest) w
  = let (result, w1) :=
      place_order kite (Some (Order.symbol order)) (Order.exchange order)
                  (transaction_type_of order) (Order.quantity order) (Order.price order)
                  (get_default "MIS" (Order.product order))
                  (get_default "LIMIT" (Order.order_type order)) w in
    let (results, w2) := execute_order_sequence kite rest w1 in
    ({| Report.order := order; Report.result := result |} :: results, w2).
Proof.
  cbn [execute_order_sequence]. unfold Kite.bind, Kite.ret.
  destruct (place_order _ _ _ _ _ _ _ _ w) as [result w1].
  now destruct (execute_order_sequence kite rest w1).
Qed.

Lemma arbitrage_requests (opportunity : Arbitrage.t) (quantity : Z) :
  map (fun order =>
         order_request_of (Some (Order.symbol order)) (Order.exchange order)
                          (transaction_type_of order) (Order.quantity order)
                          (Order.price order) (get_default "MIS" (Order.product order))
                          (get_default "LIMIT" (Order.order_type order)))
      (arbitrage_order_sequence opportunity quantity)
  = [buy_leg opportunity quantity; sell_leg opportunity quantity].
Proof.
  unfold arbitrage_order_sequence, buy_leg, sell_leg.
  destruct (String.eqb (Arbitrage.higher_exchange opportunity) "NSE"); reflexivity.
Qed.

(** C1.  A cross-venue pair goes to the gateway as two placements, the Buy
    leg and then the Sell leg, whatever the gateway answers to the first;
    nothing else is sent, so no cancellation is issued.  When the gateway
    accepts the Buy leg and rejects the Sell leg, the batch result reports
    the first leg accepted with its order id and the second leg not accepted
    with no order id. *)
Theorem mixed_pair_is_reported_not_cancelled
        {G : Type} (kite : Kite.gateway G) (opportunity : Arbitrage.t) (quantity : Z)
        (w : Kite.world G) :
  let run := place_arbitrage_orders kite opportunity quantity w in
  let buy := buy_leg opportunity quantity in
  let sell := sell_leg opportunity quantity in
  Kite.calls (snd run) = Kite.calls w ++ [Kite.PlaceOrder buy; Kite.PlaceOrder sell] /\
  (forall variety order_id,
      In (Kite.CancelOrder variety order_id) (Kite.calls (snd run)) ->
      In (Kite.CancelOrder variety order_id) (Kite.calls w)) /\
  (forall order_id error_msg g1 g2,
      Kite.answer_place kite (Kite.state w) buy = (inl order_id, g1) ->
      Kite.answer_place kite g1 sell = (inr error_msg, g2) ->
      exists first second,
        fst run = [first; second] /\
        Order.action (Report.order first) = Some "BUY" /\
        Result.success (Report.result first) = true /\
        Result.order_id (Report.result first) = Some order_id /\
        Order.action (Report.order second) = Some "SELL" /\
        Result.success (Report.result second) = false /\
        Result.order_id (Report.result second) = None /\
        Result.message (Report.result second) = error_msg).
Proof.
  intros run buy sell.
  pose proof (arbitrage_requests opportunity quantity) as R.
  unfold place_arbitrage_orders in run.
  destruct (arbitrage_order_sequence opportunity quantity) as [|o1 [|o2 [|o3 rest]]] eqn:Seq;
    try discriminate R.
  assert (A1 : Order.action o1 = Some "BUY" /\ Order.action o2 = Some "SELL").
  { unfold arbitrage_order_sequence in Seq.
    destruct (String.eqb (Arbitrage.higher_exchange opportunity) "NSE");
      inversion Seq; subst; auto. }
  cbn [map] in R. fold buy sell in R.
  assert (R1 : order_request_of (Some (Order.symbol o1)) (Order.exchange o1)
                 (transaction_type_of o1) (Order.quantity o1) (Order.price o1)
                 (get_default "MIS" (Order.product o1))
                 (get_default "LIMIT" (Order.order_type o1)) = buy) by congruence.
  assert (R2 : order_request_of (Some (Order.symbol o2)) (Order.exchange o2)
                 (transaction_type_of o2) (Order.quantity o2) (Order.price o2)
                 (get_default "MIS" (Order.product o2))
                 (get_default "LIMIT" (Order.order_type o2)) = sell) by congruence.
  clear R.
  subst run. rewrite execute_order_sequence_cons.
  destruct (place_order_run kite (Some (Order.symbol o1)) (Order.exchange o1)
              (transaction_type_of o1) (Order.quantity o1) (Order.price o1)
              (get_default "MIS" (Order.product o1))
              (get_default "LIMIT" (Order.order_type o1)) w)
    as (r1 & g1 & E1 & Hok1 & _).
  rewrite R1 in E1, Hok1. rewrite E1. rewrite execute_order_sequence_cons.
  destruct (place_order_run kite (Some (Order.symbol o2)) (Order.exchange o2)
              (transaction_type_of o2) (Order.quantity o2) (Order.price o2)
              (get_default "MIS" (Order.product o2))
              (get_default "LIMIT" (Order.order_type o2))
              (Kite.mkworld g1 (Kite.calls w ++ [Kite.PlaceOrder buy])))
    as (r2 & g2 & E2 & _ & Hno2).
  rewrite R2 in E2, Hno2. rewrite E2. cbn [Kite.calls Kite.state] in *.
  cbn [execute_order_sequence Kite.ret fst snd Kite.calls].
  rewrite <- app_assoc. cbn [app].
  split; [reflexivity|]. split.
  - intros variety order_id Hin. apply in_app_or in Hin.
    destruct Hin as [Hin|[Hin|[Hin|[]]]]; [exact Hin|discriminate Hin|discriminate Hin].
  - intros order_id error_msg g1' g2' Hbuy Hsell.
    destruct (Hok1 _ _ Hbuy) as (-> & S1 & I1).
    destruct (Hno2 _ _ Hsell) as (-> & S2 & I2 & M2).
    eexists _, _. split; [reflexivity|]. cbn [Report.order Report.result].
    destruct A1 as [A1 A2]. auto 10.
Qed.

(** The demonstration pair against a gateway that accepts the first order
    and rejects the second for lack of margin. *)
Lemma mixed_pair_is_reported_not_cancelled_witness :
  map (fun report => (Order.action (Report.order report),
                      Result.success (Report.result report),
                      Result.order_id (Report.result report)))
      (fst (place_arbitrage_orders first_only demo_spread 10 fresh))
  = [(Some "BUY", true, Some "240101000000001"); (Some "SELL", false, None)] /\
  Kite.calls (snd (place_arbitrage_orders first_only demo_spread 10 fresh))
  = [Kite.PlaceOrder (buy_leg demo_spread 10); Kite.PlaceOrder (sell_leg demo_spread 10)].
Proof.
  destruct (mixed_pair_is_reported_not_cancelled first_only demo_spread 10 fresh)
    as (Hcalls & _ & Hmixed).
  destruct (Hmixed "240101000000001"
                   "Insufficient funds. Required margin is 1200.50 but available margin is 10.25"
                   1%nat 2%nat eq_refl eq_refl)
    as (first & second & Hrun & A1 & S1 & I1 & A2 & S2 & I2 & _).
  split; [|exact Hcalls].
  rewrite Hrun. cbn [map]. now rewrite A1, S1, I1, A2, S2, I2.
Defined.

Lemma at_least_one_max (z : Z) : at_least_one z = Z.max 1 z.
Proof. unfold at_least_one. destruct (Z.ltb_spec z 1); lia. Qed.

Lemma lots_int_of_int (lots : Py.pyval) :
  lots_int_of lots = match Py.int lots with Some n => Z.max 1 n | None => 1 end.
Proof.
  unfold lots_int_of, int_or_one, Py.por. rewrite at_least_one_max.
  destruct lots as [|z|q|s]; cbn [Py.truthy].
  - reflexivity.
  - destruct (Z.eqb_spec z 0) as [->|N]; reflexivity.
  - destruct (Z.eqb_spec (Qnum q) 0) as [E|N]; cbn [negb Py.int]; [|reflexivity].
    rewrite E. reflexivity.
  - destruct s; cbn [Py.nonempty Py.int]; [reflexivity|].
    now destruct (Py.int_of_string _).
Qed.

(** What one run of the cash-futures orchestrator does, whatever the
    gateway answers. *)
Lemma place_cash_futures_orders_run
      {G : Type} (kite : Kite.gateway G) (LOT_SIZE_MAP : Py.dict Z)
      (opportunity : Opportunity.t) (lots : Py.pyval)
      (cash_product futures_product : string) (w : Kite.world G) :
  let lot_size := lot_size_of LOT_SIZE_MAP opportunity in
  let lots_int := lots_int_of lots in
  let quantity := lot_size * lots_int in
  let futures_symbol :=
    string_or (Opportunity.futures_symbol_api opportunity)
              (Opportunity.futures_symbol opportunity) in
  let buy := Kite.mkrequest "regular" "NSE" (Some (Opportunity.symbol opportunity)) "BUY"
                            quantity (normalise product_map cash_product) "MARKET" None in
  let sell := Kite.mkrequest "regular" "NFO" futures_symbol "SELL"
                             quantity (normalise product_map futures_product) "MARKET" None in
  exists r1 r2 g,
    place_cash_futures_orders kite LOT_SIZE_MAP opportunity lots cash_product futures_product w
    = ([ Leg.mk "BUY" "CASH" (Some (Opportunity.symbol opportunity)) "NSE"
                quantity lots_int lot_size None r1;
         Leg.mk "SELL" "FUTURES" futures_symbol "NFO" quantity lots_int lot_size None r2 ],
       Kite.mkworld g (Kite.calls w ++ [Kite.PlaceOrder buy; Kite.PlaceOrder sell])).
Proof.
  intros lot_size lots_int quantity futures_symbol buy sell.
  unfold place_cash_futures_orders, fire_order. cbv zeta.
  fold lot_size lots_int quantity futures_symbol.
  unfold Kite.bind at 1. unfold Kite.bind at 1.
  destruct (place_order_run kite (Some (Opportunity.symbol opportunity)) "NSE" "BUY"
              quantity None cash_product "MARKET" w) as (r1 & g1 & E1 & _).
  rewrite E1. unfold Kite.ret at 1. unfold Kite.bind at 1. unfold Kite.bind at 1.
  destruct (place_order_run kite futures_symbol "NFO" "SELL" quantity None
              futures_product "MARKET"
              (Kite.mkworld g1
                 (Kite.calls w ++
                  [Kite.PlaceOrder
                     (order_request_of (Some (Opportunity.symbol opportunity)) "NSE" "BUY"
                                       quantity None cash_product "MARKET")])))
    as (r2 & g2 & E2 & _).
  rewrite E2. unfold Kite.ret. cbn [Kite.calls app].
  exists r1, r2, g2. rewrite <- app_assoc. reflexivity.
Qed.

(** C5, as stated, fails: lots given as the number 2.5 are not an integer,
    and they become 2, not 1. *)
Lemma fractional_lots_are_truncated :
  ~ (forall lots,
        (forall n, lots = Py.PyInt n -> n < 1) ->
        map Leg.lots
            (fst (place_cash_futures_orders first_only demo_lot_sizes demo_premium lots
                                            default_cash_product default_futures_product fresh))
        = [1; 1]).
Proof.
  intros claim. specialize (claim (Py.PyFloat 2.5)).
  assert (E : map Leg.lots
                  (fst (place_cash_futures_orders first_only demo_lot_sizes demo_premium
                          (Py.PyFloat 2.5) default_cash_product default_futures_product fresh))
              = [2; 2]) by reflexivity.
  rewrite E in claim. discriminate claim. intros n H. discriminate H.
Qed.

(** C5, amended.  The cash-futures orchestrator sends exactly two
    placements, in this order: Buy the cash symbol at the primary cash venue
    with the cash product, then Sell the futures symbol at the derivatives
    venue with the futures product, both market orders without a price; by
    default the products are delivery (CNC) and carry-forward (NRML).  Each
    leg's quantity is lot size times lots, where the lots are converted with
    [int] and clamped to at least 1: missing, zero or negative lots and lots
    that do not convert become 1, and a fractional number is truncated
    toward zero first. *)
Theorem cash_futures_pair_legs
        {G : Type} (kite : Kite.gateway G) (LOT_SIZE_MAP : Py.dict Z)
        (opportunity : Opportunity.t) (lots : Py.pyval)
        (cash_product futures_product : string) (w : Kite.world G) :
  let lot_size := lot_size_of LOT_SIZE_MAP opportunity in
  let lots_int := lots_int_of lots in
  let quantity := lot_size * lots_int in
  let futures_symbol :=
    string_or (Opportunity.futures_symbol_api opportunity)
              (Opportunity.futures_symbol opportunity) in
  let buy := Kite.mkrequest "regular" "NSE" (Some (Opportunity.symbol opportunity)) "BUY"
                            quantity (normalise product_map cash_product) "MARKET" None in
  let sell := Kite.mkrequest "regular" "NFO" futures_symbol "SELL"
                             quantity (normalise product_map futures_product) "MARKET" None in
  let run := place_cash_futures_orders kite LOT_SIZE_MAP opportunity lots
                                       cash_product futures_product w in
  Kite.calls (snd run) = Kite.calls w ++ [Kite.PlaceOrder buy; Kite.PlaceOrder sell] /\
  map (fun leg => (Leg.action leg, Leg.market leg, Leg.exchange leg, Leg.symbol leg,
                   Leg.quantity leg, Leg.price leg))
      (fst run)
  = [("BUY", "CASH", "NSE", Some (Opportunity.symbol opportunity), quantity, None);
     ("SELL", "FUTURES", "NFO", futures_symbol, quantity, None)] /\
  normalise product_map default_cash_product = Kite.PRODUCT_CNC /\
  normalise product_map default_futures_product = Kite.PRODUCT_NRML /\
  lots_int = match Py.int lots with Some n => Z.max 1 n | None => 1 end /\
  1 <= lots_int.
Proof.
  intros lot_size lots_int quantity futures_symbol buy sell run.
  assert (L : lots_int = match Py.int lots with Some n => Z.max 1 n | None => 1 end)
    by apply lots_int_of_int.
  destruct (place_cash_futures_orders_run kite LOT_SIZE_MAP opportunity lots
              cash_product futures_product w) as (r1 & r2 & g & E).
  subst run. rewrite E. cbn [fst snd Kite.calls map
    Leg.action Leg.market Leg.exchange Leg.symbol Leg.quantity Leg.price].
  repeat (split; [reflexivity|]). split; [exact L|].
  rewrite L. destruct (Py.int lots); lia.
Qed.

(** The demonstration opportunity with lots given in several ways: as
    nothing, zero, a negative number, a text that is no number, the number
    2.5, and the text 3. *)
Lemma cash_futures_pair_legs_witness :
  map lots_int_of
      [Py.PyNone; Py.PyInt 0; Py.PyInt (-3); Py.PyStr "two"; Py.PyFloat 2.5; Py.PyStr "3";
       Py.PyInt 4]
  = [1; 1; 1; 1; 2; 3; 4] /\
  Kite.calls (snd (place_cash_futures_orders first_only demo_lot_sizes demo_premium (Py.PyInt 4)
                                             default_cash_product default_futures_product fresh))
  = [ Kite.PlaceOrder (Kite.mkrequest "regular" "NSE" (Some "acme") "BUY" 100 "CNC" "MARKET" None);
      Kite.PlaceOrder (Kite.mkrequest "regular" "NFO" (Some "ACME25NOVFUT") "SELL" 100 "NRML"
                                      "MARKET" None) ].
Proof.
  split.
  - cbn [map].
    rewrite (proj1 (proj2 (proj2 (proj2 (proj2
               (cash_futures_pair_legs first_only demo_lot_sizes demo_premium Py.PyNone
                                       default_cash_product default_futures_product fresh)))))).
    reflexivity.
  - rewrite (proj1 (cash_futures_pair_legs first_only demo_lot_sizes demo_premium (Py.PyInt 4)
                                           default_cash_product default_futures_product fresh)).
    reflexivity.
Defined.

(** ** Lot sizes *)

Lemma futures_of_row_lot_size (LOT_SIZE_MAP : Py.dict Z) (now : Datetime.datetime)
      (stock : string) (row : FutRow.t) (f : Futures.t) :
  futures_of_row LOT_SIZE_MAP now stock row = Some f ->
  Futures.lot_size f
  = Z.max 1 (match Py.get (Py.upper stock) LOT_SIZE_MAP with
             | Some v => v
             | None => int_or_one (get_default (Py.PyInt 1) (FutRow.lot_size row))
             end).
Proof.
  unfold futures_of_row. cbv zeta.
  destruct (if Py.contains "T" (FutRow.expiry row) then _ else _) as [expiry_date|];
    [|discriminate].
  destruct (0 <? _); [|discriminate].
  intros H. some_eq H. cbn [Futures.lot_size]. unfold int_or_one.
  match goal with |- (if ?v <? 1 then 1 else ?v) = _ => destruct (Z.ltb_spec v 1) end; lia.
Qed.

Lemma first_valid_future_row (LOT_SIZE_MAP : Py.dict Z) (now : Datetime.datetime)
      (stock : string) (rows : list FutRow.t) (f : Futures.t) :
  first_valid_future LOT_SIZE_MAP now stock rows = Some f ->
  exists row, In row rows /\ futures_of_row LOT_SIZE_MAP now stock row = Some f.
Proof.
  induction rows as [|row rest IH]; simpl; [discriminate|].
  destruct (futures_of_row LOT_SIZE_MAP now stock row) as [f'|] eqn:E.
  - intros H. some_eq H. exists row. auto.
  - intros H. destruct (IH H) as (row' & Hin & Hrow). exists row'. auto.
Qed.

Lemma set_forall {V} (P : string * V -> Prop) (k : string) (v : V) (d : Py.dict V) :
  P (k, v) -> Forall P d -> Forall P (Py.set k v d).
Proof.
  intros Hk. induction 1 as [|[k' v'] r Hx Hr IH]; simpl.
  - constructor; [exact Hk|constructor].
  - destruct (String.eqb k k'); constructor; auto.
Qed.

Lemma lot_size_of_max (LOT_SIZE_MAP : Py.dict Z) (opportunity : Opportunity.t) :
  lot_size_of LOT_SIZE_MAP opportunity
  = Z.max 1 (int_or_one
               (Py.por (Opportunity.lot_size opportunity)
                       (Py.por (table_value (Py.get (Py.upper (Opportunity.symbol opportunity))
                                                    LOT_SIZE_MAP))
                               (Py.PyInt 1)))).
Proof. unfold lot_size_of. apply at_least_one_max. Qed.

(** C9.  The lot size is at least 1 in every futures contract the resolver
    returns and on every leg the cash-futures orchestrator submits.  In the
    resolver the override table comes first and the venue's value second; in
    the orchestrator the opportunity record comes first and the override
    table second; whatever value results, a missing one counts as 1 and one
    below 1 is raised to 1 before the quantity is computed from it. *)
Theorem lot_size_is_at_least_one :
  (forall LOT_SIZE_MAP sort_values_expiry instruments now stock_symbols,
      Forall (fun entry => 1 <= Futures.lot_size (snd entry))
             (get_futures_contracts LOT_SIZE_MAP sort_values_expiry instruments now
                                    stock_symbols)) /\
  (forall LOT_SIZE_MAP now stock row,
      match futures_of_row LOT_SIZE_MAP now stock row with
      | Some f =>
          Futures.lot_size f
          = Z.max 1 (match Py.get (Py.upper stock) LOT_SIZE_MAP with
                     | Some v => v
                     | None => int_or_one (get_default (Py.PyInt 1) (FutRow.lot_size row))
                     end)
      | None => True
      end) /\
  (forall (G : Type) (kite : Kite.gateway G) LOT_SIZE_MAP opportunity lots
          cash_product futures_product (w : Kite.world G),
      let run := place_cash_futures_orders kite LOT_SIZE_MAP opportunity lots
                                           cash_product futures_product w in
      Forall (fun leg => 1 <= Leg.lot_size leg /\
                         Leg.lot_size leg = lot_size_of LOT_SIZE_MAP opportunity /\
                         Leg.quantity leg = Leg.lot_size leg * Leg.lots leg /\
                         1 <= Leg.quantity leg)
             (fst run) /\
      exists buy sell,
        Kite.calls (snd run) = Kite.calls w ++ [Kite.PlaceOrder buy; Kite.PlaceOrder sell] /\
        Kite.quantity buy = lot_size_of LOT_SIZE_MAP opportunity * lots_int_of lots /\
        Kite.quantity sell = lot_size_of LOT_SIZE_MAP opportunity * lots_int_of lots) /\
  (forall LOT_SIZE_MAP opportunity,
      lot_size_of LOT_SIZE_MAP opportunity
      = Z.max 1 (int_or_one
                   (Py.por (Opportunity.lot_size opportunity)
                           (Py.por (table_value
                                      (Py.get (Py.upper (Opportunity.symbol opportunity))
                                              LOT_SIZE_MAP))
                                   (Py.PyInt 1))))).
Proof.
  split; [|split; [|split]].
  - intros LOT srt instruments now stock_symbols. unfold get_futures_contracts.
    destruct instruments as [[|row0 rows0]|]; try constructor.
    set (rows := row0 :: rows0). clearbody rows.
    assert (Inv : forall l acc,
               Forall (fun entry : string * Futures.t => 1 <= Futures.lot_size (snd entry)) acc ->
               Forall (fun entry : string * Futures.t => 1 <= Futures.lot_size (snd entry))
                      (fold_left
                         (fun futures_data stock =>
                            match filter (is_future_of stock) rows with
                            | [] => futures_data
                            | (_ :: _) as stock_futures =>
                                match first_valid_future LOT now stock (srt stock_futures) with
                                | Some f => Py.set stock f futures_data
                                | None => futures_data
                                end
                            end) l acc)).
    { induction l as [|stock l IH]; intros acc Hacc; [exact Hacc|].
      cbn [fold_left]. apply IH.
      destruct (filter (is_future_of stock) rows) as [|r rs]; [exact Hacc|].
      destruct (first_valid_future LOT now stock (srt (r :: rs))) as [f|] eqn:F; [|exact Hacc].
      apply set_forall; [|exact Hacc].
      apply first_valid_future_row in F. destruct F as (row & _ & Hrow).
      apply futures_of_row_lot_size in Hrow. cbn [snd]. lia. }
    apply Inv. constructor.
  - intros LOT now stock row.
    destruct (futures_of_row LOT now stock row) as [f|] eqn:F; [|exact I].
    exact (futures_of_row_lot_size _ _ _ _ _ F).
  - intros G kite LOT opportunity lots cash_product futures_product w run.
    destruct (place_cash_futures_orders_run kite LOT opportunity lots
                cash_product futures_product w) as (r1 & r2 & g & E).
    pose proof (lot_size_of_max LOT opportunity) as Hmax.
    pose proof (lots_int_of_int lots) as Hlots.
    assert (1 <= lots_int_of lots) by (rewrite Hlots; destruct (Py.int lots); lia).
    subst run. rewrite E. cbn [fst snd Kite.calls]. split.
    + repeat constructor; cbn [Leg.lot_size Leg.quantity Leg.lots]; nia.
    + eexists _, _. split; [reflexivity|]. split; reflexivity.
  - exact lot_size_of_max.
Qed.

(** The resolver on the demonstration dump, where the override table holds
    a negative lot size for one stock and the venue reports zero for the
    other, and the orchestrator on an opportunity whose own lot size is
    zero. *)
Lemma lot_size_is_at_least_one_witness :
  map (fun entry => (fst entry, Futures.lot_size (snd entry)))
      (get_futures_contracts demo_lot_sizes by_expiry_text (Some demo_instruments) demo_now
                             ["ZED"; "QUX"])
  = [("ZED", 1); ("QUX", 1)] /\
  Forall (fun entry => 1 <= Futures.lot_size (snd entry))
         (get_futures_contracts demo_lot_sizes by_expiry_text (Some demo_instruments) demo_now
                                ["ZED"; "QUX"]) /\
  lot_size_of demo_lot_sizes demo_premium = 25.
Proof.
  split; [reflexivity|]. split.
  - apply (proj1 lot_size_is_at_least_one).
  - rewrite (proj2 (proj2 (proj2 lot_size_is_at_least_one))). reflexivity.
Defined.

(* ================================================================== *)
(** * Further properties of the modelled code *)
(* ================================================================== *)

Import Terms.

(** ** The cross-venue evaluator: order, keys and provenance of the rows *)

Lemma insert_desc_flip {A K : Type} (lt : K -> K -> bool) (key : A -> K) (x : A) (l : list A) :
  Py.insert_desc lt key x l = Py.insert_asc (fun a b => lt b a) key x l.
Proof. induction l as [|y r IH]; simpl; [reflexivity|]. now rewrite IH. Qed.

Lemma sorted_by_reverse_flip {A K : Type} (lt : K -> K -> bool) (key : A -> K) (l : list A) :
  Py.sorted_by_reverse lt key l = Py.sorted_by (fun a b => lt b a) key l.
Proof.
  induction l as [|x r IH]; simpl; [reflexivity|]. rewrite IH. apply insert_desc_flip.
Qed.

Lemma strongly_sorted_impl {A : Type} (R S : A -> A -> Prop) (l : list A) :
  (forall a b, R a b -> S a b) -> StronglySorted R l -> StronglySorted S l.
Proof.
  intros RS. induction 1 as [|x r Hr IH Hx]; constructor; [exact IH|].
  eapply Forall_impl; [|exact Hx]. intros b. apply RS.
Qed.

(** A descending sort on numbers leaves no element below a later one. *)
Lemma sorted_by_reverse_descending {A : Type} (key : A -> Q) (l : list A) :
  StronglySorted (fun a b => (key b <= key a)%Q) (Py.sorted_by_reverse Py.Qltb key l).
Proof.
  rewrite sorted_by_reverse_flip.
  apply strongly_sorted_impl
    with (R := fun a b : A => (fun x y => Py.Qltb y x) (key b) (key a) = false).
  - intros a b H. now apply Qltb_false in H.
  - apply (sorted_by_sorted (fun x y : Q => Py.Qltb y x) key).
    + intros a. apply Qltb_false. apply Qle_refl.
    + intros a b c H1 H2. apply Qltb_true in H1, H2. apply Qltb_true.
      now apply Qlt_trans with b.
    + intros a b c H1 H2. apply Qltb_false in H1, H2. apply Qltb_false.
      now apply Qle_trans with b.
Qed.

(** X1.  The rows the cross-venue evaluator returns are ordered by their
    arbitrage score, best first: no row has a score below that of a row that
    comes after it, whatever the quotes and the threshold. *)
Theorem arbitrage_rows_best_score_first (live_prices_data : list Stock.t)
        (min_profit_threshold : Q) :
  StronglySorted
    (fun earlier later =>
       (Arbitrage.arbitrage_score later <= Arbitrage.arbitrage_score earlier)%Q)
    (calculate_arbitrage_opportunities live_prices_data min_profit_threshold).
Proof.
  unfold calculate_arbitrage_opportunities.
  destruct live_prices_data as [|stock rest]; [constructor|].
  apply sorted_by_reverse_descending.
Qed.

Lemma arbitrage_rows_symbols (thr : Q) (groups : Py.dict (Py.dict Stock.t)) :
  NoDup (map fst groups) -> NoDup (map Arbitrage.symbol (arbitrage_rows thr groups)).
Proof.
  induction groups as [|[s ex] rest IH]; simpl; intros ND; [constructor|].
  inversion ND as [|? ? Hs Hrest]; subst.
  destruct (arbitrage_row thr s ex) as [row|] eqn:E; [|now apply IH].
  simpl. constructor; [|now apply IH].
  intros Hin. apply in_map_iff in Hin as (r & Hsym & Hr).
  apply in_arbitrage_rows in Hr as (s' & ex' & Hin' & Hrow).
  apply arbitrage_row_some in Hrow as (Hsym' & _).
  apply arbitrage_row_some in E as (Hsym0 & _).
  apply Hs. apply in_map_iff. exists (s', ex'). split; [simpl; congruence|exact Hin'].
Qed.

(** X2.  No symbol appears in two rows of the evaluator's answer, however
    many times the feed quotes it. *)
Theorem arbitrage_rows_one_per_symbol (live_prices_data : list Stock.t)
        (min_profit_threshold : Q) :
  NoDup (map Arbitrage.symbol
             (calculate_arbitrage_opportunities live_prices_data min_profit_threshold)).
Proof.
  unfold calculate_arbitrage_opportunities.
  destruct live_prices_data as [|stock rest]; [constructor|].
  eapply Permutation_NoDup.
  - apply Permutation_map. apply sorted_by_reverse_perm.
  - apply arbitrage_rows_symbols. apply stock_groups_nodup.
Qed.

Lemma arbitrage_row_fields (thr : Q) (symbol : string) (exchanges : Py.dict Stock.t)
      (row : Arbitrage.t) :
  arbitrage_row thr symbol exchanges = Some row ->
  exists nse_data bse_data,
    Py.get "NSE" exchanges = Some nse_data /\
    Py.get "BSE" exchanges = Some bse_data /\
    Arbitrage.nse_price row = Stock.last_price nse_data /\
    Arbitrage.bse_price row = Stock.last_price bse_data /\
    (0 < Arbitrage.nse_price row)%Q /\
    (0 < Arbitrage.bse_price row)%Q /\
    Arbitrage.price_difference row
    = Qabs (Arbitrage.nse_price row - Arbitrage.bse_price row) /\
    Arbitrage.price_difference_pct row
    = ((Arbitrage.price_difference row / Arbitrage.lower_price row) * 100)%Q /\
    Arbitrage.profit_per_share row = Arbitrage.price_difference row /\
    ((Arbitrage.higher_exchange row = "NSE" /\ Arbitrage.lower_exchange row = "BSE" /\
      Arbitrage.higher_price row = Arbitrage.nse_price row /\
      Arbitrage.lower_price row = Arbitrage.bse_price row /\
      (Arbitrage.bse_price row < Arbitrage.nse_price row)%Q) \/
     (Arbitrage.higher_exchange row = "BSE" /\ Arbitrage.lower_exchange row = "NSE" /\
      Arbitrage.higher_price row = Arbitrage.bse_price row /\
      Arbitrage.lower_price row = Arbitrage.nse_price row /\
      (Arbitrage.nse_price row <= Arbitrage.bse_price row)%Q)).
Proof.
  unfold arbitrage_row.
  destruct (Py.get "NSE" exchanges) as [nse_data|]; [|discriminate].
  destruct (Py.get "BSE" exchanges) as [bse_data|]; [|discriminate].
  cbv zeta.
  destruct (Py.Qltb 0 (Stock.last_price nse_data)) eqn:Pn; [|discriminate].
  destruct (Py.Qltb 0 (Stock.last_price bse_data)) eqn:Pb; [|discriminate].
  cbn [andb].
  destruct (Py.Qltb _ thr); [discriminate|].
  intros H. some_eq H. exists nse_data, bse_data.
  apply Qltb_true in Pn, Pb.
  cbn [Arbitrage.nse_price Arbitrage.bse_price Arbitrage.price_difference
       Arbitrage.price_difference_pct Arbitrage.profit_per_share
       Arbitrage.higher_exchange Arbitrage.lower_exchange
       Arbitrage.higher_price Arbitrage.lower_price].
  repeat (split; [first [reflexivity | assumption]|]).
  destruct (Py.Qltb (Stock.last_price bse_data) (Stock.last_price nse_data)) eqn:Hi.
  - left. apply Qltb_true in Hi. auto.
  - right. apply Qltb_false in Hi. auto.
Qed.

(** X3.  Every row the evaluator returns is consistent with itself: both
    prices are positive, the two venues are NSE and BSE with the higher
    price at the venue called higher, the difference is the higher price
    minus the lower one (never negative) and is also the profit per share,
    and the percentage is that difference over the lower price, times 100
    (never negative). *)
Theorem arbitrage_row_is_consistent (live_prices_data : list Stock.t)
        (min_profit_threshold : Q) (row : Arbitrage.t) :
  In row (calculate_arbitrage_opportunities live_prices_data min_profit_threshold) ->
  (0 < Arbitrage.lower_price row)%Q /\
  (Arbitrage.lower_price row <= Arbitrage.higher_price row)%Q /\
  (Arbitrage.price_difference row
   == Arbitrage.higher_price row - Arbitrage.lower_price row)%Q /\
  (0 <= Arbitrage.price_difference row)%Q /\
  Arbitrage.profit_per_share row = Arbitrage.price_difference row /\
  Arbitrage.price_difference_pct row
  = ((Arbitrage.price_difference row / Arbitrage.lower_price row) * 100)%Q /\
  (0 <= Arbitrage.price_difference_pct row)%Q /\
  ((Arbitrage.higher_exchange row = "NSE" /\ Arbitrage.lower_exchange row = "BSE" /\
    Arbitrage.higher_price row = Arbitrage.nse_price row /\
    Arbitrage.lower_price row = Arbitrage.bse_price row) \/
   (Arbitrage.higher_exchange row = "BSE" /\ Arbitrage.lower_exchange row = "NSE" /\
    Arbitrage.higher_price row = Arbitrage.bse_price row /\
    Arbitrage.lower_price row = Arbitrage.nse_price row)).
Proof.
  intros Hin.
  apply in_calculate_arbitrage_opportunities in Hin as (symbol & exchanges & _ & Hrow).
  apply arbitrage_row_fields in Hrow
    as (n & b & _ & _ & _ & _ & Pn & Pb & Hdiff & Hpct & Hprofit & Hside).
  assert (Hlow : (0 < Arbitrage.lower_price row)%Q)
    by (destruct Hside as [(_ & _ & _ & -> & _)|(_ & _ & _ & -> & _)]; assumption).
  assert (Hnonneg : (0 <= Arbitrage.price_difference row)%Q)
    by (rewrite Hdiff; apply Qabs_nonneg).
  split; [exact Hlow|].
  split; [destruct Hside as [(_ & _ & -> & -> & Hlt)|(_ & _ & -> & -> & Hle)];
          [now apply Qlt_le_weak|exact Hle]|].
  split.
  { rewrite Hdiff.
    destruct Hside as [(_ & _ & -> & -> & Hlt)|(_ & _ & -> & -> & Hle)].
    - apply Qabs_pos. apply Qlt_le_weak in Hlt.
      now apply (Qplus_le_l _ _ (Arbitrage.bse_price row)); ring_simplify.
    - rewrite Qabs_neg.
      + ring.
      + now apply (Qplus_le_l _ _ (Arbitrage.bse_price row)); ring_simplify. }
  split; [exact Hnonneg|].
  split; [exact Hprofit|].
  split; [exact Hpct|].
  split.
  { rewrite Hpct. apply Qmult_le_0_compat; [|discriminate].
    apply Qmult_le_0_compat; [exact Hnonneg|].
    apply Qinv_le_0_compat. now apply Qlt_le_weak. }
  destruct Hside as [(? & ? & ? & ? & _)|(? & ? & ? & ? & _)]; [left|right]; auto.
Qed.

(** The evaluator on the demonstration quotes: the row of the pair quoted
    at 100 and 101. *)
Lemma arbitrage_row_is_consistent_witness :
  exists row,
    In row (calculate_arbitrage_opportunities demo_quotes 0.5) /\
    Arbitrage.symbol row = "ACME" /\
    Arbitrage.higher_exchange row = "BSE" /\
    (Arbitrage.price_difference row
     == Arbitrage.higher_price row - Arbitrage.lower_price row)%Q /\
    (0 <= Arbitrage.price_difference_pct row)%Q.
Proof.
  assert (Hin : exists row, In row (calculate_arbitrage_opportunities demo_quotes 0.5) /\
                            Arbitrage.symbol row = "ACME" /\
                            Arbitrage.higher_exchange row = "BSE")
    by (eexists; split; [left; reflexivity|split; reflexivity]).
  destruct Hin as (row & Hin & Hsym & Hhigh).
  exists row.
  destruct (arbitrage_row_is_consistent demo_quotes 0.5 row Hin)
    as (_ & _ & Hdiff & _ & _ & _ & Hpct & _).
  repeat split; assumption.
Defined.

Lemma get_set_same {V : Type} (k : string) (v : V) (d : Py.dict V) :
  Py.get k (Py.set k v d) = Some v.
Proof.
  induction d as [|[k' v'] r IH]; simpl.
  - now rewrite String.eqb_refl.
  - destruct (String.eqb k k') eqn:E; simpl.
    + now rewrite String.eqb_refl.
    + now rewrite E.
Qed.

Lemma get_set_other {V : Type} (k k' : string) (v : V) (d : Py.dict V) :
  k <> k' -> Py.get k' (Py.set k v d) = Py.get k' d.
Proof.
  intros Hne. induction d as [|[k0 v0] r IH]; simpl.
  - destruct (String.eqb_spec k' k); [congruence|reflexivity].
  - destruct (String.eqb_spec k k0); simpl.
    + subst k0. destruct (String.eqb_spec k' k); [congruence|reflexivity].
    + now rewrite IH.
Qed.

Lemma get_in {V : Type} (k : string) (v : V) (d : Py.dict V) :
  Py.get k d = Some v -> In (k, v) d.
Proof.
  induction d as [|[k' v'] r IH]; simpl; [discriminate|].
  destruct (String.eqb_spec k k').
  - intros H. left. congruence.
  - intros H. right. now apply IH.
Qed.

Lemma in_get {V : Type} (k : string) (v : V) (d : Py.dict V) :
  NoDup (map fst d) -> In (k, v) d -> Py.get k d = Some v.
Proof.
  intros ND Hin. destruct (Py.get k d) as [v'|] eqn:E.
  - apply get_in in E. f_equal. now apply (nodup_keys_functional d k).
  - exfalso. clear ND. induction d as [|[k' v'] r IH]; simpl in *; [contradiction|].
    destruct (String.eqb_spec k k'); [discriminate|].
    destruct Hin as [Heq|Hin]; [congruence|now apply IH].
Qed.

Lemma find_app {A : Type} (p : A -> bool) (a b : list A) :
  find p (a ++ b) = match find p a with Some x => Some x | None => find p b end.
Proof.
  induction a as [|x a IH]; simpl; [reflexivity|]. destruct (p x); [reflexivity|exact IH].
Qed.

Lemma group_stock_quote (symbol exchange : string) (groups : Py.dict (Py.dict Stock.t))
      (stock : Stock.t) :
  quote_of symbol exchange (group_stock groups stock)
  = if (String.eqb (Stock.symbol stock) symbol
        && String.eqb (Stock.exchange stock) exchange)%bool
    then Some stock
    else quote_of symbol exchange groups.
Proof.
  unfold quote_of, group_stock. cbv zeta.
  destruct (String.eqb_spec (Stock.symbol stock) symbol) as [<-|Hs]; cbn [andb].
  - rewrite get_set_same.
    destruct (String.eqb_spec (Stock.exchange stock) exchange) as [<-|He].
    + apply get_set_same.
    + rewrite get_set_other by exact He.
      destruct (Py.get (Stock.symbol stock) groups); reflexivity.
  - now rewrite get_set_other by exact Hs.
Qed.

(** Grouping keeps, for every symbol and venue, the quote that comes last. *)
Lemma stock_groups_quote (symbol exchange : string) (data : list Stock.t) :
  quote_of symbol exchange (stock_groups_of data) = last_stock symbol exchange data.
Proof.
  unfold stock_groups_of, last_stock.
  set (p := fun stock => (String.eqb (Stock.symbol stock) symbol
                          && String.eqb (Stock.exchange stock) exchange)%bool).
  assert (Inv : forall l groups,
             quote_of symbol exchange (fold_left group_stock l groups)
             = match find p (rev l) with
               | Some stock => Some stock
               | None => quote_of symbol exchange groups
               end).
  { induction l as [|stock l IH]; intros groups; [reflexivity|].
    cbn [fold_left rev]. rewrite IH, find_app, group_stock_quote.
    destruct (find p (rev l)); [reflexivity|].
    cbn [find]. fold (p stock). destruct (p stock); reflexivity. }
  rewrite Inv. destruct (find p (rev data)); reflexivity.
Qed.

Lemma arbitrage_row_ext (thr : Q) (symbol : string) (a b : Py.dict Stock.t) :
  Py.get "NSE" a = Py.get "NSE" b -> Py.get "BSE" a = Py.get "BSE" b ->
  arbitrage_row thr symbol a = arbitrage_row thr symbol b.
Proof. unfold arbitrage_row. now intros -> ->. Qed.

Lemma last_quotes_give_row (data : list Stock.t) (thr : Q) (symbol : string)
      (n b : Stock.t) (row : Arbitrage.t) :
  last_stock symbol "NSE" data = Some n ->
  last_stock symbol "BSE" data = Some b ->
  arbitrage_row thr symbol (two_venues n b) = Some row ->
  In row (calculate_arbitrage_opportunities data thr).
Proof.
  intros Hn Hb Hrow. apply in_calculate_arbitrage_opportunities.
  rewrite <- stock_groups_quote in Hn, Hb. unfold quote_of in Hn, Hb.
  destruct (Py.get symbol (stock_groups_of data)) as [exchanges|] eqn:G; [|discriminate].
  exists symbol, exchanges. split; [now apply get_in|].
  rewrite <- Hrow. apply arbitrage_row_ext; [now rewrite Hn|now rewrite Hb].
Qed.

(** X4.  The evaluator depends on the feed only through the last quote of
    each symbol at NSE and at BSE: a row is returned exactly when it is the
    row computed from the quote of its symbol that comes last in the feed at
    each of the two venues.  An earlier quote of the same symbol and venue is
    overwritten, and quotes of other venues are ignored. *)
Theorem arbitrage_rows_use_last_quotes (live_prices_data : list Stock.t)
        (min_profit_threshold : Q) (row : Arbitrage.t) :
  In row (calculate_arbitrage_opportunities live_prices_data min_profit_threshold) <->
  exists symbol nse_data bse_data,
    last_stock symbol "NSE" live_prices_data = Some nse_data /\
    last_stock symbol "BSE" live_prices_data = Some bse_data /\
    arbitrage_row min_profit_threshold symbol (two_venues nse_data bse_data) = Some row.
Proof.
  split.
  - rewrite in_calculate_arbitrage_opportunities.
    intros (symbol & exchanges & Hin & Hrow).
    destruct (arbitrage_row_fields _ _ _ _ Hrow) as (n & b & Hn & Hb & _).
    apply in_get in Hin; [|apply stock_groups_nodup].
    exists symbol, n, b.
    rewrite <- !stock_groups_quote. unfold quote_of. rewrite Hin.
    split; [exact Hn|]. split; [exact Hb|].
    rewrite <- Hrow. apply arbitrage_row_ext; [now rewrite Hn|now rewrite Hb].
  - intros (symbol & n & b & Hn & Hb & Hrow). now apply (last_quotes_give_row _ _ symbol n b).
Qed.

(** ** The order orchestrator on arbitrary instruction sequences *)

Lemma execute_order_sequence_run {G : Type} (kite : Kite.gateway G)
      (orders : list Order.t) (w : Kite.world G) :
  exists reports g,
    execute_order_sequence kite orders w
    = (reports,
       Kite.mkworld g (Kite.calls w
                       ++ map (fun order => Kite.PlaceOrder (request_of_order order)) orders)) /\
    map Report.order reports = orders /\
    Forall (fun report =>
              (Result.success (Report.result report) = true <->
               Result.order_id (Report.result report) <> None) /\
              (Result.success (Report.result report) = false <->
               Result.margin_info (Report.result report) <> None))
           reports.
Proof.
  revert w. induction orders as [|order rest IH]; intros w.
  - exists [], (Kite.state w). cbn [map]. rewrite app_nil_r. destruct w.
    repeat split; constructor.
  - rewrite execute_order_sequence_cons.
    unfold place_order at 1, Kite.bind, Kite.place_order, Kite.ret.
    fold (request_of_order order).
    destruct (Kite.answer_place kite (Kite.state w) (request_of_order order))
      as [[order_id|error_msg] g1];
      match goal with
      | |- context [execute_order_sequence kite rest ?w1] =>
          destruct (IH w1) as (reports & g & E & Hmap & Hall); rewrite E
      end;
      eexists _, g; cbn [Kite.calls map]; rewrite <- app_assoc; cbn [app];
      (split; [reflexivity|]); (split; [cbn [map Report.order]; now rewrite Hmap|]);
      (constructor; [|exact Hall]); cbn [Report.result Result.success Result.order_id
                                          Result.margin_info];
      split; split; congruence.
Qed.

(** X5.  Whatever the sequence of instructions and whatever the gateway
    answers, the orchestrator submits every instruction exactly once, in the
    order given, and makes no other call: a rejected instruction does not
    stop the ones after it and nothing is cancelled.  It returns one report
    per instruction, in the same order, each carrying its instruction; a
    report has an order id exactly when it is marked successful, and margin
    information exactly when it is marked failed. *)
Theorem every_instruction_is_submitted_once {G : Type} (kite : Kite.gateway G)
        (order_sequence : list Order.t) (w : Kite.world G) :
  let run := execute_order_sequence kite order_sequence w in
  Kite.calls (snd run)
  = Kite.calls w ++ map (fun order => Kite.PlaceOrder (request_of_order order)) order_sequence /\
  map Report.order (fst run) = order_sequence /\
  Forall (fun report =>
            (Result.success (Report.result report) = true <->
             Result.order_id (Report.result report) <> None) /\
            (Result.success (Report.result report) = false <->
             Result.margin_info (Report.result report) <> None))
         (fst run).
Proof.
  intros run. subst run.
  destruct (execute_order_sequence_run kite order_sequence w) as (reports & g & E & Hmap & Hall).
  rewrite E. cbn [fst snd Kite.calls]. auto.
Qed.

(** X6.  A row returned by the evaluator, handed to the cross-venue
    orchestrator, is traded in the direction that earns the spread: the
    first order buys the row's symbol at the venue and price the row calls
    lower, the second sells it at the venue and price the row calls higher,
    both for the requested quantity, and the buying price is not above the
    selling price. *)
Theorem returned_row_buys_low_sells_high {G : Type} (kite : Kite.gateway G)
        (live_prices_data : list Stock.t) (min_profit_threshold : Q)
        (row : Arbitrage.t) (quantity : Z) (w : Kite.world G) :
  In row (calculate_arbitrage_opportunities live_prices_data min_profit_threshold) ->
  exists buy sell,
    Kite.calls (snd (place_arbitrage_orders kite row quantity w))
    = Kite.calls w ++ [Kite.PlaceOrder buy; Kite.PlaceOrder sell] /\
    Kite.transaction_type buy = "BUY" /\
    Kite.transaction_type sell = "SELL" /\
    Kite.tradingsymbol buy = Some (Arbitrage.symbol row) /\
    Kite.tradingsymbol sell = Some (Arbitrage.symbol row) /\
    Kite.exchange buy = Arbitrage.lower_exchange row /\
    Kite.exchange sell = Arbitrage.higher_exchange row /\
    Kite.price buy = Some (Arbitrage.lower_price row) /\
    Kite.price sell = Some (Arbitrage.higher_price row) /\
    Kite.quantity buy = quantity /\
    Kite.quantity sell = quantity /\
    (Arbitrage.lower_price row <= Arbitrage.higher_price row)%Q.
Proof.
  intros Hin.
  apply in_calculate_arbitrage_opportunities in Hin as (symbol & exchanges & _ & Hrow).
  apply arbitrage_row_fields in Hrow
    as (n & b & _ & _ & _ & _ & _ & _ & _ & _ & _ & Hside).
  exists (buy_leg row quantity), (sell_leg row quantity).
  split.
  { unfold place_arbitrage_orders.
    destruct (execute_order_sequence_run kite (arbitrage_order_sequence row quantity) w)
      as (reports & g & E & _).
    rewrite E. cbn [snd Kite.calls]. f_equal.
    rewrite <- (map_map request_of_order Kite.PlaceOrder).
    unfold request_of_order. now rewrite arbitrage_requests. }
  unfold buy_leg, sell_leg.
  cbn [Kite.transaction_type Kite.tradingsymbol Kite.exchange Kite.price Kite.quantity].
  destruct Hside as [(Hh & Hl & Hhp & Hlp & Hlt)|(Hh & Hl & Hhp & Hlp & Hle)];
    rewrite Hh, Hl, Hhp, Hlp; cbn [String.eqb Ascii.eqb Bool.eqb];
    repeat (split; [reflexivity|]).
  - now apply Qlt_le_weak.
  - exact Hle.
Qed.

(** The pair quoted at 100 on NSE and 101 on BSE, as the evaluator returns
    it, bought on NSE at 100 and sold on BSE at 101. *)
Lemma returned_row_buys_low_sells_high_witness :
  exists row buy sell,
    In row (calculate_arbitrage_opportunities demo_quotes 0.5) /\
    Kite.calls (snd (place_arbitrage_orders first_only row 10 fresh))
    = Kite.calls fresh ++ [Kite.PlaceOrder buy; Kite.PlaceOrder sell] /\
    Kite.exchange buy = "NSE" /\ Kite.exchange sell = "BSE" /\
    Kite.price buy = Some (Arbitrage.lower_price row) /\
    Kite.price sell = Some (Arbitrage.higher_price row).
Proof.
  assert (Hin : exists row, In row (calculate_arbitrage_opportunities demo_quotes 0.5) /\
                            Arbitrage.lower_exchange row = "NSE" /\
                            Arbitrage.higher_exchange row = "BSE")
    by (eexists; split; [left; reflexivity|split; reflexivity]).
  destruct Hin as (row & Hin & Hlow & Hhigh).
  destruct (returned_row_buys_low_sells_high first_only demo_quotes 0.5 row 10 fresh Hin)
    as (buy & sell & Hcalls & _ & _ & _ & _ & Hbuy & Hsell & Hbp & Hsp & _).
  exists row, buy, sell.
  rewrite Hlow in Hbuy. rewrite Hhigh in Hsell.
  repeat split; assumption.
Defined.

(** ** Requests and rejection messages *)

(** X7.  The order type is recognised without regard to letter case, and a
    market order never carries a price: the price given by the caller
    reaches the gateway exactly when the upper-cased order type is not
    MARKET.  The spelling SLM is sent as the gateway's SL-M. *)
Theorem market_orders_carry_no_price (symbol : option string)
        (exchange transaction_type : string) (quantity : Z) (price : option Q)
        (product order_type : string) :
  let request :=
    order_request_of symbol exchange transaction_type quantity price product order_type in
  Kite.price request
  = (if String.eqb (Py.upper order_type) "MARKET" then None else price) /\
  (Kite.order_type request = "MARKET" <-> Py.upper order_type = "MARKET") /\
  (Py.upper order_type = "SLM" -> Kite.order_type request = "SL-M") /\
  Kite.quantity request = quantity /\
  Kite.tradingsymbol request = symbol.
Proof.
  cbv zeta. unfold order_request_of.
  cbn [Kite.price Kite.order_type Kite.quantity Kite.tradingsymbol].
  unfold normalise, order_type_map. cbn [Py.get].
  destruct (String.eqb_spec (Py.upper order_type) "MARKET") as [E1|N1].
  { rewrite E1. cbn. repeat split; auto. discriminate. }
  destruct (String.eqb_spec (Py.upper order_type) "LIMIT") as [E2|N2].
  { cbn. repeat split; auto; try discriminate; intros H; congruence. }
  destruct (String.eqb_spec (Py.upper order_type) "SL") as [E3|N3].
  { cbn. repeat split; auto; try discriminate; intros H; congruence. }
  destruct (String.eqb_spec (Py.upper order_type) "SLM") as [E4|N4].
  { cbn. repeat split; auto; try discriminate; intros H; congruence. }
  cbn [get_default].
  destruct (String.eqb_spec order_type Kite.ORDER_TYPE_MARKET) as [E|N].
  { exfalso. apply N1. rewrite E. reflexivity. }
  repeat split; auto; try contradiction.
Qed.

Lemma decimal_nonneg (s : string) :
  forall (num : Z) (scale : positive) (after_dot any_digit : bool) (q : Q),
    0 <= num -> decimal num scale after_dot any_digit s = Some q -> (0 <= q)%Q.
Proof.
  induction s as [|c r IH]; intros num scale after_dot any_digit q Hnum; cbn [decimal].
  - destruct any_digit; [|discriminate]. intros H. some_eq H.
    unfold Qle. cbn [Qnum Qden]. lia.
  - destruct (Py.isdigit c).
    + apply IH. unfold Py.digit_value. lia.
    + destruct (Ascii.eqb c "."); [|discriminate].
      destruct after_dot; [discriminate|]. now apply IH.
Qed.

(** X8.  The margin figures read from a rejection message come in one of
    three shapes: nothing, the required margin alone, or the required margin
    followed by the available one (never the available margin alone).  The
    figures are never negative, and nothing is read unless the message holds
    both phrases, "Required margin" and "available margin". *)
Theorem margin_info_shape (error_msg : string) :
  let info := extract_margin_info error_msg in
  (info = [] \/
   (exists required, info = [("required", required)] /\ (0 <= required)%Q) \/
   (exists required available,
       info = [("required", required); ("available", available)] /\
       (0 <= required)%Q /\ (0 <= available)%Q)) /\
  (Py.contains "Required margin" error_msg = false -> info = []) /\
  (Py.contains "available margin" error_msg = false -> info = []) /\
  (info <> [] -> exists run, search_number "Required margin is " error_msg = Some run /\
                             float_of_run run = Py.get "required" info).
Proof.
  cbv zeta. unfold extract_margin_info.
  destruct (Py.contains "Required margin" error_msg);
    [|repeat split; auto; contradiction].
  destruct (Py.contains "available margin" error_msg);
    [|repeat split; auto; contradiction].
  cbn [andb].
  destruct (search_number "Required margin is " error_msg) as [required|];
    [|repeat split; auto; try discriminate; contradiction].
  destruct (search_number "available margin is " error_msg) as [available|];
    [|repeat split; auto; try discriminate; contradiction].
  destruct (float_of_run required) as [r|] eqn:R;
    [|repeat split; auto; try discriminate; contradiction].
  assert (Hr : (0 <= r)%Q) by (apply (decimal_nonneg _ _ _ _ _ _ (Z.le_refl 0) R)).
  destruct (float_of_run available) as [a|] eqn:A.
  - assert (Ha : (0 <= a)%Q) by (apply (decimal_nonneg _ _ _ _ _ _ (Z.le_refl 0) A)).
    repeat split; try discriminate.
    + right. right. exists r, a. auto.
    + intros _. exists required. split; [reflexivity|exact R].
  - repeat split; try discriminate.
    + right. left. exists r. auto.
    + intros _. exists required. split; [reflexivity|exact R].
Qed.

(** The rejection message of the demonstration gateway. *)
Lemma margin_info_shape_witness :
  extract_margin_info
    "Insufficient funds. Required margin is 1200.50 but available margin is 10.25"
  <> [] /\
  exists run,
    search_number "Required margin is "
      "Insufficient funds. Required margin is 1200.50 but available margin is 10.25"
    = Some run /\
    float_of_run run
    = Py.get "required"
        (extract_margin_info
           "Insufficient funds. Required margin is 1200.50 but available margin is 10.25").
Proof.
  assert (Hne : extract_margin_info
                  "Insufficient funds. Required margin is 1200.50 but available margin is 10.25"
                <> []) by (vm_compute; discriminate).
  split; [exact Hne|].
  exact (proj2 (proj2 (proj2 (margin_info_shape _))) Hne).
Defined.

(** ** The status reconciler: which event is reported *)

Lemma last_item_cons {A : Type} (y : A) (r : list A) :
  V3WorkingTest.last_item (y :: r)
  = match V3WorkingTest.last_item r with Some z => Some z | None => Some y end.
Proof.
  unfold V3WorkingTest.last_item. cbn [rev]. destruct (rev r); reflexivity.
Qed.

Lemma last_item_none {A : Type} (l : list A) : V3WorkingTest.last_item l = None -> l = [].
Proof.
  destruct l as [|y r]; [reflexivity|]. rewrite last_item_cons.
  destruct (V3WorkingTest.last_item r); discriminate.
Qed.

(** Where the last element of a stable ascending sort stood in the input. *)
Section StableLast.

Context {A K : Type} (lt : K -> K -> bool) (key : A -> K).
Hypothesis lt_irrefl : forall a, lt a a = false.
Hypothesis lt_trans : forall a b c, lt a b = true -> lt b c = true -> lt a c = true.
Hypothesis lt_negtrans : forall a b c, lt a b = false -> lt b c = false -> lt a c = false.

Lemma last_insert_asc (x : A) (s : list A) (m : A) :
  V3WorkingTest.last_item s = Some m ->
  (forall e, In e s -> lt (key m) (key e) = false) ->
  V3WorkingTest.last_item (Py.insert_asc lt key x s)
  = Some (if lt (key m) (key x) then x else m).
Proof.
  induction s as [|y r IH]; [discriminate|].
  intros Hlast Hmax. cbn [Py.insert_asc].
  destruct (lt (key y) (key x)) eqn:E.
  - rewrite last_item_cons. rewrite last_item_cons in Hlast.
    destruct (V3WorkingTest.last_item r) as [z|] eqn:R.
    + rewrite IH; [reflexivity|exact Hlast|]. intros e He. apply Hmax. now right.
    + apply last_item_none in R. subst r.
      assert (Hy : y = m) by congruence. subst m. cbn [Py.insert_asc].
      now rewrite E.
  - assert (Hm : lt (key m) (key x) = false)
      by (apply lt_negtrans with (key y); [apply Hmax; now left|exact E]).
    rewrite Hm. now rewrite last_item_cons, Hlast.
Qed.

Lemma last_of_stable_sort (l : list A) (m : A) :
  V3WorkingTest.last_item (Py.sorted_by lt key l) = Some m ->
  exists before after,
    l = before ++ m :: after /\
    (forall e, In e after -> lt (key e) (key m) = true) /\
    (forall e, In e before -> lt (key m) (key e) = false).
Proof.
  revert m. induction l as [|x r IH]; intros m; [discriminate|].
  cbn [Py.sorted_by fold_right]. fold (Py.sorted_by lt key r).
  destruct r as [|x' r'].
  - intros H. cbn in H. some_eq H. exists [], []. repeat split; intros e [].
  - set (r := x' :: r') in *.
    destruct (last_of_sorted_is_greatest lt key lt_irrefl lt_trans lt_negtrans r)
      as (m' & Hlast & Hin & Hmax); [discriminate|].
    rewrite (last_insert_asc x _ m' Hlast).
    2:{ intros e He. apply Hmax. exact (proj1 (in_sorted_by lt key e r) He). }
    destruct (lt (key m') (key x)) eqn:E; intros H; some_eq H.
    + exists [], r. split; [reflexivity|]. split; [|intros e []].
      intros e He. destruct (lt (key e) (key x)) eqn:F; [reflexivity|].
      rewrite (lt_negtrans _ _ _ (Hmax e He) F) in E. discriminate.
    + destruct (IH m' Hlast) as (before & after & Hr & Hafter & Hbefore).
      exists (x :: before), after. split; [now rewrite Hr|]. split; [exact Hafter|].
      intros e [<-|He]; [exact E|now apply Hbefore].
Qed.

End StableLast.

(** X9.  The reconciler ranks an event by the instant its time stamp
    denotes when that is a text in the expected format, and by
    [datetime.min] in every other case: a missing or empty time stamp, a
    text in another format, a [datetime] object.  It reports the event
    listed last among those of greatest rank: every event listed after the
    reported one ranks strictly lower, and no event listed before it ranks
    higher.  So in a history none of whose time stamps is such a text, as
    when all are [datetime] objects, the event listed last is reported
    whatever the times are. *)
Theorem latest_of_equal_timestamps_is_last_listed
        (order_history : list V3WorkingTest.Event.t) (latest : V3WorkingTest.Event.t) :
  V3WorkingTest.latest_status order_history = Some latest ->
  let rank e := Calculations.get_default Datetime.datetime_min (text_time e) in
  exists before after,
    order_history = before ++ latest :: after /\
    (forall e, V3WorkingTest.get_timestamp e = rank e) /\
    (forall e, In e after -> Datetime.ltb (rank e) (rank latest) = true) /\
    (forall e, In e before -> Datetime.ltb (rank latest) (rank e) = false) /\
    ((forall e, In e order_history -> text_time e = None) -> after = []).
Proof.
  intros H rank.
  destruct (last_of_stable_sort Datetime.ltb V3WorkingTest.get_timestamp
              (fun a => lex_ltb_irrefl _)
              (fun a b c => lex_ltb_trans _ _ _)
              (fun a b c => lex_ltb_negtrans _ _ _)
              order_history latest H) as (before & after & Hl & Hafter & Hbefore).
  exists before, after.
  split; [exact Hl|]. split; [exact get_timestamp_of_text_time|].
  split; [|split].
  - intros e He. unfold rank. rewrite <- !get_timestamp_of_text_time. now apply Hafter.
  - intros e He. unfold rank. rewrite <- !get_timestamp_of_text_time. now apply Hbefore.
  - intros Hun. destruct after as [|e after']; [reflexivity|].
    specialize (Hafter e (or_introl eq_refl)).
    rewrite !get_timestamp_of_text_time in Hafter.
    rewrite (Hun e), (Hun latest) in Hafter.
    + unfold Datetime.ltb in Hafter. cbn [Calculations.get_default] in Hafter.
      rewrite lex_ltb_irrefl in Hafter. discriminate.
    + rewrite Hl. apply in_or_app. right. now left.
    + rewrite Hl. apply in_or_app. right. right. now left.
Qed.

(** A history of [datetime] time stamps whose last listed event is not the
    latest: none of its time stamps is a text, and the event listed last is
    the one reported. *)
Lemma latest_of_equal_timestamps_is_last_listed_witness :
  V3WorkingTest.latest_status history_of_instants = Some partly_filled /\
  (forall e, In e history_of_instants -> text_time e = None) /\
  exists before,
    history_of_instants = before ++ [partly_filled] /\
    (forall e, In e before ->
               Datetime.ltb (V3WorkingTest.get_timestamp partly_filled)
                            (V3WorkingTest.get_timestamp e) = false).
Proof.
  assert (Hun : forall e, In e history_of_instants -> text_time e = None)
    by (intros e [<-|[<-|[<-|[]]]]; reflexivity).
  split; [reflexivity|]. split; [exact Hun|].
  destruct (latest_of_equal_timestamps_is_last_listed
              history_of_instants partly_filled eq_refl)
    as (before & after & Hl & Hkey & _ & Hbefore & Hlast).
  exists before. rewrite (Hlast Hun) in Hl. split; [exact Hl|].
  intros e He. rewrite !Hkey. now apply Hbefore.
Defined.

(** ** The futures resolver *)

Lemma futures_of_row_fields (LOT_SIZE_MAP : Py.dict Z) (now : Datetime.datetime)
      (stock : string) (row : FutRow.t) (f : Futures.t) :
  futures_of_row LOT_SIZE_MAP now stock row = Some f ->
  Futures.tradingsymbol f = FutRow.tradingsymbol row /\
  Futures.order_tradingsymbol f = format_futures_order_symbol stock (FutRow.expiry row) /\
  Futures.exchange f = "NFO" /\
  0 < Futures.days_to_expiry f /\
  exists expiry_date,
    Datetime.strptime (Futures.expiry f) "%Y-%m-%d" = Some expiry_date /\
    Futures.days_to_expiry f = Datetime.days_between expiry_date now.
Proof.
  unfold futures_of_row. cbv zeta.
  set (text := if Py.contains "T" (FutRow.expiry row)
               then Py.split_head "T" (FutRow.expiry row) else FutRow.expiry row).
  assert (Ht : (if Py.contains "T" (FutRow.expiry row)
                then Datetime.strptime (Py.split_head "T" (FutRow.expiry row)) "%Y-%m-%d"
                else Datetime.strptime (FutRow.expiry row) "%Y-%m-%d")
               = Datetime.strptime text "%Y-%m-%d")
    by (subst text; destruct (Py.contains "T" (FutRow.expiry row)); reflexivity).
  rewrite Ht. clear Ht.
  destruct (Datetime.strptime text "%Y-%m-%d") as [expiry_date|] eqn:P; [|discriminate].
  destruct (Z.ltb_spec 0 (Datetime.days_between expiry_date now)) as [Hpos|Hneg];
    [|discriminate].
  intros Hf. some_eq Hf.
  cbn [Futures.tradingsymbol Futures.order_tradingsymbol Futures.exchange
       Futures.days_to_expiry Futures.expiry].
  fold text.
  split; [reflexivity|]. split; [reflexivity|]. split; [reflexivity|].
  split; [exact Hpos|]. exists expiry_date. split; [exact P|reflexivity].
Qed.

(** X10.  Every entry of the dictionary the futures resolver returns is a
    live contract of a requested stock: its key is one of the requested
    symbols and appears once; it is read from a row of the instrument dump
    of type FUT whose name is the stock or whose trading symbol starts with
    it; its venue is NFO, its API symbol is the row's trading symbol, its
    expiry text parses as a date, and its days to expiry, counted from the
    current instant to that date, are positive.  The data-frame sort is
    only assumed to return rows of the frame it is given. *)
Theorem futures_contracts_are_live_contracts
        (LOT_SIZE_MAP : Py.dict Z) (sort_values_expiry : list FutRow.t -> list FutRow.t)
        (instruments : option (list FutRow.t)) (current_date : Datetime.datetime)
        (stock_symbols : list string) :
  (forall rows row, In row (sort_values_expiry rows) -> In row rows) ->
  let futures_data :=
    get_futures_contracts LOT_SIZE_MAP sort_values_expiry instruments current_date
                          stock_symbols in
  NoDup (map fst futures_data) /\
  Forall (fun entry : string * Futures.t =>
            let (stock, f) := entry in
            In stock stock_symbols /\
            Futures.exchange f = "NFO" /\
            0 < Futures.days_to_expiry f /\
            (exists expiry_date,
                Datetime.strptime (Futures.expiry f) "%Y-%m-%d" = Some expiry_date /\
                Futures.days_to_expiry f = Datetime.days_between expiry_date current_date) /\
            exists row,
              In row (get_default [] instruments) /\
              FutRow.instrument_type row = "FUT" /\
              (FutRow.name row = stock \/
               Py.startswith stock (FutRow.tradingsymbol row) = true) /\
              Futures.tradingsymbol f = FutRow.tradingsymbol row /\
              Futures.order_tradingsymbol f
              = format_futures_order_symbol stock (FutRow.expiry row))
         futures_data.
Proof.
  intros Hsort futures_data. subst futures_data. unfold get_futures_contracts.
  destruct instruments as [[|row0 rows0]|]; try (split; constructor).
  cbn [get_default]. set (rows := row0 :: rows0). clearbody rows.
  set (P := fun entry : string * Futures.t =>
              let (stock, f) := entry in
              In stock stock_symbols /\
              Futures.exchange f = "NFO" /\
              0 < Futures.days_to_expiry f /\
              (exists expiry_date,
                  Datetime.strptime (Futures.expiry f) "%Y-%m-%d" = Some expiry_date /\
                  Futures.days_to_expiry f = Datetime.days_between expiry_date current_date) /\
              exists row,
                In row rows /\
                FutRow.instrument_type row = "FUT" /\
                (FutRow.name row = stock \/
                 Py.startswith stock (FutRow.tradingsymbol row) = true) /\
                Futures.tradingsymbol f = FutRow.tradingsymbol row /\
                Futures.order_tradingsymbol f
                = format_futures_order_symbol stock (FutRow.expiry row)).
  assert (Inv : forall l acc,
             incl l stock_symbols ->
             NoDup (map fst acc) /\ Forall P acc ->
             let result :=
               fold_left
                 (fun futures_data stock =>
                    match filter (is_future_of stock) rows with
                    | [] => futures_data
                    | (_ :: _) as stock_futures =>
                        match first_valid_future LOT_SIZE_MAP current_date stock
                                (sort_values_expiry stock_futures) with
                        | Some f => Py.set stock f futures_data
                        | None => futures_data
                        end
                    end) l acc in
             NoDup (map fst result) /\ Forall P result).
  { induction l as [|stock l IH]; intros acc Hl Hacc; [exact Hacc|].
    cbn [fold_left]. apply IH; [intros x Hx; apply Hl; now right|].
    destruct (filter (is_future_of stock) rows) as [|r rs] eqn:F; [exact Hacc|].
    destruct (first_valid_future LOT_SIZE_MAP current_date stock (sort_values_expiry (r :: rs)))
      as [f|] eqn:V; [|exact Hacc].
    destruct Hacc as (ND & Hall). split; [now apply set_nodup|].
    apply set_forall; [|exact Hall].
    apply first_valid_future_row in V. destruct V as (row & Hin & Hrow).
    apply Hsort in Hin. rewrite <- F in Hin. apply filter_In in Hin.
    destruct Hin as (Hin & Hfut).
    unfold is_future_of in Hfut. apply andb_true_iff in Hfut. destruct Hfut as (Hname & Htype).
    apply String.eqb_eq in Htype. apply orb_true_iff in Hname.
    apply futures_of_row_fields in Hrow
      as (Hsym & Hord & Hex & Hdays & Hdate).
    unfold P. split; [apply Hl; now left|].
    split; [exact Hex|]. split; [exact Hdays|]. split; [exact Hdate|].
    exists row. split; [exact Hin|]. split; [exact Htype|].
    split; [|split; assumption].
    destruct Hname as [Hname|Hname]; [left; now apply String.eqb_eq|now right]. }
  apply (Inv stock_symbols []); [apply incl_refl|]. split; constructor.
Qed.

(** The resolver on the demonstration dump. *)
Lemma futures_contracts_are_live_contracts_witness :
  NoDup (map fst (get_futures_contracts demo_lot_sizes by_expiry_text (Some demo_instruments)
                                        demo_now ["ZED"; "QUX"])) /\
  map (fun entry : string * Futures.t =>
         (fst entry, Futures.tradingsymbol (snd entry), Futures.days_to_expiry (snd entry)))
      (get_futures_contracts demo_lot_sizes by_expiry_text (Some demo_instruments)
                             demo_now ["ZED"; "QUX"])
  = [("ZED", "ZED25NOVFUT", 21); ("QUX", "QUX25DECFUT", 54)].
Proof.
  split; [|reflexivity].
  refine (proj1 (futures_contracts_are_live_contracts demo_lot_sizes by_expiry_text
                   (Some demo_instruments) demo_now ["ZED"; "QUX"] _)).
  intros rows row Hin. exact (proj1 (in_sorted_by String.ltb FutRow.expiry row rows) Hin).
Defined.

(** ** Symbols: character set and letter case *)

Lemma upper_idempotent (s : string) : Py.upper (Py.upper s) = Py.upper s.
Proof.
  induction s as [|c r IH]; simpl; [reflexivity|].
  now rewrite upper_char_idempotent, IH.
Qed.

Lemma keep_app (p : ascii -> bool) (a b : string) :
  Py.keep p (a ++ b) = (Py.keep p a ++ Py.keep p b)%string.
Proof.
  induction a as [|c r IH]; simpl; [reflexivity|].
  destruct (p c); simpl; now rewrite IH.
Qed.

Lemma digit_char_alnum (k : Z) :
  0 <= k <= 9 -> Py.isalnum (ascii_of_N (Z.to_N (48 + k))) = true.
Proof.
  intros H.
  assert (C : k = 0 \/ k = 1 \/ k = 2 \/ k = 3 \/ k = 4 \/ k = 5 \/ k = 6 \/ k = 7
              \/ k = 8 \/ k = 9) by lia.
  repeat (destruct C as [->|C]; [reflexivity|]). subst. reflexivity.
Qed.

Lemma yy_mmm_alnum (t : Datetime.datetime) :
  0 <= Datetime.year t -> 1 <= Datetime.month t <= 12 ->
  Py.keep Py.isalnum (yy_mmm t) = yy_mmm t.
Proof.
  intros Hy Hm. unfold yy_mmm. rewrite keep_app. f_equal.
  - unfold Datetime.two_digits. cbn [Py.keep].
    pose proof (Z.mod_pos_bound (Datetime.year t) 100 ltac:(lia)) as B.
    rewrite !digit_char_alnum; [reflexivity| |].
    + pose proof (Z.mod_pos_bound (Datetime.year t mod 100) 10 ltac:(lia)). lia.
    + split; [apply Z.div_pos; lia|]. apply Z.lt_succ_r. apply Z.div_lt_upper_bound; lia.
  - remember (Datetime.month t) as m eqn:Em. clear Em.
    assert (C : m = 1 \/ m = 2 \/ m = 3 \/ m = 4 \/ m = 5 \/ m = 6 \/ m = 7 \/ m = 8
                \/ m = 9 \/ m = 10 \/ m = 11 \/ m = 12) by lia.
    repeat (destruct C as [->|C]; [reflexivity|]). subst. reflexivity.
Qed.

(** X11.  For a non-empty symbol and a non-empty expiry text, whatever they
    contain, the order symbol built for a futures contract consists of
    upper-case letters and digits only: removing every other character, or
    upper-casing it again, changes nothing. *)
Theorem futures_order_symbol_is_upper_alnum (stock_symbol expiry_str : string) :
  stock_symbol <> "" -> expiry_str <> "" ->
  let order_symbol := format_futures_order_symbol stock_symbol expiry_str in
  Py.keep Py.isalnum order_symbol = order_symbol /\
  Py.upper order_symbol = order_symbol /\
  Py.startswith (cleaned stock_symbol) order_symbol = true.
Proof.
  intros Hs He. cbv zeta. unfold format_futures_order_symbol.
  destruct stock_symbol as [|c s]; [congruence|].
  destruct expiry_str as [|d e]; [congruence|].
  cbn [Py.nonempty negb orb].
  fold (cleaned (String c s)).
  destruct (cleaned_is_upper_alnum (String c s)) as (Hk & Hu).
  assert (Hpre : forall a b, Py.startswith a (a ++ b) = true).
  { induction a as [|x a IH]; intros b; simpl; [reflexivity|].
    now rewrite Ascii.eqb_refl, IH. }
  destruct (parse_expiry (Py.strip (String d e)) expiry_formats) as [t|] eqn:P.
  - apply parse_expiry_some in P. destruct P as (fmt & _ & P).
    apply strptime_valid in P. destruct P as (Hy & Hm).
    rewrite strftime_yb_upper by lia.
    rewrite keep_app, upper_app, Hk, Hu, yy_mmm_alnum by lia.
    rewrite <- (strftime_yb_upper t) by lia. rewrite upper_idempotent.
    repeat split. apply Hpre.
  - repeat split; try assumption.
    generalize (cleaned (String c s)). intros a.
    induction a as [|x a IH]; simpl; [reflexivity|]. now rewrite Ascii.eqb_refl, IH.
Qed.

(** A symbol with punctuation and an expiry with a time of day. *)
Lemma futures_order_symbol_is_upper_alnum_witness :
  Py.keep Py.isalnum (format_futures_order_symbol "bajaj-auto" "2025-11-27 00:00:00")
  = "BAJAJAUTO25NOV".
Proof.
  rewrite (proj1 (futures_order_symbol_is_upper_alnum "bajaj-auto" "2025-11-27 00:00:00"
                    ltac:(discriminate) ltac:(discriminate))).
  reflexivity.
Defined.

Lemma isdigit_upper_char (c : ascii) : Py.isdigit (Py.upper_char c) = Py.isdigit c.
Proof. destruct c as [[] [] [] [] [] [] [] []]; reflexivity. Qed.

Lemma count_isdigit_upper (s : string) :
  Py.count Py.isdigit (Py.upper s) = Py.count Py.isdigit s.
Proof.
  induction s as [|c r IH]; cbn [Py.upper Py.count]; [reflexivity|].
  now rewrite isdigit_upper_char, IH.
Qed.

(** X12.  The venue an instrument is routed to does not depend on the
    letter case of its symbol: a symbol and its upper-case form go to the
    same venue, in the order-placement script and in the queue processor
    alike. *)
Theorem venue_ignores_letter_case (symbol : string) :
  PlaceOrderLogics.auto_detect_exchange (Py.upper symbol)
  = PlaceOrderLogics.auto_detect_exchange symbol /\
  V3WorkingTest.place_order_with_kite_exchange (Py.upper symbol)
  = V3WorkingTest.place_order_with_kite_exchange symbol.
Proof.
  unfold PlaceOrderLogics.auto_detect_exchange, V3WorkingTest.place_order_with_kite_exchange.
  now rewrite count_isdigit_upper, upper_idempotent.
Qed.

(** ** The cash-futures evaluator *)

Import CashFutures.

Lemma in_opportunities_of (LOT_SIZE_MAP : Py.dict Z) (quotes : Py.dict Quote.t)
      (futures_data : Py.dict Futures.t) (stock_symbols : list string) (o : Opportunity.t) :
  In o (opportunities_of LOT_SIZE_MAP quotes futures_data stock_symbols) <->
  exists stock, In stock stock_symbols /\
                opportunity_of LOT_SIZE_MAP quotes futures_data stock = Some o.
Proof.
  induction stock_symbols as [|stock rest IH]; simpl.
  - split; [contradiction|]. now intros (? & [] & _).
  - destruct (opportunity_of LOT_SIZE_MAP quotes futures_data stock) as [o'|] eqn:E; simpl.
    + rewrite IH. split.
      * intros [->|(s & Hin & Hs)]; [exists stock; auto|exists s; auto].
      * intros (s & [<-|Hin] & Hs); [left; congruence|right; exists s; auto].
    + rewrite IH. split.
      * intros (s & Hin & Hs). exists s; auto.
      * intros (s & [<-|Hin] & Hs); [congruence|exists s; auto].
Qed.

Lemma in_calculate_cash_futures_opportunities
      (LOT_SIZE_MAP : Py.dict Z) (kite_quote : list string -> option (Py.dict Quote.t))
      (stock_symbols : list string) (futures_data : Py.dict Futures.t) (o : Opportunity.t) :
  In o (calculate_cash_futures_opportunities LOT_SIZE_MAP kite_quote stock_symbols
                                             futures_data) ->
  exists quotes stock,
    kite_quote (quote_symbols_of stock_symbols futures_data) = Some quotes /\
    In stock stock_symbols /\
    opportunity_of LOT_SIZE_MAP quotes futures_data stock = Some o.
Proof.
  unfold calculate_cash_futures_opportunities.
  destruct (quote_symbols_of stock_symbols futures_data) as [|s l] eqn:S; [contradiction|].
  destruct (kite_quote (s :: l)) as [quotes|]; [|contradiction].
  intros Hin. apply in_sorted_by_reverse in Hin. apply in_opportunities_of in Hin.
  destruct Hin as (stock & Hin & Ho). exists quotes, stock. auto.
Qed.

Lemma opportunity_of_fields (LOT_SIZE_MAP : Py.dict Z) (quotes : Py.dict Quote.t)
      (futures_data : Py.dict Futures.t) (stock : string) (o : Opportunity.t) :
  opportunity_of LOT_SIZE_MAP quotes futures_data stock = Some o ->
  exists fut_data cash_quote fut_quote,
    Py.get stock futures_data = Some fut_data /\
    Py.get ("NSE:" ++ stock)%string quotes = Some cash_quote /\
    Py.get ("NFO:" ++ Futures.tradingsymbol fut_data)%string quotes = Some fut_quote /\
    Opportunity.symbol o = stock /\
    Quote.last_price cash_quote = Some (Opportunity.cash_price o) /\
    Quote.last_price fut_quote = Some (Opportunity.futures_price o) /\
    (0 < Opportunity.cash_price o)%Q /\
    (0 < Opportunity.futures_price o)%Q /\
    Opportunity.premium o = (Opportunity.futures_price o - Opportunity.cash_price o)%Q /\
    Opportunity.premium_pct o
    = ((Opportunity.premium o / Opportunity.cash_price o) * 100)%Q /\
    Opportunity.profit_per_share o = Opportunity.premium o /\
    Opportunity.days_to_expiry o = Futures.days_to_expiry fut_data /\
    Opportunity.annualized_premium o
    = (if 0 <? Opportunity.days_to_expiry o
       then ((Opportunity.premium_pct o / inject_Z (Opportunity.days_to_expiry o)) * 365)%Q
       else 0%Q) /\
    Opportunity.opportunity_score o
    = (if 0 <? Opportunity.days_to_expiry o
       then (Opportunity.premium_pct o * (inject_Z (Opportunity.days_to_expiry o) / 30))%Q
       else 0%Q) /\
    Opportunity.lot_size o
    = Z.max 1 (get_default (Futures.lot_size fut_data) (Py.get (Py.upper stock) LOT_SIZE_MAP)) /\
    Opportunity.futures_symbol_api o = Futures.tradingsymbol fut_data /\
    Opportunity.futures_symbol o = Futures.order_tradingsymbol fut_data /\
    Opportunity.expiry_date o = Futures.expiry fut_data.
Proof.
  unfold opportunity_of.
  destruct (Py.get stock futures_data) as [fut_data|] eqn:Gf; [|discriminate]. cbv zeta.
  destruct (Py.get ("NSE:" ++ stock)%string quotes) as [cash_quote|] eqn:Gc; [|discriminate].
  destruct (Py.get ("NFO:" ++ Futures.tradingsymbol fut_data)%string quotes)
    as [fut_quote|] eqn:Gq; [|discriminate].
  destruct (Py.Qltb 0 (get_default 0%Q (Quote.last_price cash_quote))) eqn:Pc;
    [|discriminate].
  destruct (Py.Qltb 0 (get_default 0%Q (Quote.last_price fut_quote))) eqn:Pf;
    [|discriminate].
  cbn [andb]. intros H. some_eq H.
  apply Qltb_true in Pc, Pf.
  exists fut_data, cash_quote, fut_quote.
  cbn [Opportunity.symbol Opportunity.cash_price Opportunity.futures_price
       Opportunity.premium Opportunity.premium_pct Opportunity.profit_per_share
       Opportunity.days_to_expiry Opportunity.annualized_premium
       Opportunity.opportunity_score Opportunity.lot_size
       Opportunity.futures_symbol_api Opportunity.futures_symbol Opportunity.expiry_date].
  split; [reflexivity|]. split; [reflexivity|]. split; [exact Gq|].
  split; [reflexivity|].
  split.
  { destruct (Quote.last_price cash_quote) as [p|]; [reflexivity|].
    exfalso. revert Pc. cbn. apply Qlt_irrefl. }
  split.
  { destruct (Quote.last_price fut_quote) as [p|]; [reflexivity|].
    exfalso. revert Pf. cbn. apply Qlt_irrefl. }
  split; [exact Pc|]. split; [exact Pf|].
  repeat (split; [reflexivity|]).
  split; [|repeat split].
  match goal with |- (if ?v <? 1 then 1 else ?v) = _ => destruct (Z.ltb_spec v 1) end; lia.
Qed.

(** X13.  The opportunities the cash-futures evaluator returns are ordered
    by their opportunity score, best first, whatever the gateway quotes. *)
Theorem cash_futures_best_score_first
        (LOT_SIZE_MAP : Py.dict Z) (kite_quote : list string -> option (Py.dict Quote.t))
        (stock_symbols : list string) (futures_data : Py.dict Futures.t) :
  StronglySorted
    (fun earlier later =>
       (Opportunity.opportunity_score later <= Opportunity.opportunity_score earlier)%Q)
    (calculate_cash_futures_opportunities LOT_SIZE_MAP kite_quote stock_symbols futures_data).
Proof.
  unfold calculate_cash_futures_opportunities.
  destruct (quote_symbols_of stock_symbols futures_data) as [|s l]; [constructor|].
  destruct (kite_quote (s :: l)) as [quotes|]; [|constructor].
  apply sorted_by_reverse_descending.
Qed.

Lemma Qmult_pos_sign (x c : Q) : (0 < c)%Q -> ((0 <= x * c)%Q <-> (0 <= x)%Q).
Proof.
  intros Hc. split.
  - intros H. destruct (Qlt_le_dec x 0) as [Hneg|Hpos]; [|exact Hpos].
    exfalso. apply (Qmult_lt_compat_r _ _ c Hc) in Hneg.
    rewrite Qmult_0_l in Hneg. now apply (Qle_not_lt _ _ H).
  - intros H. apply Qmult_le_0_compat; [exact H|now apply Qlt_le_weak].
Qed.

Lemma Qminus_nonneg (a b : Q) : (0 <= b - a)%Q <-> (a <= b)%Q.
Proof. unfold Qminus. symmetry. apply Qle_minus_iff. Qed.

(** X14.  Every opportunity the cash-futures evaluator returns belongs to a
    requested stock that has a contract, and is computed from the two quotes
    the gateway gave for that stock's cash symbol and for its contract: both
    prices are positive, the premium is the futures price minus the cash
    price and is also the profit per share, the percentage is the premium
    over the cash price times 100 (so it is negative exactly when the future
    trades below cash), the days to expiry and the two futures symbols are
    the contract's, and the lot size is at least 1. *)
Theorem cash_futures_opportunity_is_consistent
        (LOT_SIZE_MAP : Py.dict Z) (kite_quote : list string -> option (Py.dict Quote.t))
        (stock_symbols : list string) (futures_data : Py.dict Futures.t)
        (o : Opportunity.t) :
  In o (calculate_cash_futures_opportunities LOT_SIZE_MAP kite_quote stock_symbols
                                             futures_data) ->
  In (Opportunity.symbol o) stock_symbols /\
  (exists quotes fut_data cash_quote fut_quote,
      kite_quote (quote_symbols_of stock_symbols futures_data) = Some quotes /\
      Py.get (Opportunity.symbol o) futures_data = Some fut_data /\
      Py.get ("NSE:" ++ Opportunity.symbol o)%string quotes = Some cash_quote /\
      Py.get ("NFO:" ++ Futures.tradingsymbol fut_data)%string quotes = Some fut_quote /\
      Quote.last_price cash_quote = Some (Opportunity.cash_price o) /\
      Quote.last_price fut_quote = Some (Opportunity.futures_price o) /\
      Opportunity.days_to_expiry o = Futures.days_to_expiry fut_data /\
      Opportunity.futures_symbol_api o = Futures.tradingsymbol fut_data /\
      Opportunity.futures_symbol o = Futures.order_tradingsymbol fut_data) /\
  (0 < Opportunity.cash_price o)%Q /\
  (0 < Opportunity.futures_price o)%Q /\
  Opportunity.premium o = (Opportunity.futures_price o - Opportunity.cash_price o)%Q /\
  Opportunity.profit_per_share o = Opportunity.premium o /\
  Opportunity.premium_pct o = ((Opportunity.premium o / Opportunity.cash_price o) * 100)%Q /\
  ((0 <= Opportunity.premium_pct o)%Q <->
   (Opportunity.cash_price o <= Opportunity.futures_price o)%Q) /\
  1 <= Opportunity.lot_size o.
Proof.
  intros Hin.
  apply in_calculate_cash_futures_opportunities in Hin as (quotes & stock & Hq & Hin & Ho).
  apply opportunity_of_fields in Ho
    as (fut & cq & fq & Gf & Gc & Gq & Hsym & Hcp & Hfp & Pc & Pf & Hprem & Hpct & Hprofit
        & Hdays & _ & _ & Hlot & Hapi & Hord & _).
  subst stock.
  split; [exact Hin|].
  split; [exists quotes, fut, cq, fq; repeat split; assumption|].
  split; [exact Pc|]. split; [exact Pf|]. split; [exact Hprem|]. split; [exact Hprofit|].
  split; [exact Hpct|].
  split; [|rewrite Hlot; lia].
  rewrite Hpct, Hprem.
  assert (E : ((Opportunity.futures_price o - Opportunity.cash_price o)
               / Opportunity.cash_price o * 100
               == (Opportunity.futures_price o - Opportunity.cash_price o)
                  * (100 / Opportunity.cash_price o))%Q)
    by (field; intros Z; rewrite Z in Pc; now apply Qlt_irrefl in Pc).
  rewrite E, Qmult_pos_sign.
  - apply Qminus_nonneg.
  - apply Qlt_shift_div_l; [exact Pc|]. now rewrite Qmult_0_l.
Qed.

(** The evaluator on the contracts of the demonstration dump: the stock
    quoted below its future, and the one quoted above it. *)
Lemma cash_futures_opportunity_is_consistent_witness :
  map (fun o => (Opportunity.symbol o, Opportunity.lot_size o, Opportunity.days_to_expiry o))
      (calculate_cash_futures_opportunities demo_lot_sizes Demo.quote_answer ["QUX"; "ZED"]
                                            Demo.contracts)
  = [("ZED", 1, 21); ("QUX", 1, 54)] /\
  Forall (fun o => 1 <= Opportunity.lot_size o /\ (0 < Opportunity.cash_price o)%Q)
         (calculate_cash_futures_opportunities demo_lot_sizes Demo.quote_answer ["QUX"; "ZED"]
                                               Demo.contracts).
Proof.
  split; [reflexivity|].
  apply Forall_forall. intros o Hin.
  destruct (cash_futures_opportunity_is_consistent
              demo_lot_sizes Demo.quote_answer ["QUX"; "ZED"] Demo.contracts o Hin)
    as (_ & _ & Pc & _ & _ & _ & _ & _ & Hlot).
  split; assumption.
Defined.

(** The contracts of the resolver are built by its loop body, from the
    stock they are filed under. *)
Lemma get_futures_contracts_rows
      (LOT_SIZE_MAP : Py.dict Z) (sort_values_expiry : list FutRow.t -> list FutRow.t)
      (instruments : option (list FutRow.t)) (current_date : Datetime.datetime)
      (stock_symbols : list string) :
  Forall (fun entry : string * Futures.t =>
            exists row,
              futures_of_row LOT_SIZE_MAP current_date (fst entry) row = Some (snd entry))
         (get_futures_contracts LOT_SIZE_MAP sort_values_expiry instruments current_date
                                stock_symbols).
Proof.
  unfold get_futures_contracts.
  destruct instruments as [[|row0 rows0]|]; try constructor.
  set (rows := row0 :: rows0). clearbody rows.
  set (P := fun entry : string * Futures.t =>
              exists row,
                futures_of_row LOT_SIZE_MAP current_date (fst entry) row = Some (snd entry)).
  assert (Inv : forall l acc,
             Forall P acc ->
             Forall P
               (fold_left
                  (fun futures_data stock =>
                     match filter (is_future_of stock) rows with
                     | [] => futures_data
                     | (_ :: _) as stock_futures =>
                         match first_valid_future LOT_SIZE_MAP current_date stock
                                 (sort_values_expiry stock_futures) with
                         | Some f => Py.set stock f futures_data
                         | None => futures_data
                         end
                     end) l acc)).
  { induction l as [|stock l IH]; intros acc Hacc; [exact Hacc|].
    cbn [fold_left]. apply IH.
    destruct (filter (is_future_of stock) rows) as [|r rs]; [exact Hacc|].
    destruct (first_valid_future LOT_SIZE_MAP current_date stock (sort_values_expiry (r :: rs)))
      as [f|] eqn:V; [|exact Hacc].
    apply set_forall; [|exact Hacc].
    apply first_valid_future_row in V. destruct V as (row & _ & Hrow).
    exists row. exact Hrow. }
  apply Inv. constructor.
Qed.

(** X15.  Resolver and evaluator together: for the contracts the futures
    resolver returns, every opportunity of the cash-futures evaluator has
    positive days to expiry, so its annualised premium is the premium
    percentage per day times 365 and its score is the premium percentage
    times days over 30 (neither falls back to 0); the score is negative
    exactly when the future trades below cash; and, with the same override
    table, the opportunity's lot size is the contract's. *)
Theorem resolved_contracts_give_timed_opportunities
        (LOT_SIZE_MAP : Py.dict Z) (sort_values_expiry : list FutRow.t -> list FutRow.t)
        (instruments : option (list FutRow.t)) (current_date : Datetime.datetime)
        (contract_symbols : list string)
        (kite_quote : list string -> option (Py.dict Quote.t))
        (stock_symbols : list string) (o : Opportunity.t) :
  let futures_data :=
    get_futures_contracts LOT_SIZE_MAP sort_values_expiry instruments current_date
                          contract_symbols in
  In o (calculate_cash_futures_opportunities LOT_SIZE_MAP kite_quote stock_symbols
                                             futures_data) ->
  0 < Opportunity.days_to_expiry o /\
  Opportunity.annualized_premium o
  = ((Opportunity.premium_pct o / inject_Z (Opportunity.days_to_expiry o)) * 365)%Q /\
  Opportunity.opportunity_score o
  = (Opportunity.premium_pct o * (inject_Z (Opportunity.days_to_expiry o) / 30))%Q /\
  ((0 <= Opportunity.opportunity_score o)%Q <->
   (Opportunity.cash_price o <= Opportunity.futures_price o)%Q) /\
  exists fut_data,
    Py.get (Opportunity.symbol o) futures_data = Some fut_data /\
    Opportunity.lot_size o = Futures.lot_size fut_data.
Proof.
  intros futures_data Hin.
  apply in_calculate_cash_futures_opportunities in Hin as (quotes & stock & Hq & Hin & Ho).
  apply opportunity_of_fields in Ho
    as (fut & cq & fq & Gf & Gc & Gq & Hsym & Hcp & Hfp & Pc & Pf & Hprem & Hpct & Hprofit
        & Hdays & Hann & Hscore & Hlot & _).
  subst stock.
  pose proof (get_futures_contracts_rows LOT_SIZE_MAP sort_values_expiry instruments
                current_date contract_symbols) as Hrows.
  rewrite Forall_forall in Hrows.
  destruct (Hrows _ (get_in _ _ _ Gf)) as (row & Hrow). cbn [fst snd] in Hrow.
  pose proof (futures_of_row_lot_size _ _ _ _ _ Hrow) as Hfl.
  apply futures_of_row_fields in Hrow as (_ & _ & _ & Hpos & _).
  rewrite <- Hdays in Hpos.
  assert (Hb : (0 <? Opportunity.days_to_expiry o) = true) by now apply Z.ltb_lt.
  rewrite Hb in Hann, Hscore.
  split; [exact Hpos|]. split; [exact Hann|]. split; [exact Hscore|].
  split.
  - rewrite Hscore, Hpct, Hprem.
    assert (Hd : (0 < inject_Z (Opportunity.days_to_expiry o))%Q)
      by (unfold Qlt; cbn; lia).
    assert (E : ((Opportunity.futures_price o - Opportunity.cash_price o)
                 / Opportunity.cash_price o * 100
                 * (inject_Z (Opportunity.days_to_expiry o) / 30)
                 == (Opportunity.futures_price o - Opportunity.cash_price o)
                    * (100 / Opportunity.cash_price o
                       * (inject_Z (Opportunity.days_to_expiry o) / 30)))%Q)
      by (field; intros Z; rewrite Z in Pc; now apply Qlt_irrefl in Pc).
    rewrite E, Qmult_pos_sign.
    + apply Qminus_nonneg.
    + apply Qmult_lt_0_compat.
      * apply Qlt_shift_div_l; [exact Pc|]. now rewrite Qmult_0_l.
      * apply Qlt_shift_div_l; [reflexivity|]. now rewrite Qmult_0_l.
  - exists fut. split; [exact Gf|].
    rewrite Hlot, Hfl.
    destruct (Py.get (Py.upper (Opportunity.symbol o)) LOT_SIZE_MAP); cbn [get_default]; lia.
Qed.

(** The demonstration dump and quotes: 21 days to the expiry of the first
    contract, 54 to that of the second, whose future trades below cash. *)
Lemma resolved_contracts_give_timed_opportunities_witness :
  Forall (fun o => 0 < Opportunity.days_to_expiry o)
         (calculate_cash_futures_opportunities
            demo_lot_sizes Demo.quote_answer ["QUX"; "ZED"]
            (get_futures_contracts demo_lot_sizes by_expiry_text (Some demo_instruments)
                                   demo_now ["ZED"; "QUX"])).
Proof.
  apply Forall_forall. intros o Hin.
  exact (proj1 (resolved_contracts_give_timed_opportunities
                  demo_lot_sizes by_expiry_text (Some demo_instruments) demo_now
                  ["ZED"; "QUX"] Demo.quote_answer ["QUX"; "ZED"] o Hin)).
Defined.

Lemma shown_lot_size_of_returned (LOT_SIZE_MAP : Py.dict Z) (o : Opportunity.t)
      (contract_lot_size : Z) :
  Opportunity.lot_size o
  = Z.max 1 (get_default contract_lot_size
                         (Py.get (Py.upper (Opportunity.symbol o)) LOT_SIZE_MAP)) ->
  Main.shown_lot_size LOT_SIZE_MAP o = Opportunity.lot_size o.
Proof.
  intros H. unfold Main.shown_lot_size. cbv zeta.
  destruct (Py.get (Py.upper (Opportunity.symbol o)) LOT_SIZE_MAP) as [v|];
    cbn [get_default] in H.
  - destruct (Z.eqb_spec (Opportunity.lot_size o) 0) as [E0|N0]; [lia|].
    destruct (Z.eqb_spec v 0) as [V0|V0].
    + destruct (Z.ltb_spec (Opportunity.lot_size o) 1); lia.
    + destruct (Z.ltb_spec v 1); lia.
  - destruct (Z.eqb_spec (Opportunity.lot_size o) 0) as [E0|N0]; [lia|].
    destruct (Z.ltb_spec (Opportunity.lot_size o) 1); lia.
Qed.

(** X16.  Evaluator, dashboard and orchestrator together: for an
    opportunity the cash-futures evaluator returned and a number of lots of
    at least 1, the two orders the orchestrator submits - buy the stock on
    NSE, sell the contract on NFO under its API symbol - both carry the
    total quantity the dashboard displays for the pair, namely the number of
    lots times the lot size of the opportunity. *)
Theorem displayed_quantity_is_ordered
        {G : Type} (kite : Kite.gateway G) (LOT_SIZE_MAP : Py.dict Z)
        (kite_quote : list string -> option (Py.dict Quote.t))
        (stock_symbols : list string) (futures_data : Py.dict Futures.t)
        (o : Opportunity.t) (num_lots : Z) (cash_product futures_product : string)
        (w : Kite.world G) :
  In o (calculate_cash_futures_opportunities LOT_SIZE_MAP kite_quote stock_symbols
                                             futures_data) ->
  1 <= num_lots ->
  let run := place_cash_futures_orders kite LOT_SIZE_MAP (order_view o) (Py.PyInt num_lots)
                                       cash_product futures_product w in
  Main.actual_qty LOT_SIZE_MAP o num_lots = num_lots * Opportunity.lot_size o /\
  exists buy sell,
    Kite.calls (snd run) = Kite.calls w ++ [Kite.PlaceOrder buy; Kite.PlaceOrder sell] /\
    Kite.quantity buy = Main.actual_qty LOT_SIZE_MAP o num_lots /\
    Kite.quantity sell = Main.actual_qty LOT_SIZE_MAP o num_lots /\
    Kite.transaction_type buy = "BUY" /\ Kite.exchange buy = "NSE" /\
    Kite.tradingsymbol buy = Some (Opportunity.symbol o) /\
    Kite.transaction_type sell = "SELL" /\ Kite.exchange sell = "NFO" /\
    (Opportunity.futures_symbol_api o <> "" ->
     Kite.tradingsymbol sell = Some (Opportunity.futures_symbol_api o)) /\
    map Leg.quantity (fst run)
    = [Main.actual_qty LOT_SIZE_MAP o num_lots; Main.actual_qty LOT_SIZE_MAP o num_lots].
Proof.
  intros Hin Hlots run.
  apply in_calculate_cash_futures_opportunities in Hin as (quotes & stock & Hq & Hin & Ho).
  apply opportunity_of_fields in Ho
    as (fut & _ & _ & _ & _ & _ & Hsym & _ & _ & _ & _ & _ & _ & _ & _ & _ & _ & Hlot & _).
  subst stock.
  assert (Hshown := shown_lot_size_of_returned LOT_SIZE_MAP o _ Hlot).
  assert (Hone : 1 <= Opportunity.lot_size o) by (rewrite Hlot; lia).
  assert (Hqty : lot_size_of LOT_SIZE_MAP (order_view o) * lots_int_of (Py.PyInt num_lots)
                 = Main.actual_qty LOT_SIZE_MAP o num_lots).
  { unfold Main.actual_qty. rewrite Hshown, lot_size_of_max, lots_int_of_int.
    unfold order_view. cbn [OrderManager.Opportunity.lot_size].
    unfold Py.por at 1. cbn [Py.truthy].
    destruct (Z.eqb_spec (Opportunity.lot_size o) 0) as [E0|N0]; [lia|].
    cbn [negb]. unfold int_or_one. cbn [Py.int]. rewrite !Z.max_r by lia. ring. }
  split; [unfold Main.actual_qty; now rewrite Hshown|].
  destruct (place_cash_futures_orders_run kite LOT_SIZE_MAP (order_view o) (Py.PyInt num_lots)
              cash_product futures_product w) as (r1 & r2 & g & E).
  subst run. rewrite E. cbn [fst snd Kite.calls map Leg.quantity].
  eexists _, _. split; [reflexivity|].
  cbn [Kite.quantity Kite.transaction_type Kite.exchange Kite.tradingsymbol].
  rewrite Hqty. repeat (split; [reflexivity|]). split; [|reflexivity].
  intros Hne. unfold order_view, string_or.
  cbn [OrderManager.Opportunity.futures_symbol_api OrderManager.Opportunity.futures_symbol].
  destruct (Opportunity.futures_symbol_api o); [congruence|reflexivity].
Qed.

(** Three lots of the first demonstration opportunity, whose lot size
    is 1. *)
Lemma displayed_quantity_is_ordered_witness :
  Forall (fun o =>
            map Leg.quantity
                (fst (place_cash_futures_orders first_only demo_lot_sizes (order_view o)
                                                (Py.PyInt 3) "CNC" "NRML" fresh))
            = [Main.actual_qty demo_lot_sizes o 3; Main.actual_qty demo_lot_sizes o 3])
         (calculate_cash_futures_opportunities demo_lot_sizes Demo.quote_answer
                                               ["QUX"; "ZED"] Demo.contracts).
Proof.
  apply Forall_forall. intros o Hin.
  destruct (displayed_quantity_is_ordered
              first_only demo_lot_sizes Demo.quote_answer ["QUX"; "ZED"] Demo.contracts
              o 3 "CNC" "NRML" fresh Hin ltac:(lia))
    as (_ & buy & sell & _ & _ & _ & _ & _ & _ & _ & _ & _ & Hlegs).
  exact Hlegs.
Defined.

(** ** The feed of live prices *)

Import DataFetcher.

Lemma append_empty_r (s : string) : (s ++ "")%string = s.
Proof. induction s as [|c r IH]; simpl; [reflexivity|]. now rewrite IH. Qed.

Lemma append_inj_l (a x y : string) : (a ++ x)%string = (a ++ y)%string -> x = y.
Proof. induction a as [|c r IH]; cbn [String.append]; intros H; [exact H|]. apply IH. congruence. Qed.

Lemma split_at_first (sep : ascii) (s rest : string) :
  after_first sep s = Some rest ->
  s = (Py.split_head sep s ++ String sep rest)%string.
Proof.
  revert rest. induction s as [|c r IH]; intros rest; simpl; [discriminate|].
  destruct (Ascii.eqb_spec c sep) as [->|Hne].
  - intros H. now some_eq H.
  - intros H. simpl. now rewrite <- (IH rest H).
Qed.

Lemma count_after_first (sep : ascii) (s rest : string) :
  after_first sep s = Some rest ->
  Py.count (Ascii.eqb sep) s = 1 + Py.count (Ascii.eqb sep) rest.
Proof.
  revert rest. induction s as [|c r IH]; intros rest; simpl; [discriminate|].
  rewrite (Ascii.eqb_sym sep c).
  destruct (Ascii.eqb c sep).
  - intros H. now some_eq H.
  - intros H. now rewrite (IH rest H).
Qed.

Lemma count_nonneg (p : ascii -> bool) (s : string) : 0 <= Py.count p s.
Proof. induction s as [|c r IH]; simpl; [lia|]. destruct (p c); lia. Qed.

Lemma split_head_whole (sep : ascii) (s : string) :
  Py.count (Ascii.eqb sep) s = 0 -> Py.split_head sep s = s.
Proof.
  induction s as [|c r IH]; simpl; [reflexivity|].
  rewrite (Ascii.eqb_sym sep c). pose proof (count_nonneg (Ascii.eqb sep) r).
  destruct (Ascii.eqb c sep); [lia|]. intros H0. now rewrite IH by lia.
Qed.

Lemma after_first_some (sep : ascii) (s : string) :
  0 < Py.count (Ascii.eqb sep) s -> exists rest, after_first sep s = Some rest.
Proof.
  induction s as [|c r IH]; simpl; [lia|].
  rewrite (Ascii.eqb_sym sep c).
  destruct (Ascii.eqb c sep); [now exists r|]. intros H. apply IH. lia.
Qed.

Lemma after_first_none (sep : ascii) (s : string) :
  after_first sep s = None -> Py.count (Ascii.eqb sep) s = 0.
Proof.
  induction s as [|c r IH]; cbn [after_first Py.count]; [reflexivity|].
  rewrite (Ascii.eqb_sym sep c). destruct (Ascii.eqb c sep); [discriminate|].
  intros H. now rewrite IH.
Qed.

(** A key with one colon is the venue, the colon and the name. *)
Lemma one_colon_key (key : string) :
  one_colon key ->
  exists name,
    split_second ":" key = Some name /\
    key = (Py.split_head ":" key ++ ":" ++ name)%string.
Proof.
  unfold one_colon, split_second. intros H.
  destruct (after_first_some ":" key) as (rest & R); [lia|].
  rewrite R. cbn [option_map].
  pose proof (count_after_first _ _ _ R) as C.
  rewrite split_head_whole by lia.
  exists rest. split; [reflexivity|]. now apply split_at_first.
Qed.

Lemma entry_of_appended (key : string) (data : Quote.t) (row : LivePrice.t) :
  entry_of key data = Appended row ->
  Quote.last_price data = Some (LivePrice.last_price row) /\
  split_second ":" key = Some (LivePrice.symbol row) /\
  LivePrice.exchange row = Py.split_head ":" key /\
  LivePrice.volume row = get_default 0%Q (Quote.volume data) /\
  LivePrice.close row = get_default 0%Q (Quote.ohlc_get Ohlc.close data) /\
  ((0 < LivePrice.close row)%Q ->
   LivePrice.change row = (LivePrice.last_price row - LivePrice.close row)%Q /\
   LivePrice.change_pct row = ((LivePrice.change row / LivePrice.close row) * 100)%Q) /\
  (~ (0 < LivePrice.close row)%Q ->
   LivePrice.change row = get_default 0%Q (Quote.change data) /\
   LivePrice.change_pct row = get_default 0%Q (Quote.change_percent data)).
Proof.
  unfold entry_of.
  destruct (Quote.last_price data) as [last_price|]; [|discriminate]. cbv zeta.
  destruct (Py.Qltb 0 (get_default 0%Q (Quote.ohlc_get Ohlc.close data))) eqn:C;
    cbv beta iota zeta;
    (destruct (split_second ":" key) as [name|]; [|discriminate]);
    intros H; injection H as <-;
    cbn [LivePrice.last_price LivePrice.symbol LivePrice.exchange LivePrice.volume
         LivePrice.close LivePrice.change LivePrice.change_pct];
    repeat (split; [reflexivity|]).
  - apply Qltb_true in C. split; [auto|]. intros N. contradiction.
  - apply Qltb_false in C. split; [|auto].
    intros P. exfalso. now apply (Qle_not_lt _ _ C).
Qed.

Lemma entry_of_outcome (key : string) (data : Quote.t) :
  match entry_of key data with
  | Skipped => Quote.last_price data = None
  | Raised => Quote.last_price data <> None /\ after_first ":" key = None
  | Appended _ => True
  end.
Proof.
  unfold entry_of, split_second.
  destruct (Quote.last_price data); [|reflexivity]. cbv zeta.
  destruct (Py.Qltb 0 _); destruct (after_first ":" key); cbn [option_map];
    try exact I; split; congruence.
Qed.

Lemma formatted_rows_some (items : Py.dict Quote.t) (rows : list LivePrice.t) :
  formatted_rows items = Some rows ->
  forall row, In row rows <->
              exists key data, In (key, data) items /\ entry_of key data = Appended row.
Proof.
  revert rows. induction items as [|[key data] rest IH]; intros rows; cbn [formatted_rows].
  - intros H. some_eq H. intros row. split; [intros []|]. intros (? & ? & [] & _).
  - destruct (entry_of key data) as [|r|] eqn:E; [| |discriminate].
    + intros H row. rewrite (IH rows H). split.
      * intros (k & d & Hin & Hk). exists k, d. split; [now right|exact Hk].
      * intros (k & d & [Heq|Hin] & Hk); [congruence|]. exists k, d. auto.
    + destruct (formatted_rows rest) as [rows'|]; [|discriminate].
      intros H. some_eq H. intros row. cbn [In]. rewrite (IH rows' eq_refl). split.
      * intros [<-|(k & d & Hin & Hk)]; [exists key, data|exists k, d]; auto.
      * intros (k & d & [Heq|Hin] & Hk); [left; congruence|right; exists k, d; auto].
Qed.

Lemma formatted_rows_none (items : Py.dict Quote.t) :
  formatted_rows items = None ->
  exists key data, In (key, data) items /\
                   Quote.last_price data <> None /\ after_first ":" key = None.
Proof.
  induction items as [|[key data] rest IH]; cbn [formatted_rows]; [discriminate|].
  pose proof (entry_of_outcome key data) as O.
  destruct (entry_of key data) as [|r|].
  - intros H. destruct (IH H) as (k & d & Hin & Hk). exists k, d.
    split; [now right|exact Hk].
  - destruct (formatted_rows rest); [discriminate|]. intros _.
    destruct (IH eq_refl) as (k & d & Hin & Hk). exists k, d.
    split; [now right|exact Hk].
  - intros _. exists key, data. split; [now left|exact O].
Qed.

(** X17.  What the formatter of the live feed returns.  When it returns,
    the rows are ordered by the size of their percentage change, largest
    first, and each row is read from an entry of the feed that has a last
    price: the venue is the part of the key before the first colon and the
    name the part after it, up to a second colon; with a previous close
    above 0 the change is the last price minus the close and the percentage
    is the change over the close times 100, otherwise both are taken from
    the quote.  It fails, without returning anything, exactly because of an
    entry with a last price whose key holds no colon. *)
Theorem live_feed_rows (live_prices : Py.dict Quote.t) :
  match format_live_price_data live_prices with
  | Some rows =>
      StronglySorted
        (fun earlier later =>
           (Qabs (LivePrice.change_pct later) <= Qabs (LivePrice.change_pct earlier))%Q)
        rows /\
      (forall row,
          In row rows <->
          exists key data, In (key, data) live_prices /\ entry_of key data = Appended row) /\
      Forall (fun row =>
                exists key data tail,
                  In (key, data) live_prices /\
                  Quote.last_price data = Some (LivePrice.last_price row) /\
                  (key = LivePrice.exchange row ++ ":" ++ LivePrice.symbol row ++ tail)%string /\
                  (one_colon key -> tail = "") /\
                  ((0 < LivePrice.close row)%Q ->
                   LivePrice.change row = (LivePrice.last_price row - LivePrice.close row)%Q /\
                   LivePrice.change_pct row
                   = ((LivePrice.change row / LivePrice.close row) * 100)%Q))
             rows
  | None =>
      exists key data,
        In (key, data) live_prices /\
        Quote.last_price data <> None /\ Py.count (Ascii.eqb ":") key = 0
  end.
Proof.
  unfold format_live_price_data.
  destruct live_prices as [|item rest].
  { split; [constructor|]. split; [|constructor].
    intros row. split; [intros []|]. intros (? & ? & [] & _). }
  set (live := item :: rest). clearbody live.
  destruct (formatted_rows live) as [rows|] eqn:F; cbn [option_map].
  - pose proof (formatted_rows_some _ _ F) as Hin.
    split; [apply (sorted_by_reverse_descending (fun row => Qabs (LivePrice.change_pct row)))|].
    split.
    + intros row. rewrite in_sorted_by_reverse. apply Hin.
    + apply Forall_forall. intros row Hrow.
      apply in_sorted_by_reverse in Hrow. apply Hin in Hrow.
      destruct Hrow as (key & data & Hk & Hrow).
      apply entry_of_appended in Hrow
        as (Hprice & Hname & Hex & _ & _ & Hclose & _).
      unfold split_second in Hname.
      destruct (after_first ":" key) as [after|] eqn:A; [|discriminate].
      cbn [option_map] in Hname. some_eq Hname.
      pose proof (split_at_first _ _ _ A) as Hkey.
      destruct (after_first ":" after) as [tail|] eqn:T.
      * exists key, data, (String ":" tail).
        split; [exact Hk|]. split; [exact Hprice|].
        split; [rewrite Hex, <- E, <- (split_at_first _ _ _ T); exact Hkey|].
        split; [|exact Hclose].
        unfold one_colon. intros One.
        rewrite (count_after_first _ _ _ A), (count_after_first _ _ _ T) in One.
        pose proof (count_nonneg (Ascii.eqb ":") tail). lia.
      * exists key, data, "".
        split; [exact Hk|]. split; [exact Hprice|].
        assert (Hwhole : Py.split_head ":" after = after)
          by (apply split_head_whole; now apply after_first_none).
        split; [|split; [reflexivity|exact Hclose]].
        rewrite Hex, <- E, Hwhole, append_empty_r. exact Hkey.
  - destruct (formatted_rows_none _ F) as (key & data & Hk & Hprice & Hno).
    exists key, data. split; [exact Hk|]. split; [exact Hprice|].
    now apply after_first_none.
Qed.

Lemma pair_pct_nonneg (exchanges : Py.dict Stock.t) (p : Q) :
  pair_pct exchanges = Some p -> (0 <= p)%Q.
Proof.
  unfold pair_pct.
  destruct (Py.get "NSE" exchanges) as [n|]; [|discriminate].
  destruct (Py.get "BSE" exchanges) as [b|]; [|discriminate]. cbv zeta.
  destruct (Py.Qltb 0 (Stock.last_price n)) eqn:Pn; [|discriminate].
  destruct (Py.Qltb 0 (Stock.last_price b)) eqn:Pb; [|discriminate].
  cbn [andb]. intros H. some_eq H.
  apply Qltb_true in Pn, Pb.
  apply Qmult_le_0_compat; [|discriminate].
  apply Qmult_le_0_compat; [apply Qabs_nonneg|].
  apply Qinv_le_0_compat. unfold Py.min.
  destruct (Py.Qltb (Stock.last_price b) (Stock.last_price n)); now apply Qlt_le_weak.
Qed.

(** The last quote of a name at a venue, in a feed whose keys are distinct
    and hold one colon each: it is the quote filed under venue:name. *)
Lemma last_stock_of_feed (live_prices : Py.dict Quote.t) (rows : list LivePrice.t)
      (venue name : string) (data : Quote.t) (price : Q) :
  NoDup (map fst live_prices) ->
  (forall key, In key (map fst live_prices) -> one_colon key) ->
  formatted_rows live_prices = Some rows ->
  Py.count (Ascii.eqb ":") venue = 0 ->
  Py.get (venue ++ ":" ++ name)%string live_prices = Some data ->
  Quote.last_price data = Some price ->
  forall listed,
    Permutation (map as_stock rows) listed ->
    exists stock,
      last_stock name venue listed = Some stock /\ Stock.last_price stock = price.
Proof.
  intros ND One F Hvenue G Hprice listed Perm.
  pose proof (formatted_rows_some _ _ F) as Hrows.
  assert (Hsplit : forall key, one_colon key ->
                     forall nm, split_second ":" key = Some nm ->
                                key = (Py.split_head ":" key ++ ":" ++ nm)%string).
  { intros key Hk nm Hnm. destruct (one_colon_key key Hk) as (nm' & Hs & Hkey).
    rewrite Hs in Hnm. some_eq Hnm. exact Hkey. }
  assert (Hkey : one_colon (venue ++ ":" ++ name)%string)
    by (apply One; apply in_map_iff; exists (venue ++ ":" ++ name, data)%string;
        split; [reflexivity|now apply get_in]).
  assert (Hhead : Py.split_head ":" (venue ++ ":" ++ name)%string = venue).
  { clear - Hvenue. induction venue as [|c r IH]; [reflexivity|].
    cbn [String.append Py.split_head Py.count] in *.
    rewrite (Ascii.eqb_sym ":" c) in Hvenue.
    pose proof (count_nonneg (Ascii.eqb ":") r).
    destruct (Ascii.eqb c ":"); [lia|]. rewrite IH by lia. reflexivity. }
  (* the row of the entry itself *)
  assert (Hown : exists r, In r rows /\ LivePrice.symbol r = name /\
                           LivePrice.exchange r = venue).
  { destruct (one_colon_key _ Hkey) as (nm & Hs & Hk).
    pose proof (entry_of_outcome (venue ++ ":" ++ name)%string data) as O.
    destruct (entry_of (venue ++ ":" ++ name)%string data) as [|r|] eqn:E.
    - congruence.
    - exists r. split; [apply Hrows; exists (venue ++ ":" ++ name)%string, data;
                        split; [now apply get_in|exact E]|].
      apply entry_of_appended in E as (_ & Hname & Hex & _).
      rewrite Hhead in Hex. split; [|exact Hex].
      rewrite Hs in Hname. rewrite Hhead in Hk.
      apply append_inj_l in Hk. cbn [String.append] in Hk. congruence.
    - destruct O as (_ & O). unfold split_second in Hs. rewrite O in Hs. discriminate. }
  (* every listed stock of that name and venue carries the price *)
  assert (Hall : forall stock,
             In stock listed ->
             (String.eqb (Stock.symbol stock) name
              && String.eqb (Stock.exchange stock) venue)%bool = true ->
             Stock.last_price stock = price).
  { intros stock Hin Hp. apply andb_true_iff in Hp. destruct Hp as (Hs & He).
    apply String.eqb_eq in Hs, He.
    apply (Permutation_in _ (Permutation_sym Perm)) in Hin.
    apply in_map_iff in Hin as (r & <- & Hr).
    apply Hrows in Hr as (key & d & Hkd & E).
    apply entry_of_appended in E as (Hp & Hname & Hex & _).
    cbn [as_stock Stock.symbol Stock.exchange Stock.last_price] in *.
    assert (Hk : key = (venue ++ ":" ++ name)%string).
    { rewrite (Hsplit key (One key (in_map fst _ _ Hkd)) _ Hname).
      now rewrite <- Hex, He, Hs. }
    subst key. apply in_get in Hkd; [|exact ND].
    rewrite G in Hkd. some_eq Hkd. congruence. }
  unfold last_stock.
  destruct (find _ (rev listed)) as [stock|] eqn:Fd.
  - apply find_some in Fd. destruct Fd as (Hin & Hp).
    exists stock. split; [reflexivity|]. apply Hall; [now apply in_rev|exact Hp].
  - exfalso. destruct Hown as (r & Hr & Hs & He).
    assert (Hno := find_none _ _ Fd (as_stock r)).
    cbn [as_stock Stock.symbol Stock.exchange] in Hno.
    rewrite Hs, He, !String.eqb_refl in Hno.
    enough (true && true = false)%bool by discriminate.
    apply Hno. apply -> in_rev. apply (Permutation_in _ Perm). now apply in_map.
Qed.

(** X18.  Feed, formatter and evaluator together, as the dashboard chains
    them (threshold 0.0): if the keys of the feed are distinct and hold one
    colon each, a name quoted under NSE:name and under BSE:name with positive
    last prices has a row in the cross-venue table, and the row carries
    exactly those two last prices. *)
Theorem both_venue_quotes_reach_the_table
        (live_prices : Py.dict Quote.t) (name : string) (nse_quote bse_quote : Quote.t)
        (nse_price bse_price : Q) :
  NoDup (map fst live_prices) ->
  (forall key, In key (map fst live_prices) -> one_colon key) ->
  Py.get ("NSE:" ++ name)%string live_prices = Some nse_quote ->
  Py.get ("BSE:" ++ name)%string live_prices = Some bse_quote ->
  Quote.last_price nse_quote = Some nse_price ->
  Quote.last_price bse_quote = Some bse_price ->
  (0 < nse_price)%Q -> (0 < bse_price)%Q ->
  exists rows row,
    format_live_price_data live_prices = Some rows /\
    In row (calculate_arbitrage_opportunities (map as_stock rows) 0) /\
    Arbitrage.symbol row = name /\
    Arbitrage.nse_price row = nse_price /\
    Arbitrage.bse_price row = bse_price.
Proof.
  intros ND One Gn Gb Hn Hb Pn Pb.
  destruct (formatted_rows live_prices) as [unsorted|] eqn:F.
  2:{ exfalso. destruct (formatted_rows_none _ F) as (key & data & Hin & _ & Hno).
      apply after_first_none in Hno.
      pose proof (One key (in_map fst _ _ Hin)) as O. unfold one_colon in O. lia. }
  set (rows := Py.sorted_by_reverse Py.Qltb (fun row => Qabs (LivePrice.change_pct row))
                                    unsorted).
  assert (Hfmt : format_live_price_data live_prices = Some rows).
  { unfold format_live_price_data. rewrite F.
    destruct live_prices; [discriminate|reflexivity]. }
  assert (Perm : Permutation (map as_stock unsorted) (map as_stock rows))
    by (apply Permutation_map; apply sorted_by_reverse_perm).
  destruct (last_stock_of_feed live_prices unsorted "NSE" name nse_quote nse_price
              ND One F eq_refl Gn Hn _ Perm) as (n & Ln & Hpn).
  destruct (last_stock_of_feed live_prices unsorted "BSE" name bse_quote bse_price
              ND One F eq_refl Gb Hb _ Perm) as (b & Lb & Hpb).
  assert (Hpct : exists p, pair_pct (two_venues n b) = Some p).
  { unfold pair_pct, two_venues. cbn [Py.get String.eqb Ascii.eqb Bool.eqb].
    rewrite Hpn, Hpb.
    rewrite (proj2 (Qltb_true _ _) Pn), (proj2 (Qltb_true _ _) Pb). cbn [andb].
    eexists. reflexivity. }
  destruct Hpct as (p & Hp).
  destruct (arbitrage_row_kept 0 name (two_venues n b) p Hp) as (row & Hrow & Hsym & _).
  { apply Qltb_false. now apply pair_pct_nonneg in Hp. }
  exists rows, row. split; [exact Hfmt|].
  split; [now apply (last_quotes_give_row _ _ name n b)|].
  split; [exact Hsym|].
  apply arbitrage_row_fields in Hrow as (n' & b' & Hn' & Hb' & Hnp & Hbp & _).
  unfold two_venues in Hn', Hb'. cbn [Py.get String.eqb Ascii.eqb Bool.eqb] in Hn', Hb'.
  some_eq Hn'. some_eq Hb'. split; congruence.
Qed.

(** The demonstration feed: ACME quoted at 100 on NSE and 101 on BSE. *)
Lemma both_venue_quotes_reach_the_table_witness :
  exists rows row,
    format_live_price_data Demo.live_prices = Some rows /\
    In row (calculate_arbitrage_opportunities (map as_stock rows) 0) /\
    Arbitrage.symbol row = "ACME" /\
    Arbitrage.nse_price row = 100%Q /\
    Arbitrage.bse_price row = 101%Q.
Proof.
  refine (both_venue_quotes_reach_the_table Demo.live_prices "ACME" _ _ 100 101
            _ _ eq_refl eq_refl eq_refl eq_refl eq_refl eq_refl).
  - repeat constructor; cbn; intuition discriminate.
  - intros key [<-|[<-|[<-|[]]]]; reflexivity.
Defined.

(** ** The order queue *)

Import V3Queue V3Orders.

Lemma directions_known (direction value : string) :
  Py.get direction directions = Some value ->
  value = direction /\ (direction = "BUY" \/ direction = "SELL").
Proof.
  unfold directions. cbn [Py.get].
  destruct (String.eqb_spec direction "BUY") as [->|_];
    [intros H; some_eq H; split; [reflexivity|now left]|].
  destruct (String.eqb_spec direction "SELL") as [->|_];
    [intros H; some_eq H; split; [reflexivity|now right]|].
  discriminate.
Qed.

Lemma products_known (product value : string) :
  Py.get product products = Some value ->
  value = product /\ (product = "CNC" \/ product = "MIS" \/ product = "NRML").
Proof.
  unfold products. cbn [Py.get].
  destruct (String.eqb_spec product "CNC") as [->|_];
    [intros H; some_eq H; split; [reflexivity|auto]|].
  destruct (String.eqb_spec product "MIS") as [->|_];
    [intros H; some_eq H; split; [reflexivity|auto]|].
  destruct (String.eqb_spec product "NRML") as [->|_];
    [intros H; some_eq H; split; [reflexivity|auto]|].
  discriminate.
Qed.

Lemma exchanges_known (exchange value : string) :
  Py.get exchange exchanges = Some value -> value = exchange.
Proof.
  unfold exchanges. cbn [Py.get].
  destruct (String.eqb_spec exchange "NSE") as [->|_]; [intros H; now some_eq H|].
  destruct (String.eqb_spec exchange "NFO") as [->|_]; [intros H; now some_eq H|].
  destruct (String.eqb_spec exchange "CDS") as [->|_]; [intros H; now some_eq H|].
  discriminate.
Qed.

Lemma world_eta {G : Type} (w : world G) : mkworld (state w) (calls w ++ []) = w.
Proof. destruct w. cbn. now rewrite app_nil_r. Qed.

Lemma submit_run {G : Type} (kite : gateway G) (exchange symbol direction : string)
      (quantity : Z) (product : option string) (best_price : Q) (w : world G) :
  exists result g placed,
    submit kite exchange symbol direction quantity product best_price w
    = (result, mkworld g (calls w ++ map PlaceOrder placed)) /\
    ((placed = [] /\ g = state w /\ result = (None, None)) \/
     (exists p answer,
         product = Some p /\
         (p = "CNC" \/ p = "MIS" \/ p = "NRML") /\
         (direction = "BUY" \/ direction = "SELL") /\
         Py.get exchange exchanges = Some exchange /\
         placed = [queue_order exchange symbol direction quantity p best_price] /\
         answer_place kite (state w)
                      (queue_order exchange symbol direction quantity p best_price)
         = (answer, g) /\
         result = match answer with
                  | inl order_id => (Some order_id, Some best_price)
                  | inr _ => (None, None)
                  end)).
Proof.
  unfold submit.
  destruct (Py.get exchange exchanges) as [e|] eqn:E.
  2:{ exists (None, None), (state w), []. cbn [map]. rewrite world_eta. split; [reflexivity|].
      left. auto. }
  destruct (Py.get direction directions) as [d|] eqn:D.
  2:{ exists (None, None), (state w), []. cbn [map]. rewrite world_eta. split; [reflexivity|].
      left. auto. }
  destruct product as [p0|].
  2:{ exists (None, None), (state w), []. cbn [map]. rewrite world_eta. split; [reflexivity|].
      left. auto. }
  destruct (Py.get p0 products) as [p|] eqn:P.
  2:{ exists (None, None), (state w), []. cbn [map]. rewrite world_eta. split; [reflexivity|].
      left. auto. }
  apply exchanges_known in E as He. apply directions_known in D. apply products_known in P.
  destruct D as (-> & Hd). destruct P as (-> & Hp). subst e.
  unfold bind, place_order.
  change {| request := _; validity := VALIDITY_DAY |}
    with (queue_order exchange symbol direction quantity p0 best_price).
  destruct (answer_place kite (state w)
                         (queue_order exchange symbol direction quantity p0 best_price))
    as [answer g] eqn:A.
  exists (match answer with
          | inl order_id => (Some order_id, Some best_price)
          | inr _ => (None, None)
          end), g, [queue_order exchange symbol direction quantity p0 best_price].
  split; [destruct answer; reflexivity|].
  right. exists p0, answer. auto 10.
Qed.

Lemma detected_exchange (symbol : string) :
  Py.get (V3WorkingTest.place_order_with_kite_exchange symbol) exchanges
  = Some (V3WorkingTest.place_order_with_kite_exchange symbol) /\
  (V3WorkingTest.place_order_with_kite_exchange symbol = "NSE" \/
   V3WorkingTest.place_order_with_kite_exchange symbol = "NFO" \/
   V3WorkingTest.place_order_with_kite_exchange symbol = "CDS").
Proof.
  unfold V3WorkingTest.place_order_with_kite_exchange.
  destruct (2 <=? _); [destruct (existsb _ _)|]; split; auto.
Qed.

Lemma place_order_with_kite_run {G : Type} (kite : gateway G) (symbol direction : string)
      (quantity : Z) (product : option string) (limit_price : option Q) (w : world G) :
  let exchange := V3WorkingTest.place_order_with_kite_exchange symbol in
  let quote_symbol := (exchange ++ ":" ++ symbol)%string in
  exists result g placed,
    place_order_with_kite kite symbol direction quantity product limit_price w
    = (result,
       mkworld g (calls w
                  ++ map Quote (match limit_price with Some _ => [] | None => [quote_symbol] end)
                  ++ map PlaceOrder placed)) /\
    ((placed = [] /\ result = (None, None)) \/
     (exists p price,
         product_or_default exchange product = Some p /\
         (p = "CNC" \/ p = "MIS" \/ p = "NRML") /\
         (direction = "BUY" \/ direction = "SELL") /\
         placed = [queue_order exchange symbol direction quantity p price] /\
         (limit_price = Some price \/
          (limit_price = None /\
           exists quotes g1,
             answer_quote kite (state w) quote_symbol = (Some quotes, g1) /\
             best_price_of direction quote_symbol quotes = Some price /\
             exists answer,
               answer_place kite g1 (queue_order exchange symbol direction quantity p price)
               = (answer, g) /\
               result = match answer with
                        | inl order_id => (Some order_id, Some price)
                        | inr _ => (None, None)
                        end)) /\
         (result = (None, None) \/ exists order_id, result = (Some order_id, Some price)))).
Proof.
  intros exchange quote_symbol. unfold place_order_with_kite. fold exchange. cbv zeta.
  fold quote_symbol.
  destruct limit_price as [price|].
  - destruct (submit_run kite exchange symbol direction quantity
                (product_or_default exchange product) price w)
      as (result & g & placed & E & [(-> & _ & ->)|(p & answer & Hp & Hpk & Hd & _ & -> & A & ->)]).
    + exists (None, None), g, []. split; [exact E|]. left. auto.
    + eexists _, g, _. split; [exact E|]. right. exists p, price.
      repeat (split; [assumption || reflexivity|]).
      split; [now left|].
      destruct answer as [order_id|err]; [right; now exists order_id|now left].
  - unfold bind at 1. unfold quote.
    destruct (answer_quote kite (state w) quote_symbol) as [[quotes|] g1] eqn:Q.
    2:{ exists (None, None), g1, []. cbn [map ret]. rewrite app_nil_r. split; [reflexivity|].
        left. auto. }
    destruct (best_price_of direction quote_symbol quotes) as [price|] eqn:B.
    2:{ exists (None, None), g1, []. cbn [map ret]. rewrite app_nil_r. split; [reflexivity|].
        left. auto. }
    destruct (submit_run kite exchange symbol direction quantity
                (product_or_default exchange product) price
                (mkworld g1 (calls w ++ [Quote quote_symbol])))
      as (result & g & placed & E & [(-> & Hg & ->)|(p & answer & Hp & Hpk & Hd & _ & -> & A & ->)]).
    + exists (None, None), g, []. cbn [calls] in E. rewrite E.
      rewrite <- app_assoc. split; [reflexivity|]. left. auto.
    + cbn [calls state] in E, A. rewrite E. rewrite <- app_assoc.
      eexists _, g, [queue_order exchange symbol direction quantity p price].
      split; [reflexivity|]. right. exists p, price.
      repeat (split; [assumption || reflexivity|]).
      split.
      * right. split; [reflexivity|]. exists quotes, g1.
        split; [reflexivity|]. split; [exact B|]. exists answer. auto.
      * destruct answer as [order_id|err]; [right; now exists order_id|now left].
Qed.

(** X19.  The queue processor never sends an order without a price, and
    never more than one per instruction.  Without a limit price it asks for
    the quote of venue:symbol first, and when that call fails, the quote is
    missing or the side of the book it needs is empty, it sends nothing and
    returns no order id.  Whatever it sends is a regular limit order valid
    for the day, for the given symbol and quantity on the venue detected from
    the symbol, with a direction that is BUY or SELL and one of the three
    known products; an unknown direction or product sends nothing.  An order
    id is returned only together with the price of the order sent. *)
Theorem queue_sends_only_priced_limit_orders
        {G : Type} (kite : gateway G) (symbol direction : string) (quantity : Z)
        (product : option string) (limit_price : option Q) (w : world G) :
  let exchange := V3WorkingTest.place_order_with_kite_exchange symbol in
  let quote_symbol := (exchange ++ ":" ++ symbol)%string in
  let run := place_order_with_kite kite symbol direction quantity product limit_price w in
  exists placed,
    calls (snd run)
    = calls w
      ++ map Quote (match limit_price with Some _ => [] | None => [quote_symbol] end)
      ++ map PlaceOrder placed /\
    (List.length placed <= 1)%nat /\
    (forall o, In o placed ->
               exists p price,
                 o = queue_order exchange symbol direction quantity p price /\
                 product_or_default exchange product = Some p /\
                 (p = "CNC" \/ p = "MIS" \/ p = "NRML") /\
                 (direction = "BUY" \/ direction = "SELL") /\
                 (limit_price = Some price \/
                  (limit_price = None /\
                   exists quotes g1,
                     answer_quote kite (state w) quote_symbol = (Some quotes, g1) /\
                     best_price_of direction quote_symbol quotes = Some price)) /\
                 (fst run = (None, None) \/
                  exists order_id, fst run = (Some order_id, Some price))) /\
    (placed = [] -> fst run = (None, None)).
Proof.
  intros exchange quote_symbol run. subst run.
  destruct (place_order_with_kite_run kite symbol direction quantity product limit_price w)
    as (result & g & placed & E & Hcases).
  fold exchange in E, Hcases. fold quote_symbol in E, Hcases.
  rewrite E. cbn [fst snd calls]. exists placed. split; [reflexivity|].
  destruct Hcases as [(-> & ->)|(p & price & Hp & Hpk & Hd & -> & Hprice & Hres)].
  - split; [cbn; lia|]. split; [intros o []|]. reflexivity.
  - split; [cbn; lia|]. split; [|discriminate].
    intros o [<-|[]]. exists p, price. split; [reflexivity|].
    repeat (split; [assumption|]). split; [|exact Hres].
    destruct Hprice as [Hl|(Hl & quotes & g1 & Hq & Hb & _)]; [now left|].
    right. split; [exact Hl|]. exists quotes, g1. auto.
Qed.

(** X20.  With no limit price and no product given, a BUY or SELL
    instruction whose quote arrives with both sides of the book is sent as
    one order right after the quote: a BUY at the best bid, a SELL at the
    best ask, as a delivery order (CNC) on the cash venue and a carry-forward
    order (NRML) on the derivatives venues; the result is the gateway's
    order id with that price, or nothing when the gateway refuses. *)
Theorem queue_buys_at_bid_sells_at_ask
        {G : Type} (kite : gateway G) (symbol direction : string) (quantity : Z)
        (w : world G) (quotes : Py.dict Depth.t) (g1 : G) (depth : Depth.t)
        (bid ask : Q) (bids asks : list Q) :
  let exchange := V3WorkingTest.place_order_with_kite_exchange symbol in
  let quote_symbol := (exchange ++ ":" ++ symbol)%string in
  direction = "BUY" \/ direction = "SELL" ->
  answer_quote kite (state w) quote_symbol = (Some quotes, g1) ->
  Py.get quote_symbol quotes = Some depth ->
  Depth.buy depth = bid :: bids ->
  Depth.sell depth = ask :: asks ->
  let price := if String.eqb direction "BUY" then bid else ask in
  let product := if String.eqb exchange "NSE" then "CNC" else "NRML" in
  let o := queue_order exchange symbol direction quantity product price in
  let run := place_order_with_kite kite symbol direction quantity None None w in
  calls (snd run) = calls w ++ [Quote quote_symbol; PlaceOrder o] /\
  fst run = match fst (answer_place kite g1 o) with
            | inl order_id => (Some order_id, Some price)
            | inr _ => (None, None)
            end.
Proof.
  intros exchange quote_symbol Hd Hq Hdepth Hbuy Hsell price product o run.
  assert (Hbest : best_price_of direction quote_symbol quotes = Some price).
  { unfold best_price_of. rewrite Hdepth. subst price.
    destruct (String.eqb direction "BUY"); [now rewrite Hbuy|now rewrite Hsell]. }
  assert (Hprod : product_or_default exchange None = Some product /\
                  Py.get product products = Some product /\
                  Py.get exchange exchanges = Some exchange).
  { subst product. unfold product_or_default.
    destruct (detected_exchange symbol) as (He & [Hx|[Hx|Hx]]); fold exchange in He, Hx;
      rewrite Hx; repeat split. }
  destruct Hprod as (Hp & Hpv & Hev).
  assert (Hdir : Py.get direction directions = Some direction)
    by (destruct Hd as [->| ->]; reflexivity).
  assert (Hrun : run
                 = (match fst (answer_place kite g1 o) with
                    | inl order_id => (Some order_id, Some price)
                    | inr _ => (None, None)
                    end,
                    mkworld (snd (answer_place kite g1 o))
                            (calls w ++ [Quote quote_symbol; PlaceOrder o]))).
  { subst run. unfold place_order_with_kite. fold exchange. cbv zeta. fold quote_symbol.
    unfold bind at 1. unfold quote. rewrite Hq, Hbest.
    unfold submit. rewrite Hp, Hev, Hdir, Hpv. cbv beta iota.
    unfold bind, place_order. cbn [state calls].
    set (sent := {| request := _; validity := _ |}).
    assert (Hsent : sent = o) by reflexivity. clearbody sent. subst sent.
    destruct (answer_place kite g1 o) as [[order_id|err] g2]; cbn [fst snd ret];
      rewrite <- app_assoc; reflexivity. }
  rewrite Hrun. split; reflexivity.
Qed.

(** The demonstration gateway quotes 99.5 bid and 100.5 ask. *)
Lemma queue_buys_at_bid_sells_at_ask_witness :
  calls (snd (place_order_with_kite Demo.desk "ACME" "BUY" 5 None None Demo.idle))
  = [Quote "NSE:ACME"; PlaceOrder (queue_order "NSE" "ACME" "BUY" 5 "CNC" 99.5)] /\
  calls (snd (place_order_with_kite Demo.desk "ACME25NOVFUT" "SELL" 5 None None Demo.idle))
  = [Quote "NFO:ACME25NOVFUT";
     PlaceOrder (queue_order "NFO" "ACME25NOVFUT" "SELL" 5 "NRML" 100.5)].
Proof.
  split.
  - exact (proj1 (queue_buys_at_bid_sells_at_ask
                    Demo.desk "ACME" "BUY" 5 Demo.idle _ tt
                    (Depth.mk [99.5%Q; 99%Q] [100.5%Q; 101%Q]) 99.5 100.5 [99%Q] [101%Q]
                    (or_introl eq_refl) eq_refl eq_refl eq_refl eq_refl)).
  - exact (proj1 (queue_buys_at_bid_sells_at_ask
                    Demo.desk "ACME25NOVFUT" "SELL" 5 Demo.idle _ tt
                    (Depth.mk [99.5%Q; 99%Q] [100.5%Q; 101%Q]) 99.5 100.5 [99%Q] [101%Q]
                    (or_intror eq_refl) eq_refl eq_refl eq_refl eq_refl)).
Defined.

Lemma subsequence_refl {A : Type} (l : list A) : subsequence l l.
Proof. induction l; constructor; assumption. Qed.

Lemma subsequence_app {A : Type} (a a' b b' : list A) :
  subsequence a a' -> subsequence b b' -> subsequence (a ++ b) (a' ++ b').
Proof.
  induction 1; cbn [app]; intros Hb;
    [exact Hb|apply subsequence_skip; auto|apply subsequence_keep; auto].
Qed.

Lemma subsequence_length {A : Type} (sub l : list A) :
  subsequence sub l -> (List.length sub <= List.length l)%nat.
Proof. induction 1; cbn [List.length]; lia. Qed.

Lemma subsequence_in {A : Type} (sub l : list A) (x : A) :
  subsequence sub l -> In x sub -> In x l.
Proof.
  induction 1; cbn [In]; intros Hx; [contradiction|right; auto|].
  destruct Hx; [now left|right; auto].
Qed.

Lemma log_of_one_order (asked : list string) (placed : list order) :
  quotes_in (map Quote asked ++ map PlaceOrder placed) = asked /\
  orders_in (map Quote asked ++ map PlaceOrder placed) = placed /\
  histories_in (map Quote asked ++ map PlaceOrder placed) = [] /\
  batches_in (map Quote asked ++ map PlaceOrder placed) = [].
Proof.
  unfold quotes_in, orders_in, histories_in, batches_in. rewrite !flat_map_app.
  repeat split.
  - induction asked as [|s r IH]; cbn [map flat_map app]; [|f_equal; exact IH].
    induction placed as [|o r IH]; [reflexivity|exact IH].
  - induction asked as [|s r IH]; cbn [map flat_map app]; [|exact IH].
    induction placed as [|o r IH]; cbn [map flat_map app]; [reflexivity|f_equal; exact IH].
  - induction asked as [|s r IH]; cbn [map flat_map app]; [|exact IH].
    induction placed as [|o r IH]; [reflexivity|exact IH].
  - induction asked as [|s r IH]; cbn [map flat_map app]; [|exact IH].
    induction placed as [|o r IH]; [reflexivity|exact IH].
Qed.

Lemma log_app (a b : list call) :
  quotes_in (a ++ b) = quotes_in a ++ quotes_in b /\
  orders_in (a ++ b) = orders_in a ++ orders_in b /\
  histories_in (a ++ b) = histories_in a ++ histories_in b /\
  batches_in (a ++ b) = batches_in a ++ batches_in b.
Proof. repeat split; apply flat_map_app. Qed.

(** The loop of Step 1, on any rows, from any state. *)
Lemma place_rows_run {G : Type} (kite : gateway G) (int_of_float : string -> option Z)
      (rows : list (list string)) :
  forall (idx : Z) (acc : placement) (w : world G),
  exists done g new_calls new_updates,
    place_rows kite int_of_float idx rows acc w = (done, mkworld g (calls w ++ new_calls)) /\
    quotes_in new_calls = map quote_symbol_of (pending_rows int_of_float rows) /\
    subsequence (map instruction_of (orders_in new_calls))
                (map instruction (pending_rows int_of_float rows)) /\
    Forall (fun o => validity o = "DAY" /\ Kite.order_type (request o) = "LIMIT" /\
                     Kite.price (request o) <> None)
           (orders_in new_calls) /\
    histories_in new_calls = [] /\
    batches_in new_calls = [] /\
    placements_updates done = placements_updates acc ++ new_updates /\
    placed_count done = placed_count acc + Z.of_nat (List.length new_updates) /\
    (List.length new_updates <= List.length (orders_in new_calls))%nat /\
    skipped_count done
    = skipped_count acc + Z.of_nat (List.length (filter marked rows)) /\
    invalid_count done
    = invalid_count acc + Z.of_nat (List.length (filter incomplete rows)) /\
    Forall (fun u =>
              exists row_num timestamp price order_id,
                idx < row_num <= idx + Z.of_nat (List.length rows) /\
                range u = row_range "D" "G" row_num /\
                values u = [Py.PyStr "Order_Placed"; Py.PyStr timestamp; Py.PyFloat price;
                            Py.PyStr order_id] /\
                order_id <> "" /\
                exists o, In o (orders_in new_calls) /\ Kite.price (request o) = Some price)
           new_updates.
Proof.
  induction rows as [|row rest IH]; intros idx acc w.
  - exists acc, (state w), [], []. cbn [place_rows ret]. rewrite world_eta, app_nil_r.
    cbn. repeat split; try constructor; lia.
  - cbn [place_rows]. unfold pending_rows. cbn [flat_map filter]. fold (pending_rows int_of_float rest).
    unfold pending at 1 2, marked at 1, incomplete at 1 2. cbv zeta.
    set (symbol := Py.strip (cell row 0)).
    set (direction := Py.upper (Py.strip (cell row 1))).
    set (quantity_str := Py.strip (cell row 2)).
    set (action_status := Py.upper (Py.strip (cell row 3))).
    destruct (Py.nonempty symbol); cbn [negb orb andb].
    2:{ destruct (IH (idx + 1)
                    (mkplacement (placements_updates acc) (placed_count acc) (skipped_count acc)
                                 (invalid_count acc + 1)) w)
          as (done & g & new_calls & new_updates & E & Hq & Ho & Hv & Hh & Hb & Hu & Hp & Hl
              & Hs & Hi & Hr).
        exists done, g, new_calls, new_updates. cbn [placements_updates placed_count
          skipped_count invalid_count] in *. cbn [List.length app map].
        repeat (split; [assumption || lia|]).
        eapply Forall_impl; [|exact Hr].
        intros u (n & ts & pr & id & Hn & Hrest). exists n, ts, pr, id. split; [lia|exact Hrest]. }
    destruct (Py.nonempty direction); cbn [negb orb andb].
    2:{ destruct (IH (idx + 1)
                    (mkplacement (placements_updates acc) (placed_count acc) (skipped_count acc)
                                 (invalid_count acc + 1)) w)
          as (done & g & new_calls & new_updates & E & Hq & Ho & Hv & Hh & Hb & Hu & Hp & Hl
              & Hs & Hi & Hr).
        exists done, g, new_calls, new_updates. cbn [placements_updates placed_count
          skipped_count invalid_count] in *. cbn [List.length app map].
        repeat (split; [assumption || lia|]).
        eapply Forall_impl; [|exact Hr].
        intros u (n & ts & pr & id & Hn & Hrest). exists n, ts, pr, id. split; [lia|exact Hrest]. }
    destruct (Py.nonempty quantity_str); cbn [negb orb andb].
    2:{ destruct (IH (idx + 1)
                    (mkplacement (placements_updates acc) (placed_count acc) (skipped_count acc)
                                 (invalid_count acc + 1)) w)
          as (done & g & new_calls & new_updates & E & Hq & Ho & Hv & Hh & Hb & Hu & Hp & Hl
              & Hs & Hi & Hr).
        exists done, g, new_calls, new_updates. cbn [placements_updates placed_count
          skipped_count invalid_count] in *. cbn [List.length app map].
        repeat (split; [assumption || lia|]).
        eapply Forall_impl; [|exact Hr].
        intros u (n & ts & pr & id & Hn & Hrest). exists n, ts, pr, id. split; [lia|exact Hrest]. }
    destruct (String.eqb action_status "ORDER_PLACED"); cbn [negb orb andb].
    { destruct (IH (idx + 1)
                  (mkplacement (placements_updates acc) (placed_count acc) (skipped_count acc + 1)
                               (invalid_count acc)) w)
        as (done & g & new_calls & new_updates & E & Hq & Ho & Hv & Hh & Hb & Hu & Hp & Hl
            & Hs & Hi & Hr).
      exists done, g, new_calls, new_updates. cbn [placements_updates placed_count
        skipped_count invalid_count] in *. cbn [List.length app map].
      repeat (split; [assumption || lia|]).
      eapply Forall_impl; [|exact Hr].
      intros u (n & ts & pr & id & Hn & Hrest). exists n, ts, pr, id. split; [lia|exact Hrest]. }
    destruct (int_of_float quantity_str) as [quantity|]; cbn [option_map].
    2:{ destruct (IH (idx + 1) acc w)
          as (done & g & new_calls & new_updates & E & Hq & Ho & Hv & Hh & Hb & Hu & Hp & Hl
              & Hs & Hi & Hr).
        exists done, g, new_calls, new_updates. cbn [List.length app map].
        repeat (split; [assumption || lia|]).
        eapply Forall_impl; [|exact Hr].
        intros u (n & ts & pr & id & Hn & Hrest). exists n, ts, pr, id. split; [lia|exact Hrest]. }
    (* a pending row: the quote, perhaps an order, perhaps an update *)
    unfold bind at 1.
    destruct (place_order_with_kite_run kite symbol direction quantity None None w)
      as (result & g1 & placed & E1 & Hcases).
    rewrite E1. cbn [app map quote_symbol_of instruction].
    set (asked := [(V3WorkingTest.place_order_with_kite_exchange symbol ++ ":" ++ symbol)%string])
      in *.
    set (w1 := mkworld g1 (calls w ++ map Quote asked ++ map PlaceOrder placed)).
    destruct (log_of_one_order asked placed) as (Lq & Lo & Lh & Lb).
    assert (Hplaced : subsequence (map instruction_of placed) [(Some symbol, direction, quantity)]
                      /\ Forall (fun o => validity o = "DAY" /\
                                          Kite.order_type (request o) = "LIMIT" /\
                                          Kite.price (request o) <> None) placed).
    { destruct Hcases as [(-> & _)|(p & price & _ & _ & _ & -> & _)].
      - split; [apply subsequence_skip; apply subsequence_nil|constructor].
      - split; [apply subsequence_keep; apply subsequence_nil|].
        constructor; [|constructor]. cbn. repeat split. discriminate. }
    destruct Hplaced as (Hsub & Hvalid).
    (* what the rest of the loop does, from either accumulator *)
    assert (Rest : forall acc' extra,
               placements_updates acc' = placements_updates acc ++ extra ->
               placed_count acc' = placed_count acc + Z.of_nat (List.length extra) ->
               skipped_count acc' = skipped_count acc ->
               invalid_count acc' = invalid_count acc ->
               (List.length extra <= List.length placed)%nat ->
               Forall (fun u =>
                         exists row_num timestamp price order_id,
                           idx < row_num <= idx + Z.of_nat (List.length (row :: rest)) /\
                           range u = row_range "D" "G" row_num /\
                           values u = [Py.PyStr "Order_Placed"; Py.PyStr timestamp;
                                       Py.PyFloat price; Py.PyStr order_id] /\
                           order_id <> "" /\
                           exists o, In o placed /\ Kite.price (request o) = Some price)
                      extra ->
               exists done g new_calls new_updates,
                 place_rows kite int_of_float (idx + 1) rest acc' w1
                 = (done, mkworld g (calls w ++ new_calls)) /\
                 quotes_in new_calls
                 = asked ++ map quote_symbol_of (pending_rows int_of_float rest) /\
                 subsequence (map instruction_of (orders_in new_calls))
                             ((Some symbol, direction, quantity)
                              :: map instruction (pending_rows int_of_float rest)) /\
                 Forall (fun o => validity o = "DAY" /\ Kite.order_type (request o) = "LIMIT" /\
                                  Kite.price (request o) <> None)
                        (orders_in new_calls) /\
                 histories_in new_calls = [] /\
                 batches_in new_calls = [] /\
                 placements_updates done = placements_updates acc ++ new_updates /\
                 placed_count done = placed_count acc + Z.of_nat (List.length new_updates) /\
                 (List.length new_updates <= List.length (orders_in new_calls))%nat /\
                 skipped_count done
                 = skipped_count acc + Z.of_nat (List.length (filter marked rest)) /\
                 invalid_count done
                 = invalid_count acc + Z.of_nat (List.length (filter incomplete rest)) /\
                 Forall (fun u =>
                           exists row_num timestamp price order_id,
                             idx < row_num <= idx + Z.of_nat (List.length (row :: rest)) /\
                             range u = row_range "D" "G" row_num /\
                             values u = [Py.PyStr "Order_Placed"; Py.PyStr timestamp;
                                         Py.PyFloat price; Py.PyStr order_id] /\
                             order_id <> "" /\
                             exists o, In o (orders_in new_calls) /\
                                       Kite.price (request o) = Some price)
                        new_updates).
    { intros acc' extra Hu' Hp' Hs' Hi' Hl' Hr'.
      destruct (IH (idx + 1) acc' w1)
        as (done & g & new_calls & new_updates & E & Hq & Ho & Hv & Hh & Hb & Hu & Hp & Hl
            & Hs & Hi & Hr).
      exists done, g, ((map Quote asked ++ map PlaceOrder placed) ++ new_calls),
             (extra ++ new_updates).
      subst w1. cbn [calls] in E. rewrite E.
      split; [now rewrite <- !app_assoc|].
      rewrite (proj1 (log_app (map Quote asked ++ map PlaceOrder placed) new_calls)).
      rewrite (proj1 (proj2 (log_app (map Quote asked ++ map PlaceOrder placed) new_calls))).
      rewrite (proj1 (proj2 (proj2 (log_app (map Quote asked ++ map PlaceOrder placed)
                                            new_calls)))).
      rewrite (proj2 (proj2 (proj2 (log_app (map Quote asked ++ map PlaceOrder placed)
                                            new_calls)))).
      rewrite Lq, Lo, Lh, Lb, Hq, Hh, Hb.
      split; [reflexivity|].
      split; [rewrite map_app;
              apply (subsequence_app _ [(Some symbol, direction, quantity)]); assumption|].
      split; [apply Forall_app; auto|].
      split; [reflexivity|]. split; [reflexivity|].
      split; [rewrite Hu, Hu'; now rewrite app_assoc|].
      split; [rewrite Hp, Hp', length_app; lia|].
      split; [rewrite !length_app; lia|].
      split; [lia|]. split; [lia|].
      apply Forall_app. split.
      - eapply Forall_impl; [|exact Hr'].
        intros u (n & ts & pr & id & Hn & Hrg & Hvl & Hid & o & Hino & Hpr).
        exists n, ts, pr, id. repeat (split; [assumption|]).
        exists o. split; [apply in_or_app; now left|exact Hpr].
      - eapply Forall_impl; [|exact Hr].
        intros u (n & ts & pr & id & Hn & Hrg & Hvl & Hid & o & Hino & Hpr).
        exists n, ts, pr, id. cbn [List.length]. split; [lia|].
        repeat (split; [assumption|]).
        exists o. split; [apply in_or_app; now right|exact Hpr]. }
    assert (Keep : exists done g new_calls new_updates,
               place_rows kite int_of_float (idx + 1) rest acc w1
               = (done, mkworld g (calls w ++ new_calls)) /\ _)
      by (apply (Rest acc []); rewrite ?app_nil_r; cbn; try reflexivity; try lia; constructor).
    destruct result as [[order_id|] limit_price]; [|exact Keep].
    destruct (Py.nonempty order_id) eqn:Hid; [|exact Keep].
    unfold bind at 1, get_indian_timestamp.
    destruct Hcases as [(_ & Hres)|(p & price & _ & _ & _ & -> & _ & [Hres|(id & Hres)])];
      try discriminate.
    assert (order_id = id /\ limit_price = Some price) as (-> & ->)
      by (split; congruence).
    apply (Rest _ [ {| range := row_range "D" "G" (idx + 1);
                       values := [Py.PyStr "Order_Placed"; Py.PyStr (clock kite (state w1));
                                  Py.PyFloat price; Py.PyStr id] |} ]);
      cbn [placements_updates placed_count skipped_count invalid_count List.length];
      try reflexivity; try lia.
    constructor; [|constructor].
    exists (idx + 1), (clock kite (state w1)), price, id.
    split; [cbn [List.length]; lia|]. split; [reflexivity|]. split; [reflexivity|].
    split; [intros ->; discriminate|].
    eexists. split; [now left|reflexivity].
Qed.

Lemma short_sheet (rows : list (list string)) :
  (Z.of_nat (List.length rows) <=? 1) = true -> tl rows = [].
Proof.
  destruct rows as [|header [|row rest]]; try reflexivity.
  intros H. apply Z.leb_le in H. cbn [List.length] in H. lia.
Qed.

Lemma long_sheet (rows : list (list string)) :
  (Z.of_nat (List.length rows) <=? 1) = false ->
  Z.of_nat (List.length (tl rows)) = Z.of_nat (List.length rows) - 1.
Proof.
  destruct rows as [|header rest]; cbn [tl List.length]; [discriminate|lia].
Qed.

(** X21.  Step 1 of the queue processor sends the gateway nothing but the
    pending rows of the sheet: the rows below the header that hold a symbol,
    a direction and a quantity that converts, and are not marked
    Order_Placed (in any letter case, blanks around it ignored).  It asks
    one quote per pending row, in order; the orders it places are, in order,
    orders for some of the pending rows, at most one per row, each with the
    row's symbol, direction and quantity, as a limit order with a price,
    valid for the day; it never asks for an order history.  It writes to the
    sheet at most once, after the last order, one update per order id it
    received, each on columns D to G of a row below the header; and the text
    it reports counts the rows below the header, these updates, the complete
    rows already marked, and the incomplete rows. *)
Theorem queue_places_only_pending_rows
        {G : Type} (kite : gateway G) (int_of_float : string -> option Z)
        (rows : list (list string)) (w : world G) :
  let run := placement_step kite int_of_float rows w in
  let data := tl rows in
  exists new_calls updates,
    calls (snd run)
    = calls w ++ new_calls ++ match updates with [] => [] | _ => [BatchUpdate updates] end /\
    quotes_in new_calls = map quote_symbol_of (pending_rows int_of_float data) /\
    subsequence (map instruction_of (orders_in new_calls))
                (map instruction (pending_rows int_of_float data)) /\
    Forall (fun o => validity o = "DAY" /\ Kite.order_type (request o) = "LIMIT" /\
                     Kite.price (request o) <> None)
           (orders_in new_calls) /\
    histories_in new_calls = [] /\
    batches_in new_calls = [] /\
    (List.length updates <= List.length (orders_in new_calls))%nat /\
    Forall (fun u =>
              exists row_num timestamp price order_id,
                2 <= row_num <= Z.of_nat (List.length rows) /\
                range u = row_range "D" "G" row_num /\
                values u = [Py.PyStr "Order_Placed"; Py.PyStr timestamp; Py.PyFloat price;
                            Py.PyStr order_id] /\
                order_id <> "" /\
                exists o, In o (orders_in new_calls) /\ Kite.price (request o) = Some price)
           updates /\
    fst run
    = if Z.of_nat (List.length rows) <=? 1 then inl "No data rows found"
      else inr (place_result (Z.of_nat (List.length rows) - 1)
                             (Z.of_nat (List.length updates))
                             (Z.of_nat (List.length (filter marked data)))
                             (Z.of_nat (List.length (filter incomplete data)))).
Proof.
  intros run data. subst run data. unfold placement_step.
  destruct (Z.of_nat (List.length rows) <=? 1) eqn:Short.
  - rewrite (short_sheet rows Short). exists [], []. cbn [ret fst snd app].
    rewrite app_nil_r. repeat split; constructor.
  - pose proof (long_sheet rows Short) as Hlen.
    unfold bind.
    destruct (place_rows_run kite int_of_float (tl rows) 1 (mkplacement [] 0 0 0) w)
      as (done & g & new_calls & new_updates & E & Hq & Ho & Hv & Hh & Hb & Hu & Hp & Hl
          & Hs & Hi & Hr).
    rewrite E. destruct done as [pu pc sc ic].
    cbn [placements_updates placed_count skipped_count invalid_count app] in *.
    rewrite Z.add_0_l in Hp, Hs, Hi. subst pu pc sc ic.
    exists new_calls, new_updates.
    assert (Hshape : Forall (fun u =>
              exists row_num timestamp price order_id,
                2 <= row_num <= Z.of_nat (List.length rows) /\
                range u = row_range "D" "G" row_num /\
                values u = [Py.PyStr "Order_Placed"; Py.PyStr timestamp; Py.PyFloat price;
                            Py.PyStr order_id] /\
                order_id <> "" /\
                exists o, In o (orders_in new_calls) /\ Kite.price (request o) = Some price)
           new_updates).
    { eapply Forall_impl; [|exact Hr].
      intros u (n & ts & pr & id & Hn & Hrest). exists n, ts, pr, id. split; [lia|exact Hrest]. }
    destruct new_updates as [|u us].
    + unfold ret. cbn [fst snd calls app]. rewrite app_nil_r.
      repeat (split; [assumption || reflexivity|]). reflexivity.
    + unfold batch_update, ret. cbn [fst snd calls state]. rewrite <- app_assoc.
      repeat (split; [assumption || reflexivity|]). reflexivity.
Qed.

Lemma status_rows_run {G : Type} (kite : gateway G) (rows : list (list string)) :
  forall (idx : Z) (acc : reconciliation) (w : world G),
  exists done g new_updates,
    status_rows kite idx rows acc w
    = (done, mkworld g (calls w ++ map OrderHistory (placed_ids rows))) /\
    status_updates done = status_updates acc ++ new_updates /\
    updated_count done = updated_count acc + Z.of_nat (List.length new_updates) /\
    (updated_count done - updated_count acc) + (error_count done - error_count acc)
    = Z.of_nat (List.length (placed_ids rows)) /\
    error_count acc <= error_count done /\
    Forall (fun u =>
              exists row_num text timestamp,
                idx < row_num <= idx + Z.of_nat (List.length rows) /\
                range u = row_range "H" "I" row_num /\
                values u = [Py.PyStr text; Py.PyStr timestamp] /\
                text <> "")
           new_updates.
Proof.
  induction rows as [|row rest IH]; intros idx acc w.
  - exists acc, (state w), []. cbn [status_rows ret placed_ids flat_map map].
    rewrite world_eta, app_nil_r. cbn. repeat split; try constructor; lia.
  - cbn [status_rows]. unfold placed_ids. cbn [flat_map]. fold (placed_ids rest).
    unfold placed_id. cbv zeta.
    set (action_status := Py.upper (Py.strip (cell row 3))).
    set (order_id := Py.strip (cell row 6)).
    assert (Weaken : forall new_updates : list update,
               Forall (fun u =>
                         exists row_num text timestamp,
                           idx + 1 < row_num <= idx + 1 + Z.of_nat (List.length rest) /\
                           range u = row_range "H" "I" row_num /\
                           values u = [Py.PyStr text; Py.PyStr timestamp] /\
                           text <> "")
                      new_updates ->
               Forall (fun u =>
                         exists row_num text timestamp,
                           idx < row_num <= idx + Z.of_nat (List.length (row :: rest)) /\
                           range u = row_range "H" "I" row_num /\
                           values u = [Py.PyStr text; Py.PyStr timestamp] /\
                           text <> "")
                      new_updates).
    { intros l Hl. eapply Forall_impl; [|exact Hl].
      intros u (n & tx & ts & Hn & Hrest). exists n, tx, ts. cbn [List.length].
      split; [lia|exact Hrest]. }
    destruct (String.eqb action_status "ORDER_PLACED" && Py.nonempty order_id)%bool;
      cbv beta iota.
    2:{ destruct (IH (idx + 1) acc w)
          as (done & g & new_updates & E & Hu & Hc & Hsum & Hmono & Hr).
        exists done, g, new_updates. cbn [app map].
        repeat (split; [assumption|]). apply Weaken. exact Hr. }
    unfold bind at 1. unfold check_order_status, bind, order_history, ret.
    destruct (answer_history kite (state w) order_id) as [history g1].
    set (w1 := mkworld g1 (calls w ++ [OrderHistory order_id])).
    assert (Error : exists done g new_updates,
               status_rows kite (idx + 1) rest
                 (mkreconciliation (status_updates acc) (updated_count acc) (error_count acc + 1))
                 w1
               = (done, mkworld g (calls w ++ map OrderHistory ([order_id] ++ placed_ids rest))) /\
               status_updates done = status_updates acc ++ new_updates /\
               updated_count done = updated_count acc + Z.of_nat (List.length new_updates) /\
               (updated_count done - updated_count acc) + (error_count done - error_count acc)
               = Z.of_nat (List.length ([order_id] ++ placed_ids rest)) /\
               error_count acc <= error_count done /\
               Forall (fun u =>
                         exists row_num text timestamp,
                           idx < row_num <= idx + Z.of_nat (List.length (row :: rest)) /\
                           range u = row_range "H" "I" row_num /\
                           values u = [Py.PyStr text; Py.PyStr timestamp] /\
                           text <> "")
                      new_updates).
    { destruct (IH (idx + 1)
                  (mkreconciliation (status_updates acc) (updated_count acc)
                                    (error_count acc + 1)) w1)
        as (done & g & new_updates & E & Hu & Hc & Hsum & Hmono & Hr).
      exists done, g, new_updates. subst w1. cbn [calls] in E. rewrite E.
      cbn [status_updates updated_count error_count app map List.length] in *.
      rewrite <- app_assoc. cbn [app].
      repeat (split; [assumption || reflexivity || lia|]). apply Weaken. exact Hr. }
    destruct (V3WorkingTest.check_order_status history) as [text|]; [|exact Error].
    destruct (Py.nonempty text) eqn:Ht; [|exact Error].
    unfold get_indian_timestamp.
    destruct (IH (idx + 1)
                (mkreconciliation
                   (status_updates acc
                    ++ [ {| range := row_range "H" "I" (idx + 1);
                            values := [Py.PyStr text; Py.PyStr (clock kite (state w1))] |} ])
                   (updated_count acc + 1) (error_count acc)) w1)
      as (done & g & new_updates & E & Hu & Hc & Hsum & Hmono & Hr).
    exists done, g,
           ({| range := row_range "H" "I" (idx + 1);
               values := [Py.PyStr text; Py.PyStr (clock kite (state w1))] |} :: new_updates).
    subst w1. cbn [calls state] in *. rewrite E.
    cbn [status_updates updated_count error_count app map List.length] in *.
    rewrite <- app_assoc. cbn [app].
    split; [reflexivity|]. split; [now rewrite Hu, <- app_assoc|].
    split; [lia|]. split; [lia|]. split; [lia|].
    constructor; [|apply Weaken; exact Hr].
    exists (idx + 1), text, (clock kite g1). split; [cbn [List.length]; lia|].
    repeat split. intros ->. discriminate.
Qed.

(** X22.  The status check asks the gateway for the history of exactly the
    orders whose rows, below the header, are marked Order_Placed (in any
    letter case, blanks ignored) and hold an order id: one call per such
    row, in order, and no order is placed or quoted.  Every such row is
    either updated or counted as an error, the two counts being the ones in
    the text returned; the updates, one per status obtained, go to columns H
    and I of rows below the header and are written to the sheet in one
    batch after the last call. *)
Theorem status_check_asks_about_placed_rows
        {G : Type} (kite : gateway G) (rows : list (list string)) (w : world G) :
  let run := update_order_statuses kite rows w in
  exists updates errors,
    calls (snd run)
    = calls w ++ map OrderHistory (placed_ids (tl rows))
      ++ match updates with [] => [] | _ => [BatchUpdate updates] end /\
    Z.of_nat (List.length updates) + errors = Z.of_nat (List.length (placed_ids (tl rows))) /\
    0 <= errors /\
    Forall (fun u =>
              exists row_num text timestamp,
                2 <= row_num <= Z.of_nat (List.length rows) /\
                range u = row_range "H" "I" row_num /\
                values u = [Py.PyStr text; Py.PyStr timestamp] /\
                text <> "")
           updates /\
    fst run
    = if Z.of_nat (List.length rows) <=? 1 then "No data rows found"
      else ("status_updated=" ++ V3WorkingTest.str_of_int (Z.of_nat (List.length updates))
            ++ ", errors=" ++ V3WorkingTest.str_of_int errors)%string.
Proof.
  intros run. subst run. unfold update_order_statuses.
  destruct (Z.of_nat (List.length rows) <=? 1) eqn:Short.
  - rewrite (short_sheet rows Short). exists [], 0. cbn [ret fst snd app placed_ids flat_map map].
    rewrite app_nil_r. repeat split; try constructor; try lia.
  - pose proof (long_sheet rows Short) as Hlen.
    unfold bind.
    destruct (status_rows_run kite (tl rows) 1 (mkreconciliation [] 0 0) w)
      as (done & g & new_updates & E & Hu & Hc & Hsum & Hmono & Hr).
    rewrite E. destruct done as [su uc ec].
    cbn [status_updates updated_count error_count app] in *.
    rewrite Z.add_0_l in Hc. subst su uc.
    exists new_updates, ec.
    assert (Hshape : Forall (fun u =>
              exists row_num text timestamp,
                2 <= row_num <= Z.of_nat (List.length rows) /\
                range u = row_range "H" "I" row_num /\
                values u = [Py.PyStr text; Py.PyStr timestamp] /\
                text <> "")
           new_updates).
    { eapply Forall_impl; [|exact Hr].
      intros u (n & tx & ts & Hn & Hrest). exists n, tx, ts. split; [lia|exact Hrest]. }
    destruct new_updates as [|u us].
    + unfold ret. cbn [fst snd calls app]. rewrite app_nil_r.
      repeat (split; [assumption || reflexivity || lia|]). reflexivity.
    + unfold batch_update, ret. cbn [fst snd calls state]. rewrite <- app_assoc.
      repeat (split; [assumption || reflexivity || lia|]). reflexivity.
Qed.

(** ** Days to expiry *)

Lemma matches_keeps_time (ds : list Datetime.directive) :
  forallb date_directive ds = true ->
  forall (g : Datetime.groups) (s : string) (g' : Datetime.groups) (r : string),
    In (g', r) (Datetime.matches ds g s) ->
    Datetime.gH g' = Datetime.gH g /\ Datetime.gM g' = Datetime.gM g /\
    Datetime.gS g' = Datetime.gS g /\ Datetime.gf g' = Datetime.gf g.
Proof.
  induction ds as [|d ds IH]; intros Hds g s g' r Hin.
  - cbn in Hin. destruct Hin as [Heq|[]]. assert (g = g') by congruence. subst g'. auto.
  - cbn [forallb] in Hds. apply andb_true_iff in Hds. destruct Hds as (Hd & Hds).
    cbn [Datetime.matches] in Hin. apply in_flat_map in Hin.
    destruct Hin as ((g1 & r1) & Hstep & Hin).
    destruct (IH Hds g1 r1 g' r Hin) as (HH & HM & HS & Hf).
    rewrite HH, HM, HS, Hf. clear - Hstep Hd.
    destruct d; try discriminate; cbn [Datetime.step] in Hstep;
      apply in_map_iff in Hstep; destruct Hstep as ((v & r') & Heq & _);
      assert (E : g1 = fst (g1, r1)) by reflexivity; rewrite <- Heq in E; subst g1;
      cbn; auto.
Qed.

(** A date parsed without a time of day is the midnight of that date. *)
Lemma strptime_date_midnight (text : string) (d : Datetime.datetime) :
  Datetime.strptime text "%Y-%m-%d" = Some d ->
  time_of_day d = 0.
Proof.
  unfold Datetime.strptime.
  destruct (Datetime.matches _ _ text) as [|[g rest] others] eqn:M; [discriminate|].
  destruct rest; [|discriminate].
  intros H. apply make_valid in H. destruct H as (-> & _).
  destruct (matches_keeps_time (Datetime.directives "%Y-%m-%d") eq_refl
              Datetime.no_groups text g "") as (HH & HM & HS & Hf).
  { rewrite M. now left. }
  unfold time_of_day. cbn [Datetime.hour Datetime.minute Datetime.second Datetime.microsecond].
  rewrite HH, HM, HS, Hf. reflexivity.
Qed.

Lemma microseconds_split (d : Datetime.datetime) :
  Datetime.microseconds d = Datetime.toordinal d * 86400000000 + time_of_day d.
Proof. unfold Datetime.microseconds, time_of_day. ring. Qed.

Lemma valid_time_of_day (d : Datetime.datetime) :
  valid_datetime d -> 0 <= time_of_day d < 86400000000.
Proof.
  unfold valid_datetime, Datetime.make, Datetime.in_range.
  destruct (_ && _)%bool eqn:E; [|discriminate]. intros _.
  repeat (apply andb_true_iff in E; destruct E as [E ?]).
  repeat match goal with
         | H : (_ <=? _) = true |- _ => apply Z.leb_le in H
         end.
  unfold time_of_day. lia.
Qed.

(** X23.  The days to expiry of a resolved contract count the whole
    24-hour periods between the current instant and the midnight that opens
    the expiry date: they equal the difference in calendar days when the
    current time is exactly midnight, and one less at any later time of day.
    Hence, after midnight, only a contract that expires at least two calendar
    days ahead is returned; one that expires today or tomorrow is dropped. *)
Theorem days_to_expiry_counts_full_days
        (LOT_SIZE_MAP : Py.dict Z) (current_date : Datetime.datetime) (stock : string)
        (fut_row : FutRow.t) (f : Futures.t) :
  valid_datetime current_date ->
  futures_of_row LOT_SIZE_MAP current_date stock fut_row = Some f ->
  exists expiry_date,
    Datetime.strptime (Futures.expiry f) "%Y-%m-%d" = Some expiry_date /\
    time_of_day expiry_date = 0 /\
    Futures.days_to_expiry f
    = Datetime.toordinal expiry_date - Datetime.toordinal current_date
      - (if time_of_day current_date =? 0 then 0 else 1) /\
    (time_of_day current_date <> 0 ->
     2 <= Datetime.toordinal expiry_date - Datetime.toordinal current_date).
Proof.
  intros Hnow Hrow.
  apply futures_of_row_fields in Hrow as (_ & _ & _ & Hpos & d & Hparse & Hdays).
  pose proof (strptime_date_midnight _ _ Hparse) as Hmid.
  pose proof (valid_time_of_day _ Hnow) as Htod.
  exists d. split; [exact Hparse|]. split; [exact Hmid|].
  assert (Hval : Futures.days_to_expiry f
                 = Datetime.toordinal d - Datetime.toordinal current_date
                   - (if time_of_day current_date =? 0 then 0 else 1)).
  { rewrite Hdays. unfold Datetime.days_between.
    rewrite !microseconds_split, Hmid.
    destruct (Z.eqb_spec (time_of_day current_date) 0) as [E0|N0].
    - rewrite E0.
      replace (Datetime.toordinal d * 86400000000 + 0
               - (Datetime.toordinal current_date * 86400000000 + 0))
        with ((Datetime.toordinal d - Datetime.toordinal current_date) * 86400000000) by ring.
      rewrite Z.div_mul by lia. ring.
    - symmetry. apply Z.div_unique with (r := 86400000000 - time_of_day current_date); lia. }
  split; [exact Hval|].
  intros N0. destruct (Z.eqb_spec (time_of_day current_date) 0); lia.
Qed.

(** At ten in the morning of 5 November, the contract of 27 November is 21
    days away. *)
Lemma days_to_expiry_counts_full_days_witness :
  exists f expiry_date,
    futures_of_row demo_lot_sizes demo_now "ZED"
                   (FutRow.mk "ZED" "ZED25NOVFUT" "FUT" "2025-11-27" (Some (Py.PyInt 40)))
    = Some f /\
    Datetime.strptime (Futures.expiry f) "%Y-%m-%d" = Some expiry_date /\
    Datetime.toordinal expiry_date - Datetime.toordinal demo_now = 22 /\
    Futures.days_to_expiry f = 21.
Proof.
  assert (Hrow : exists f,
             futures_of_row demo_lot_sizes demo_now "ZED"
                            (FutRow.mk "ZED" "ZED25NOVFUT" "FUT" "2025-11-27"
                                       (Some (Py.PyInt 40)))
             = Some f /\ Futures.expiry f = "2025-11-27")
    by (eexists; split; reflexivity).
  destruct Hrow as (f & Hf & He).
  destruct (days_to_expiry_counts_full_days demo_lot_sizes demo_now "ZED" _ f eq_refl Hf)
    as (d & Hparse & _ & Hdays & _).
  exists f, d. split; [exact Hf|]. split; [exact Hparse|].
  rewrite He in Hparse. vm_compute in Hparse.
  assert (Hd : d = Datetime.mkdatetime 2025 11 27 0 0 0 0) by congruence.
  rewrite Hdays, Hd. split; reflexivity.
Defined.

(** ** The order symbol of a resolved contract *)

(** What a parser leaves is the end of what it was given. *)
Lemma one_suffix (p : ascii -> bool) (s : string) (v : Z) (r : string) :
  In (v, r) (Datetime.one p s) -> exists c, s = String c r /\ p c = true.
Proof.
  destruct s as [|c s']; cbn; [contradiction|].
  destruct (p c) eqn:E; [|contradiction].
  intros [H|[]]. exists c. split; [congruence|exact E].
Qed.

Lemma two_suffix (p1 p2 : ascii -> bool) (s : string) (v : Z) (r : string) :
  In (v, r) (Datetime.two p1 p2 s) ->
  exists c1 c2, s = String c1 (String c2 r) /\ p1 c1 = true /\ p2 c2 = true.
Proof.
  destruct s as [|c1 [|c2 s']]; cbn; try contradiction.
  destruct (p1 c1) eqn:E1; [|contradiction].
  destruct (p2 c2) eqn:E2; [|contradiction].
  intros [H|[]]. exists c1, c2. split; [congruence|]. split; [exact E1|exact E2].
Qed.

Lemma between_not_space (lo hi : N) (c : ascii) :
  (48 <= lo)%N -> (hi <= 57)%N -> Py.between lo hi c = true -> Py.isspace c = false.
Proof.
  unfold Py.between, Py.isspace, Py.between. intros Hlo Hhi H.
  apply andb_true_iff in H. destruct H as (H1 & H2).
  apply N.leb_le in H1, H2.
  apply orb_false_iff. split; apply andb_false_iff.
  - right. apply N.leb_gt. lia.
  - right. apply N.leb_gt. lia.
Qed.

Lemma isdigit_not_space (c : ascii) : Py.isdigit c = true -> Py.isspace c = false.
Proof. apply between_not_space; lia. Qed.

(** The text a day of the month is read from, when nothing is left after
    it: it is not empty and white space at its end is not stripped. *)
Lemma re_d_whole (s : string) (v : Z) :
  In (v, EmptyString) (Datetime.re_d s) ->
  s <> EmptyString /\ Py.rstrip_by Py.isspace s = s.
Proof.
  unfold Datetime.re_d, Datetime.alt. rewrite !in_app_iff.
  intros [H|[H|[H|[H|H]]]].
  - apply two_suffix in H as (c1 & c2 & -> & _ & H2). split; [discriminate|].
    cbn. now rewrite (between_not_space 48 49 c2) by (assumption || lia).
  - apply two_suffix in H as (c1 & c2 & -> & _ & H2). split; [discriminate|].
    cbn. now rewrite (isdigit_not_space c2).
  - apply two_suffix in H as (c1 & c2 & -> & _ & H2). split; [discriminate|].
    cbn. now rewrite (between_not_space 49 57 c2) by (assumption || lia).
  - apply one_suffix in H as (c & -> & H1). split; [discriminate|].
    cbn. now rewrite (between_not_space 49 57 c) by (assumption || lia).
  - destruct s as [|c0 s']; [contradiction|].
    destruct (Ascii.eqb_spec c0 " ") as [->|Hne].
    + apply one_suffix in H as (c & -> & H1). split; [discriminate|].
      cbn. now rewrite (between_not_space 49 57 c) by (assumption || lia).
    + exfalso. destruct c0 as [[] [] [] [] [] [] [] []]; contradiction.
Qed.

Lemma rstrip_app (p : ascii -> bool) (pre r : string) :
  r <> EmptyString -> Py.rstrip_by p r = r ->
  Py.rstrip_by p (pre ++ r) = (pre ++ r)%string.
Proof.
  intros Hne Hr. induction pre as [|c pre IH]; cbn [String.append]; [exact Hr|].
  cbn [Py.rstrip_by]. rewrite IH.
  destruct (pre ++ r)%string eqn:E; [|reflexivity].
  destruct pre; cbn in E; [contradiction|discriminate].
Qed.

Lemma step_suffix (d : Datetime.directive) (g : Datetime.groups) (s : string)
      (g' : Datetime.groups) (r : string) :
  date_directive d = true ->
  In (g', r) (Datetime.step d g s) -> d <> Datetime.Spaces ->
  exists pre, s = (pre ++ r)%string.
Proof.
  intros Hd Hin Hns.
  destruct d; try discriminate; try contradiction; cbn [Datetime.step] in Hin;
    apply in_map_iff in Hin; destruct Hin as ((v & r') & Heq & Hin);
    assert (r' = r) by congruence; subst r'.
  - unfold Datetime.four_digits in Hin.
    destruct s as [|a [|b [|c [|d s']]]]; try contradiction.
    destruct (_ && _)%bool; [|contradiction]. destruct Hin as [H|[]].
    exists (String a (String b (String c (String d "")))). cbn. congruence.
  - unfold Datetime.re_m, Datetime.alt in Hin. rewrite !in_app_iff in Hin.
    destruct Hin as [H|[H|H]].
    + apply two_suffix in H as (c1 & c2 & -> & _). now exists (String c1 (String c2 "")).
    + apply two_suffix in H as (c1 & c2 & -> & _). now exists (String c1 (String c2 "")).
    + apply one_suffix in H as (c & -> & _). now exists (String c "").
  - unfold Datetime.re_d, Datetime.alt in Hin. rewrite !in_app_iff in Hin.
    destruct Hin as [H|[H|[H|[H|H]]]].
    + apply two_suffix in H as (c1 & c2 & -> & _). now exists (String c1 (String c2 "")).
    + apply two_suffix in H as (c1 & c2 & -> & _). now exists (String c1 (String c2 "")).
    + apply two_suffix in H as (c1 & c2 & -> & _). now exists (String c1 (String c2 "")).
    + apply one_suffix in H as (c & -> & _). now exists (String c "").
    + destruct s as [|c0 s']; [contradiction|].
      destruct (Ascii.eqb_spec c0 " ") as [->|Hne].
      * apply one_suffix in H as (c & -> & _). now exists (String " " (String c "")).
      * exfalso. destruct c0 as [[] [] [] [] [] [] [] []]; contradiction.
  - unfold Datetime.re_lit in Hin. destruct s as [|x s']; [contradiction|].
    destruct (Ascii.eqb _ _); [|contradiction]. destruct Hin as [H|[]].
    exists (String x ""). cbn. congruence.
Qed.

(** A text that parses as a date has no white space to strip and is not
    empty. *)
Lemma strptime_date_text (text : string) (d : Datetime.datetime) :
  Datetime.strptime text "%Y-%m-%d" = Some d ->
  text <> EmptyString /\ Py.strip text = text.
Proof.
  unfold Datetime.strptime.
  destruct (Datetime.matches _ _ text) as [|[g rest] others] eqn:M; [discriminate|].
  destruct rest; [|discriminate]. intros _.
  assert (Hin : In (g, EmptyString)
                   (Datetime.matches (Datetime.directives "%Y-%m-%d") Datetime.no_groups text))
    by (rewrite M; now left).
  clear M others.
  change (Datetime.directives "%Y-%m-%d")
    with [Datetime.DY; Datetime.Lit "-"; Datetime.Dm; Datetime.Lit "-"; Datetime.Dd] in Hin.
  cbn [Datetime.matches] in Hin.
  apply in_flat_map in Hin. destruct Hin as ((g1 & r1) & S1 & Hin).
  apply in_flat_map in Hin. destruct Hin as ((g2 & r2) & S2 & Hin).
  apply in_flat_map in Hin. destruct Hin as ((g3 & r3) & S3 & Hin).
  apply in_flat_map in Hin. destruct Hin as ((g4 & r4) & S4 & Hin).
  apply in_flat_map in Hin. destruct Hin as ((g5 & r5) & S5 & Hin).
  destruct Hin as [Heq|[]]. assert (r5 = EmptyString) by congruence. subst r5.
  (* the year opens the text with a digit *)
  assert (Hfirst : exists c rest, text = String c rest /\ Py.isspace c = false).
  { cbn [Datetime.step] in S1. apply in_map_iff in S1. destruct S1 as ((v & r') & _ & S1).
    unfold Datetime.four_digits in S1.
    destruct text as [|a [|b [|c [|d' s']]]]; try contradiction.
    destruct (Py.isdigit a) eqn:Da; [|contradiction].
    exists a, (String b (String c (String d' s'))). split; [reflexivity|].
    now apply isdigit_not_space. }
  (* the day closes it *)
  assert (Hlast : r4 <> EmptyString /\ Py.rstrip_by Py.isspace r4 = r4).
  { cbn [Datetime.step] in S5. apply in_map_iff in S5. destruct S5 as ((v & r') & Hv & S5).
    assert (r' = EmptyString) by congruence. subst r'. now apply re_d_whole in S5. }
  destruct (step_suffix Datetime.DY _ _ _ _ eq_refl S1 ltac:(discriminate)) as (p1 & E1).
  destruct (step_suffix (Datetime.Lit "-") _ _ _ _ eq_refl S2 ltac:(discriminate))
    as (p2 & E2).
  destruct (step_suffix Datetime.Dm _ _ _ _ eq_refl S3 ltac:(discriminate)) as (p3 & E3).
  destruct (step_suffix (Datetime.Lit "-") _ _ _ _ eq_refl S4 ltac:(discriminate))
    as (p4 & E4).
  destruct Hfirst as (c & rest & Ht & Hc). destruct Hlast as (Hne & Hr).
  split; [rewrite Ht; discriminate|].
  unfold Py.strip.
  assert (Hl : Py.lstrip_by Py.isspace text = text)
    by (rewrite Ht; cbn; now rewrite Hc).
  rewrite Hl. rewrite E1, E2, E3, E4.
  repeat (apply rstrip_app; [destruct p1, p2, p3, p4; discriminate || assumption|]).
  exact Hr.
Qed.

(** X24.  Resolver and symbol formatter together: for a contract whose
    expiry, in the instrument dump, is a plain date (no time part), the
    order symbol stored with the contract is the stock's symbol reduced to
    upper-case letters and digits, followed by the two-digit year and the
    three-letter month of the very date the days to expiry are counted
    to. *)
Theorem resolved_contract_order_symbol
        (LOT_SIZE_MAP : Py.dict Z) (current_date : Datetime.datetime) (stock : string)
        (fut_row : FutRow.t) (f : Futures.t) :
  stock <> "" ->
  Py.contains "T" (FutRow.expiry fut_row) = false ->
  futures_of_row LOT_SIZE_MAP current_date stock fut_row = Some f ->
  exists expiry_date,
    Datetime.strptime (FutRow.expiry fut_row) "%Y-%m-%d" = Some expiry_date /\
    Futures.expiry f = FutRow.expiry fut_row /\
    Futures.days_to_expiry f = Datetime.days_between expiry_date current_date /\
    Futures.order_tradingsymbol f = (cleaned stock ++ yy_mmm expiry_date)%string.
Proof.
  intros Hstock HT Hrow.
  assert (Hexp : Futures.expiry f = FutRow.expiry fut_row).
  { revert Hrow. unfold futures_of_row. cbv zeta. rewrite HT.
    destruct (Datetime.strptime _ _); [|discriminate].
    destruct (0 <? _); [|discriminate]. intros H. now some_eq H. }
  apply futures_of_row_fields in Hrow as (_ & Hord & _ & _ & d & Hparse & Hdays).
  rewrite Hexp in Hparse.
  exists d. split; [exact Hparse|]. split; [exact Hexp|]. split; [exact Hdays|].
  rewrite Hord. unfold format_futures_order_symbol.
  destruct (strptime_date_text _ _ Hparse) as (Hne & Hstrip).
  destruct stock as [|c s]; [congruence|].
  destruct (FutRow.expiry fut_row) as [|c' e'] eqn:Ee; [congruence|].
  cbn [Py.nonempty negb orb]. rewrite Hstrip.
  unfold expiry_formats. cbn [parse_expiry]. rewrite Hparse.
  apply strptime_valid in Hparse. destruct Hparse as (Hy & Hm).
  rewrite strftime_yb_upper by lia. reflexivity.
Qed.

(** The November contract of the demonstration dump, under a symbol with
    punctuation. *)
Lemma resolved_contract_order_symbol_witness :
  exists f,
    futures_of_row demo_lot_sizes demo_now "m&m"
                   (FutRow.mk "M&M" "M&M25NOVFUT" "FUT" "2025-11-27" (Some (Py.PyInt 40)))
    = Some f /\
    Futures.order_tradingsymbol f = "MM25NOV".
Proof.
  assert (Hrow : exists f,
             futures_of_row demo_lot_sizes demo_now "m&m"
                            (FutRow.mk "M&M" "M&M25NOVFUT" "FUT" "2025-11-27"
                                       (Some (Py.PyInt 40)))
             = Some f)
    by (eexists; reflexivity).
  destruct Hrow as (f & Hf). exists f. split; [exact Hf|].
  destruct (resolved_contract_order_symbol
              demo_lot_sizes demo_now "m&m"
              (FutRow.mk "M&M" "M&M25NOVFUT" "FUT" "2025-11-27" (Some (Py.PyInt 40))) f
              ltac:(discriminate) eq_refl Hf) as (d & Hparse & _ & _ & Hsym).
  rewrite Hsym. vm_compute in Hparse.
  assert (Hd : d = Datetime.mkdatetime 2025 11 27 0 0 0 0) by congruence.
  rewrite Hd. reflexivity.
Defined.

(** ** The nearest contract *)

Lemma futures_of_row_days (LOT_SIZE_MAP : Py.dict Z) (now : Datetime.datetime)
      (stock : string) (row : FutRow.t) (f : Futures.t) :
  futures_of_row LOT_SIZE_MAP now stock row = Some f ->
  exists d, expiry_of row = Some d /\
            Futures.days_to_expiry f = Datetime.days_between d now.
Proof.
  unfold futures_of_row, expiry_of. cbv zeta.
  destruct (if Py.contains "T" (FutRow.expiry row) then _ else _) as [d|]; [|discriminate].
  destruct (0 <? _); [|discriminate].
  intros H. some_eq H. exists d. split; reflexivity.
Qed.

Lemma first_valid_future_split (LOT_SIZE_MAP : Py.dict Z) (now : Datetime.datetime)
      (stock : string) (rows : list FutRow.t) (f : Futures.t) :
  first_valid_future LOT_SIZE_MAP now stock rows = Some f ->
  exists before row after,
    rows = before ++ row :: after /\
    futures_of_row LOT_SIZE_MAP now stock row = Some f /\
    forall r, In r before -> futures_of_row LOT_SIZE_MAP now stock r = None.
Proof.
  induction rows as [|row rest IH]; cbn [first_valid_future]; [discriminate|].
  destruct (futures_of_row LOT_SIZE_MAP now stock row) as [f'|] eqn:E.
  - intros H. some_eq H. exists [], row, rest. split; [reflexivity|].
    split; [exact E|]. intros r [].
  - intros H. destruct (IH H) as (before & r0 & after & -> & Hr0 & Hbefore).
    exists (row :: before), r0, after. split; [reflexivity|]. split; [exact Hr0|].
    intros r [<-|Hr]; [exact E|now apply Hbefore].
Qed.

Lemma get_futures_contracts_get
      (LOT_SIZE_MAP : Py.dict Z) (sort_values_expiry : list FutRow.t -> list FutRow.t)
      (instruments : option (list FutRow.t)) (current_date : Datetime.datetime)
      (stock_symbols : list string) (stock : string) (f : Futures.t) :
  Py.get stock (get_futures_contracts LOT_SIZE_MAP sort_values_expiry instruments current_date
                                      stock_symbols) = Some f ->
  In stock stock_symbols /\
  first_valid_future LOT_SIZE_MAP current_date stock
    (sort_values_expiry (filter (is_future_of stock) (get_default [] instruments)))
  = Some f.
Proof.
  unfold get_futures_contracts.
  destruct instruments as [[|row0 rows0]|]; try discriminate.
  cbn [get_default]. set (rows := row0 :: rows0). clearbody rows.
  set (P := fun (s : string) (v : Futures.t) =>
              In s stock_symbols /\
              first_valid_future LOT_SIZE_MAP current_date s
                (sort_values_expiry (filter (is_future_of s) rows)) = Some v).
  assert (Inv : forall l acc,
             incl l stock_symbols ->
             (forall s v, Py.get s acc = Some v -> P s v) ->
             forall s v,
               Py.get s
                 (fold_left
                    (fun futures_data stock =>
                       match filter (is_future_of stock) rows with
                       | [] => futures_data
                       | (_ :: _) as stock_futures =>
                           match first_valid_future LOT_SIZE_MAP current_date stock
                                   (sort_values_expiry stock_futures) with
                           | Some f => Py.set stock f futures_data
                           | None => futures_data
                           end
                       end) l acc) = Some v ->
               P s v).
  { induction l as [|x l IH]; intros acc Hl Hacc; [exact Hacc|].
    cbn [fold_left]. apply IH; [intros y Hy; apply Hl; now right|].
    destruct (filter (is_future_of x) rows) as [|r rs] eqn:F; [exact Hacc|].
    destruct (first_valid_future LOT_SIZE_MAP current_date x (sort_values_expiry (r :: rs)))
      as [fx|] eqn:V; [|exact Hacc].
    intros s v. destruct (String.eqb_spec x s) as [<-|Hne].
    - rewrite get_set_same. intros H. some_eq H. unfold P. rewrite F.
      split; [apply Hl; now left|exact V].
    - rewrite get_set_other by exact Hne. apply Hacc. }
  apply (Inv stock_symbols []); [apply incl_refl|discriminate].
Qed.

Lemma sorted_after {A : Type} (R : A -> A -> Prop) (before : list A) (x : A) (after : list A) :
  StronglySorted R (before ++ x :: after) -> forall y, In y after -> R x y.
Proof.
  induction before as [|b before IH]; cbn [app]; intros S y Hy.
  - inversion S as [|? ? _ Hall]; subst. rewrite Forall_forall in Hall. now apply Hall.
  - inversion S as [|? ? S' _]; subst. now apply IH.
Qed.

(** X25.  When the data-frame sort returns the rows it is given in
    chronological order of expiry, the contract the resolver files under a
    stock is the nearest live one: no row of the dump that belongs to the
    stock and yields a live contract has fewer days to expiry. *)
Theorem resolved_contract_is_the_nearest
        (LOT_SIZE_MAP : Py.dict Z) (sort_values_expiry : list FutRow.t -> list FutRow.t)
        (instruments : option (list FutRow.t)) (current_date : Datetime.datetime)
        (stock_symbols : list string) (stock : string) (f : Futures.t) :
  (forall rows, Permutation rows (sort_values_expiry rows)) ->
  (forall rows, chronological (sort_values_expiry rows)) ->
  Py.get stock (get_futures_contracts LOT_SIZE_MAP sort_values_expiry instruments current_date
                                      stock_symbols) = Some f ->
  forall row f',
    In row (get_default [] instruments) ->
    is_future_of stock row = true ->
    futures_of_row LOT_SIZE_MAP current_date stock row = Some f' ->
    Futures.days_to_expiry f <= Futures.days_to_expiry f'.
Proof.
  intros Hperm Hsorted Hget row f' Hin Hof Hrow.
  apply get_futures_contracts_get in Hget as (_ & Hfirst).
  apply first_valid_future_split in Hfirst
    as (before & chosen & after & Hsplit & Hchosen & Hbefore).
  assert (Hrow_in : In row (before ++ chosen :: after)).
  { rewrite <- Hsplit. apply (Permutation_in _ (Hperm _)).
    apply filter_In. split; assumption. }
  apply in_app_or in Hrow_in. destruct Hrow_in as [Hb|[<-|Ha]].
  - rewrite (Hbefore row Hb) in Hrow. discriminate.
  - assert (f = f') by congruence. subst f'. lia.
  - specialize (Hsorted (filter (is_future_of stock) (get_default [] instruments))).
    unfold chronological in Hsorted. rewrite Hsplit in Hsorted.
    pose proof (sorted_after _ _ _ _ Hsorted row Ha) as Hle.
    apply futures_of_row_days in Hchosen as (d & Hd & ->).
    apply futures_of_row_days in Hrow as (d' & Hd' & ->).
    specialize (Hle d d' Hd Hd'). unfold Datetime.days_between.
    apply Z.div_le_mono; lia.
Qed.

Lemma by_expiry_date_chronological (rows : list FutRow.t) :
  chronological (Demo.by_expiry_date rows).
Proof.
  unfold chronological, Demo.by_expiry_date.
  eapply strongly_sorted_impl;
    [|apply (sorted_by_sorted Z.ltb
               (fun row => match expiry_of row with
                           | Some d => Datetime.microseconds d
                           | None => 0
                           end))].
  - cbv beta. intros a b H d d' Hd Hd'. rewrite Hd, Hd' in H. apply Z.ltb_ge in H. exact H.
  - intros a. apply Z.ltb_irrefl.
  - intros a b c H1 H2. apply Z.ltb_lt in H1, H2. apply Z.ltb_lt. lia.
  - intros a b c H1 H2. apply Z.ltb_ge in H1, H2. apply Z.ltb_ge. lia.
Qed.

(** A stock with a December and a November contract, listed in that order:
    the November one is filed. *)
Lemma resolved_contract_is_the_nearest_witness :
  exists f,
    Py.get "ZED"
           (get_futures_contracts
              demo_lot_sizes Demo.by_expiry_date
              (Some [ FutRow.mk "ZED" "ZED25DECFUT" "FUT" "2025-12-30" (Some (Py.PyInt 40));
                      FutRow.mk "ZED" "ZED25NOVFUT" "FUT" "2025-11-27" (Some (Py.PyInt 40)) ])
              demo_now ["ZED"])
    = Some f /\
    Futures.tradingsymbol f = "ZED25NOVFUT" /\
    forall f',
      futures_of_row demo_lot_sizes demo_now "ZED"
                     (FutRow.mk "ZED" "ZED25DECFUT" "FUT" "2025-12-30" (Some (Py.PyInt 40)))
      = Some f' ->
      Futures.days_to_expiry f <= Futures.days_to_expiry f'.
Proof.
  set (dump := [ FutRow.mk "ZED" "ZED25DECFUT" "FUT" "2025-12-30" (Some (Py.PyInt 40));
                 FutRow.mk "ZED" "ZED25NOVFUT" "FUT" "2025-11-27" (Some (Py.PyInt 40)) ]).
  assert (Hget : exists f,
             Py.get "ZED" (get_futures_contracts demo_lot_sizes Demo.by_expiry_date (Some dump)
                                                 demo_now ["ZED"]) = Some f /\
             Futures.tradingsymbol f = "ZED25NOVFUT")
    by (eexists; split; reflexivity).
  destruct Hget as (f & Hget & Hsym). exists f.
  split; [exact Hget|]. split; [exact Hsym|].
  intros f' Hf'.
  apply (resolved_contract_is_the_nearest
           demo_lot_sizes Demo.by_expiry_date (Some dump) demo_now ["ZED"] "ZED" f
           (fun rows => sorted_by_perm _ _ rows) by_expiry_date_chronological Hget
           (FutRow.mk "ZED" "ZED25DECFUT" "FUT" "2025-12-30" (Some (Py.PyInt 40))) f');
    [left; reflexivity|reflexivity|exact Hf'].
Defined.
